(** * PixelMagic: crop geometry and tool sessions

    A shallow embedding of the client-side logic of the PixelMagic image
    editor: the [clamp] helper of [utils.js], the crop tool of [crop.js]
    (drag, resize, aspect re-constraining, manual input, apply) and the
    upscale tool (scale-option gating on upload, processing).

    Numbers.  JavaScript numbers are IEEE doubles.  Here they are exact
    rationals ([Q]): comparisons, [Math.min]/[Math.max], sums, products and
    quotients are those of the rationals, so rounding error, infinities and
    NaN are outside the model.  A quotient whose divisor is zero (where
    JavaScript yields an infinity or NaN) makes the enclosing operation
    return [None]; everywhere else the operations are total.  The one
    place where the page can divide by zero on its own, the comparison
    slider of the upscale tool on a wrapper of width zero, is modelled
    with what the infinity or NaN does to the position.  [Math.round] is
    the floor of the argument plus one half.  Equality of rationals is
    [Qeq] ([==]).

    Effects.  A handler that awaits (an upload, a processing call) is run
    to its end in one piece, the outcome of each awaited call being an
    argument; what it shows and sends is returned as a list of effects. *)

From Stdlib Require Import QArith Qminmax Qround ZArith Lia Lqa.
From Stdlib Require Import Bool List String Ascii DecimalString Relations.
From Stdlib Require Import DecimalPos.
Import ListNotations.

Open Scope Q_scope.

(** ** JavaScript number helpers *)

Module Js.

(** [a < b] *)
Definition ltb (a b : Q) : bool := negb (Qle_bool b a).

(** [a > b] *)
Definition gtb (a b : Q) : bool := ltb b a.

(** Truthiness of a number: every number but zero (and NaN). *)
Definition truthy (a : Q) : bool := negb (Qeq_bool a 0).

(** [a / b]; [None] when JavaScript leaves the finite numbers. *)
Definition div (a b : Q) : option Q :=
  if Qeq_bool b 0 then None else Some (a / b).

(** [Math.round]: the nearest integer, halves rounded up. *)
Definition round (a : Q) : Z := Qfloor (a + (1 # 2)).

(** Option bind, for the operations that divide. *)
Definition bind {A B : Type} (m : option A) (k : A -> option B) : option B :=
  match m with
  | Some a => k a
  | None => None
  end.

End Js.

Notation "'let?' x ':=' m 'in' k" := (Js.bind m (fun x => k))
  (at level 10, x name, m at level 100, k at level 200).

(** ** utils.js *)

(** [function clamp(value, min, max) { return Math.min(Math.max(value, min), max); }] *)
Definition clamp (value min max : Q) : Q := Qmin (Qmax value min) max.

(** ** [parseInt] on the text of an input field *)

Module ParseInt.

Open Scope char_scope.

(** White space skipped by [parseInt] (the ASCII part of it). *)
Definition isSpace (c : ascii) : bool :=
  match c with
  | " " | "009" | "010" | "011" | "012" | "013" => true
  | _ => false
  end.

Fixpoint skipSpace (s : string) : string :=
  match s with
  | String c s' => if isSpace c then skipSpace s' else s
  | EmptyString => s
  end.

(** Value of a character as a digit of the given radix (10 or 16). *)
Definition digit (radix : Z) (c : ascii) : option Z :=
  let n := Z.of_nat (nat_of_ascii c) in
  let v :=
    if ((48 <=? n) && (n <=? 57))%Z then Some (n - 48)%Z
    else if ((97 <=? n) && (n <=? 102))%Z then Some (n - 87)%Z
    else if ((65 <=? n) && (n <=? 70))%Z then Some (n - 55)%Z
    else None in
  match v with
  | Some d => if (d <? radix)%Z then Some d else None
  | None => None
  end.

(** The longest prefix of digits, read left to right; [acc] is [None]
    until a digit has been seen. *)
Fixpoint digits (radix : Z) (s : string) (acc : option Z) : option Z :=
  match s with
  | String c s' =>
      match digit radix c with
      | Some d =>
          digits radix s'
            (Some (radix * match acc with Some a => a | None => 0 end + d)%Z)
      | None => acc
      end
  | EmptyString => acc
  end.

(** [parseInt(s)]: [None] stands for NaN. *)
Definition parseInt (s : string) : option Z :=
  let s1 := skipSpace s in
  let '(sign, s2) :=
    match s1 with
    | String "-" r => ((-1)%Z, r)
    | String "+" r => (1%Z, r)
    | _ => (1%Z, s1)
    end in
  let '(radix, s3) :=
    match s2 with
    | String "0" (String "x" r) => (16%Z, r)
    | String "0" (String "X" r) => (16%Z, r)
    | _ => (10%Z, s2)
    end in
  match digits radix s3 None with
  | Some n => Some (sign * n)%Z
  | None => None
  end.

(** [parseInt(s) || d]: NaN and 0 are falsy. *)
Definition parseIntOr (s : string) (d : Z) : Z :=
  match parseInt s with
  | Some n => if (n =? 0)%Z then d else n
  | None => d
  end.

End ParseInt.

(** ** The processing API, as the client sees it *)

Module Api.

(** [const API_BASE] *)
Definition API_BASE : string := "http://localhost:8000".

(** What one [fetch] and the reading of its body can come to. *)
Inductive Outcome (A : Type) : Type :=
  | TransportError (message : string)   (* [fetch] rejects *)
  | HttpError (detail : option string)  (* [!response.ok], body [{detail}] *)
  | BadBody (message : string)          (* [response.json()] rejects *)
  | HttpOk (result : A).                (* [response.ok], the parsed body *)

Arguments TransportError {A} message.
Arguments HttpError {A} detail.
Arguments BadBody {A} message.
Arguments HttpOk {A} result.

(** [s || fallback] on a string that may be missing. *)
Definition orString (s : option string) (fallback : string) : string :=
  match s with
  | Some ""%string => fallback
  | Some t => t
  | None => fallback
  end.

(** The shared body of [cropImageAPI], [upscaleImage], ...: the left
    injection is the [message] of the [Error] thrown,
    [new Error(error.detail || fallback)] for a non-2xx response. *)
Definition settle {A : Type} (fallback : string) (o : Outcome A)
    : string + A :=
  match o with
  | TransportError m => inl m
  | HttpError d => inl (orString d fallback)
  | BadBody m => inl m
  | HttpOk r => inr r
  end.

(** The form fields of [POST /crop]. *)
Record CropRequest : Type := mkCropRequest {
  cropFilename : string;
  cropX : Z;
  cropY : Z;
  cropWidth : Z;
  cropHeight : Z
}.

(** The body of a successful [POST /crop]. *)
Record CropResult : Type := mkCropResult {
  resFilename : string;
  resImageUrl : string;
  resWidth : Z;
  resHeight : Z
}.

(** The form fields and the successful body of [POST /upscale]. *)
Record UpscaleRequest : Type := mkUpscaleRequest {
  upscaleFilename : string;
  upscaleScale : Z
}.

Record UpscaleResult : Type := mkUpscaleResult {
  upFilename : string;
  upImageUrl : string
}.

(** The body of a successful [POST /upload]. *)
Record UploadResult : Type := mkUploadResult { uploadFilename : string }.

(** What a handler does to the page and the network, in order. *)
Inductive Effect : Type :=
  | Toast (message type : string)
  | PostCrop (r : CropRequest)
  | PostUpscale (r : UpscaleRequest)
  | PostUpload
  | ShowImage (url : string).

(** [!name]: a file name is falsy when it is null or empty. *)
Definition noName (name : option string) : bool :=
  match name with
  | Some ""%string => true
  | Some _ => false
  | None => true
  end.

End Api.

(** ** crop.js: the crop tool *)

Module Crop.

(** The eight resize handles, named by their [data-handle] attribute. *)
Inductive Handle : Type := tl | tr | bl | br | tm | bm | ml | mr.

Definition handleName (h : Handle) : string :=
  match h with
  | tl => "tl" | tr => "tr" | bl => "bl" | br => "br"
  | tm => "tm" | bm => "bm" | ml => "ml" | mr => "mr"
  end.

(** [s.includes(c)] for a one-character [c]. *)
Fixpoint includes (s : string) (c : ascii) : bool :=
  match s with
  | String d s' => Ascii.eqb d c || includes s' c
  | EmptyString => false
  end.

(** [activeHandle.includes('l')] *)
Definition includesL (h : Handle) : bool := includes (handleName h) "l"%char.

(** [activeHandle.includes('t')] *)
Definition includesT (h : Handle) : bool := includes (handleName h) "t"%char.

(** [['tl', 'tr', 'bl', 'br'].includes(activeHandle)] *)
Definition isCorner (h : Handle) : bool :=
  existsb (String.eqb (handleName h)) ["tl"; "tr"; "bl"; "br"]%string.

(** [cropState], [startCrop] and the locals [newX, newY, newW, newH]. *)
Record CropState : Type := mkCrop { x : Q; y : Q; width : Q; height : Q }.

(** Where a pointer-down lands: on a [.crop-handle] or elsewhere in the box. *)
Inductive Target : Type :=
  | OnHandle (h : Handle)
  | Interior.

(** The module-level state of the crop tool ([currentFile] and
    [containerRect] are written but never read, and are left out). *)
Record State : Type := mkState {
  uploadedFilename : option string;   (* null, or the server's file name *)
  imageWidth : Z;
  imageHeight : Z;
  displayWidth : Q;
  displayHeight : Q;
  scale : Q;
  cropState : CropState;
  aspectRatio : option Q;             (* null is the free crop *)
  isDragging : bool;
  isResizing : bool;
  activeHandle : option Handle;
  startX : Q;
  startY : Q;
  startCrop : CropState;
  resetBtnDisabled : bool;
  applyBtnDisabled : bool;
  downloadBtnDisabled : bool
}.

Definition setCropState (st : State) (c : CropState) : State :=
  mkState (uploadedFilename st) (imageWidth st) (imageHeight st)
    (displayWidth st) (displayHeight st) (scale st) c (aspectRatio st)
    (isDragging st) (isResizing st) (activeHandle st) (startX st) (startY st)
    (startCrop st) (resetBtnDisabled st) (applyBtnDisabled st)
    (downloadBtnDisabled st).

Definition setDisplay (st : State) (dw dh sc : Q) : State :=
  mkState (uploadedFilename st) (imageWidth st) (imageHeight st)
    dw dh sc (cropState st) (aspectRatio st)
    (isDragging st) (isResizing st) (activeHandle st) (startX st) (startY st)
    (startCrop st) (resetBtnDisabled st) (applyBtnDisabled st)
    (downloadBtnDisabled st).

Definition setGesture (st : State) (drag resize : bool) (h : option Handle)
    (sx sy : Q) (sc : CropState) : State :=
  mkState (uploadedFilename st) (imageWidth st) (imageHeight st)
    (displayWidth st) (displayHeight st) (scale st) (cropState st)
    (aspectRatio st) drag resize h sx sy sc
    (resetBtnDisabled st) (applyBtnDisabled st) (downloadBtnDisabled st).

Definition setAspectRatio (st : State) (r : option Q) : State :=
  mkState (uploadedFilename st) (imageWidth st) (imageHeight st)
    (displayWidth st) (displayHeight st) (scale st) (cropState st) r
    (isDragging st) (isResizing st) (activeHandle st) (startX st) (startY st)
    (startCrop st) (resetBtnDisabled st) (applyBtnDisabled st)
    (downloadBtnDisabled st).

Definition setImage (st : State) (name : option string) (w h : Z) : State :=
  mkState name w h
    (displayWidth st) (displayHeight st) (scale st) (cropState st)
    (aspectRatio st)
    (isDragging st) (isResizing st) (activeHandle st) (startX st) (startY st)
    (startCrop st) (resetBtnDisabled st) (applyBtnDisabled st)
    (downloadBtnDisabled st).

Definition setDownloadBtnDisabled (st : State) (b : bool) : State :=
  mkState (uploadedFilename st) (imageWidth st) (imageHeight st)
    (displayWidth st) (displayHeight st) (scale st) (cropState st)
    (aspectRatio st)
    (isDragging st) (isResizing st) (activeHandle st) (startX st) (startY st)
    (startCrop st) (resetBtnDisabled st) (applyBtnDisabled st) b.

(** [if (aspectRatio)]: a ratio is set and is not zero. *)
Definition lockedRatio (ratio : option Q) : option Q :=
  match ratio with
  | Some r => if Js.truthy r then Some r else None
  | None => None
  end.

Definition activeRatio (st : State) : option Q := lockedRatio (aspectRatio st).

(** *** Coordinate transform *)

(** [recalculateScale]: [rw] and [rh] are the width and height of
    [cropImage.getBoundingClientRect()]. *)
Definition recalculateScale (st : State) (rw rh : Q) : State :=
  setDisplay st rw rh
    (if Js.gtb rw 0 && Js.gtb (inject_Z (imageWidth st)) 0
     then inject_Z (imageWidth st) / rw
     else 1).

(** Display pixels to source pixels: the [Math.round(v * scale)] of
    [updateCropBox], [updatePreview] and [applyCrop]; the product is
    never used unrounded. *)
Definition toSource (sc v : Q) : Z := Js.round (v * sc).

(** Source pixels to display pixels: the [v / scale] of
    [handleManualInput]. *)
Definition toDisplay (sc v : Q) : option Q := Js.div v sc.

(** *** Gestures *)

Definition handleMouseDown (st : State) (rw rh : Q) (t : Target)
    (clientX clientY : Q) : State :=
  let st1 := recalculateScale st rw rh in
  match t with
  | OnHandle h =>
      setGesture st1 (isDragging st1) true (Some h) clientX clientY
        (cropState st1)
  | Interior =>
      setGesture st1 true (isResizing st1) (activeHandle st1) clientX clientY
        (cropState st1)
  end.

Definition handleMouseUp (st : State) : State :=
  setGesture st false false None (startX st) (startY st) (startCrop st).

Definition moveCropBox (st : State) (dx dy : Q) : State :=
  let newX := x (startCrop st) + dx in
  let newY := y (startCrop st) + dy in
  let newX := clamp newX 0 (displayWidth st - width (cropState st)) in
  let newY := clamp newY 0 (displayHeight st - height (cropState st)) in
  setCropState st
    (mkCrop newX newY (width (cropState st)) (height (cropState st))).

Definition minSize : Q := 30.

(** The [switch (activeHandle)] of [resizeCropBox]. *)
Definition applyDelta (h : Handle) (s : CropState) (dx dy : Q) : CropState :=
  match h with
  | tl => mkCrop (x s + dx) (y s + dy) (width s - dx) (height s - dy)
  | tr => mkCrop (x s) (y s + dy) (width s + dx) (height s - dy)
  | bl => mkCrop (x s + dx) (y s) (width s - dx) (height s + dy)
  | br => mkCrop (x s) (y s) (width s + dx) (height s + dy)
  | tm => mkCrop (x s) (y s + dy) (width s) (height s - dy)
  | bm => mkCrop (x s) (y s) (width s) (height s + dy)
  | ml => mkCrop (x s + dx) (y s) (width s - dx) (height s)
  | mr => mkCrop (x s) (y s) (width s + dx) (height s)
  end.

(** "Enforce minimum size": [s] is [startCrop], [n] the locals. *)
Definition enforceMinSize (h : Handle) (s n : CropState) : CropState :=
  let n1 :=
    if Js.ltb (width n) minSize
    then mkCrop (if includesL h then x s + width s - minSize else x n)
                (y n) minSize (height n)
    else n in
  if Js.ltb (height n1) minSize
  then mkCrop (x n1)
              (if includesT h then y s + height s - minSize else y n1)
              (width n1) minSize
  else n1.

(** "Enforce aspect ratio if set". *)
Definition enforceAspect (ratio : option Q) (h : Handle) (s n : CropState)
    : option CropState :=
  match ratio with
  | Some r =>
      if Js.truthy r && isCorner h then
        let? currentRatio := Js.div (width n) (height n) in
        if Js.gtb currentRatio r then
          let newW := height n * r in
          Some (mkCrop (if includesL h then x s + width s - newW else x n)
                       (y n) newW (height n))
        else
          let? newH := Js.div (width n) r in
          Some (mkCrop (x n)
                       (if includesT h then y s + height s - newH else y n)
                       (width n) newH)
      else Some n
  | None => Some n
  end.

(** "Bounds check - ensure crop box stays within image". *)
Definition boundsCheck (dw dh : Q) (n : CropState) : CropState :=
  let n1 :=
    if Js.ltb (x n) 0
    then mkCrop 0 (y n) (width n + x n) (height n) else n in
  let n2 :=
    if Js.ltb (y n1) 0
    then mkCrop (x n1) 0 (width n1) (height n1 + y n1) else n1 in
  let n3 :=
    if Js.gtb (x n2 + width n2) dw
    then mkCrop (x n2) (y n2) (dw - x n2) (height n2) else n2 in
  if Js.gtb (y n3 + height n3) dh
  then mkCrop (x n3) (y n3) (width n3) (dh - y n3) else n3.

(** "Final minimum size check". *)
Definition finalMinSize (n : CropState) : CropState :=
  mkCrop (x n) (y n) (Qmax (width n) minSize) (Qmax (height n) minSize).

(** The locals of [resizeCropBox] after the aspect-ratio step. *)
Definition resizeShaped (ratio : option Q) (h : Handle) (s : CropState)
    (dx dy : Q) : option CropState :=
  enforceAspect ratio h s (enforceMinSize h s (applyDelta h s dx dy)).

(** The rectangle [resizeCropBox] assigns to [cropState]. *)
Definition resizeRect (ratio : option Q) (dw dh : Q) (h : Handle)
    (s : CropState) (dx dy : Q) : option CropState :=
  let? n := resizeShaped ratio h s dx dy in
  Some (finalMinSize (boundsCheck dw dh n)).

(** [resizeCropBox(dx, dy)].  It runs only while [isResizing], which is
    set together with [activeHandle]; without a handle the result is
    left undefined. *)
Definition resizeCropBox (st : State) (dx dy : Q) : option State :=
  let? h := activeHandle st in
  let? c := resizeRect (aspectRatio st) (displayWidth st) (displayHeight st)
              h (startCrop st) dx dy in
  Some (setCropState st c).

(** [handleMouseMove]: the pointer is at [(clientX, clientY)]. *)
Definition handleMouseMove (st : State) (clientX clientY : Q) : option State :=
  if negb (isDragging st) && negb (isResizing st) then Some st
  else
    let dx := clientX - startX st in
    let dy := clientY - startY st in
    if isDragging st then Some (moveCropBox st dx dy)
    else if isResizing st then resizeCropBox st dx dy
    else Some st.

(** *** Aspect ratio and manual input *)

(** [constrainCropBox], on [cropState]. *)
Definition constrainRect (ratio : option Q) (dw dh : Q) (c : CropState)
    : option CropState :=
  match ratio with
  | Some r =>
      if Js.truthy r then
        let? currentRatio := Js.div (width c) (height c) in
        let? c1 :=
          if Js.gtb currentRatio r
          then Some (mkCrop (x c) (y c) (height c * r) (height c))
          else
            let? newH := Js.div (width c) r in
            Some (mkCrop (x c) (y c) (width c) newH) in
        let c2 :=
          if Js.gtb (x c1 + width c1) dw
          then mkCrop (dw - width c1) (y c1) (width c1) (height c1) else c1 in
        let c3 :=
          if Js.gtb (y c2 + height c2) dh
          then mkCrop (x c2) (dh - height c2) (width c2) (height c2) else c2 in
        Some (mkCrop (Qmax 0 (x c3)) (Qmax 0 (y c3)) (width c3) (height c3))
      else Some c
  | None => Some c
  end.

Definition constrainCropBox (st : State) : option State :=
  let? c := constrainRect (aspectRatio st) (displayWidth st)
              (displayHeight st) (cropState st) in
  Some (setCropState st c).

(** The click handler of the aspect buttons: [ratio] is [None] for
    [data-ratio="free"], else the quotient of the two numbers. *)
Definition selectAspect (st : State) (ratio : option Q) : option State :=
  let st1 := setAspectRatio st ratio in
  if Js.gtb (width (cropState st1)) 0 then constrainCropBox st1 else Some st1.

(** The four converted fields of [handleManualInput] clamped into
    [cropState]. *)
Definition manualRect (dw dh sc : Q) (cropX cropY cropW cropH : string)
    : option CropState :=
  let realX := inject_Z (ParseInt.parseIntOr cropX 0) in
  let realY := inject_Z (ParseInt.parseIntOr cropY 0) in
  let realW := inject_Z (ParseInt.parseIntOr cropW 100) in
  let realH := inject_Z (ParseInt.parseIntOr cropH 100) in
  let? vx := toDisplay sc realX in
  let? vy := toDisplay sc realY in
  let? vw := toDisplay sc realW in
  let? vh := toDisplay sc realH in
  Some (mkCrop (clamp vx 0 (dw - 30)) (clamp vy 0 (dh - 30))
               (clamp vw 30 (dw - vx)) (clamp vh 30 (dh - vy))).

(** [handleManualInput]: the arguments are the [value]s of the four
    input fields. *)
Definition handleManualInput (st : State) (cropX cropY cropW cropH : string)
    : option State :=
  let? c := manualRect (displayWidth st) (displayHeight st) (scale st)
              cropX cropY cropW cropH in
  let st1 := setCropState st c in
  match activeRatio st1 with
  | Some _ => constrainCropBox st1
  | None => Some st1
  end.

(** *** Initial box *)

(** [initCropBox], after its [recalculateScale]. *)
Definition initRect (ratio : option Q) (dw dh : Q) : option CropState :=
  let? box :=
    match ratio with
    | Some r =>
        if Js.truthy r then
          let? q := Js.div dw dh in
          if Js.gtb q r then
            let boxHeight := dh * (4 # 5) in
            Some (boxHeight * r, boxHeight)
          else
            let boxWidth := dw * (4 # 5) in
            let? boxHeight := Js.div boxWidth r in
            Some (boxWidth, boxHeight)
        else Some (dw * (4 # 5), dh * (4 # 5))
    | None => Some (dw * (4 # 5), dh * (4 # 5))
    end in
  let boxWidth := Qmin (fst box) dw in
  let boxHeight := Qmin (snd box) dh in
  Some (mkCrop ((dw - boxWidth) / 2) ((dh - boxHeight) / 2)
               boxWidth boxHeight).

Definition initCropBox (st : State) (rw rh : Q) : option State :=
  let st1 := recalculateScale st rw rh in
  let? c := initRect (aspectRatio st1) (displayWidth st1) (displayHeight st1) in
  Some (setCropState st1 c).

(** *** Apply *)

(** The source-pixel rectangle [applyCrop] sends. *)
Definition cropRequest (st : State) (name : string) : Api.CropRequest :=
  let c := cropState st in
  let cx := Z.max 0 (Js.round (x c * scale st)) in
  let cy := Z.max 0 (Js.round (y c * scale st)) in
  let cw := Z.max 1 (Js.round (width c * scale st)) in
  let ch := Z.max 1 (Js.round (height c * scale st)) in
  let cx := Z.min cx (imageWidth st - 1) in
  let cy := Z.min cy (imageHeight st - 1) in
  let cw := Z.min cw (imageWidth st - cx) in
  let ch := Z.min ch (imageHeight st - cy) in
  Api.mkCropRequest name cx cy cw ch.

(** [applyCrop]: [server] answers the one [POST /crop] it may issue.  The
    reload of [cropImage] ends, once the image has loaded, in
    [initCropBox]; the cache-busting [?t=] of its URL is left out. *)
Definition applyCrop (st : State)
    (server : Api.CropRequest -> Api.Outcome Api.CropResult)
    : State * list Api.Effect :=
  match uploadedFilename st with
  | Some name =>
      if Api.noName (Some name)
      then (st, [Api.Toast "Please upload an image first" "warning"])
      else
        let req := cropRequest st name in
        match Api.settle "Crop failed" (server req) with
        | inr result =>
            (setDownloadBtnDisabled
               (setImage st (Some (Api.resFilename result))
                  (Api.resWidth result) (Api.resHeight result))
               false,
             [Api.Toast "Cropping image..." "info";
              Api.PostCrop req;
              Api.ShowImage (Api.API_BASE ++ Api.resImageUrl result);
              Api.Toast "Image cropped successfully!" "success"])
        | inl message =>
            (st,
             [Api.Toast "Cropping image..." "info";
              Api.PostCrop req;
              Api.Toast ("Crop failed: " ++ message) "error"])
        end
  | None => (st, [Api.Toast "Please upload an image first" "warning"])
  end.

(** *** Vocabulary of the properties *)

(** The geometry invariant: the box lies in the display and is at least
    [minSize] wide and high. *)
Definition Inv (dw dh : Q) (c : CropState) : Prop :=
  0 <= x c /\ 0 <= y c /\
  x c + width c <= dw /\ y c + height c <= dh /\
  30 <= width c /\ 30 <= height c.

(** Two rectangles with equal coordinates. *)
Definition sameRect (c d : CropState) : Prop :=
  x c == x d /\ y c == y d /\ width c == width d /\ height c == height d.

(** A session on an image of [iw] by [ih] source pixels shown at [dw] by
    [dh] display pixels, idle, with the box [c] and the aspect choice
    [ratio]. *)
Definition session (iw ih : Z) (dw dh : Q) (ratio : option Q)
    (c : CropState) : State :=
  mkState (Some "upload.png"%string) iw ih dw dh (inject_Z iw / dw) c ratio
    false false None 0 0 c false false true.

(** The pointer visits the positions [ps], one [handleMouseMove] each. *)
Fixpoint moves (st : State) (ps : list (Q * Q)) : option State :=
  match ps with
  | [] => Some st
  | (px, py) :: ps' =>
      let? st1 := handleMouseMove st px py in
      moves st1 ps'
  end.

(** What holds of the state all along a drag that started at [(cx, cy)]
    on the box [snap] in a display of [rw] by [rh]. *)
Definition Dragging (snap : CropState) (rw rh cx cy : Q) (st : State)
    : Prop :=
  isDragging st = true /\ startCrop st = snap /\
  startX st = cx /\ startY st = cy /\
  displayWidth st = rw /\ displayHeight st = rh /\
  width (cropState st) = width snap /\ height (cropState st) = height snap.

(** Where that drag has the box when the pointer is at [(px, py)]. *)
Definition dragged (snap : CropState) (rw rh cx cy px py : Q) : CropState :=
  mkCrop (clamp (x snap + (px - cx)) 0 (rw - width snap))
         (clamp (y snap + (py - cy)) 0 (rh - height snap))
         (width snap) (height snap).

(** What can happen to the session between two uses of the apply button:
    gestures, manual input, aspect choices, image loads and window
    resizes. *)
Inductive step : State -> State -> Prop :=
  | step_down st rw rh t cx cy :
      step st (handleMouseDown st rw rh t cx cy)
  | step_move st cx cy st' :
      handleMouseMove st cx cy = Some st' -> step st st'
  | step_up st :
      step st (handleMouseUp st)
  | step_input st fX fY fW fH st' :
      handleManualInput st fX fY fW fH = Some st' -> step st st'
  | step_aspect st ratio st' :
      selectAspect st ratio = Some st' -> step st st'
  | step_loaded st rw rh st' :
      initCropBox st rw rh = Some st' -> step st st'
  | step_resized st rw rh :
      step st (recalculateScale st rw rh).

Definition steps : State -> State -> Prop := clos_refl_trans_1n State step.

End Crop.



(** ** The upscale tool *)

Module Upscale.

(** A [File], as far as [validateFile] looks at it. *)
Record File : Type := mkFile { type : string; size : Z }.

(** [validateFile] of [utils.js] (its toasts left out). *)
Definition validateFile (f : File) : bool :=
  if negb (existsb (String.eqb (type f))
             ["image/jpeg"; "image/png"; "image/webp"]%string)
  then false
  else if (size f >? 10 * 1024 * 1024)%Z then false
  else true.

(** The module-level state of the upscale tool, with the parts of the page
    its handlers switch: whether each scale card takes clicks
    ([style.pointerEvents] is not ['none']), which card carries the
    [active] class, the two overlays and the three buttons.  The images
    and the preview texts are left out. *)
Record State : Type := mkState {
  uploadedFilename : option string;
  processedFilename : option string;
  originalWidth : Z;
  originalHeight : Z;
  selectedScale : Z;
  card2Enabled : bool;
  card4Enabled : bool;
  card8Enabled : bool;
  activeCard : Z;
  comparisonHidden : bool;
  loadingHidden : bool;
  resetBtnDisabled : bool;
  upscaleBtnDisabled : bool;
  downloadBtnDisabled : bool
}.

(** [originalWidth * s > 10000 || originalHeight * s > 10000] *)
Definition tooLarge (w h s : Z) : bool :=
  ((w * s >? 10000) || (h * s >? 10000))%Z.

(** Whether the card of scale [s] takes clicks. *)
Definition cardEnabled (st : State) (s : Z) : bool :=
  if (s =? 2)%Z then card2Enabled st
  else if (s =? 4)%Z then card4Enabled st
  else if (s =? 8)%Z then card8Enabled st
  else false.

(** The part of [handleFileSelect] between reading the dimensions and
    showing the preview: the 8x card, then the 4x card. *)
Definition gateScales (st : State) (w h : Z) : State :=
  (* scale8Card: reset, then "Check if upscaling would be too large" *)
  let e8 := negb (tooLarge w h 8) in
  let '(sel, act) :=
    if tooLarge w h 8 && (selectedScale st =? 8)%Z
    then (4%Z, 4%Z) else (selectedScale st, activeCard st) in
  (* "Also check 4x" *)
  let e4 := negb (tooLarge w h 4) in
  let '(sel, act) :=
    if tooLarge w h 4 && (sel =? 4)%Z
    then (2%Z, 2%Z) else (sel, act) in
  mkState (uploadedFilename st) (processedFilename st) w h sel
    (card2Enabled st) e4 e8 act
    (comparisonHidden st) (loadingHidden st)
    (resetBtnDisabled st) (upscaleBtnDisabled st) (downloadBtnDisabled st).

Definition setUploaded (st : State) (name : string) : State :=
  mkState (Some name) (processedFilename st)
    (originalWidth st) (originalHeight st) (selectedScale st)
    (card2Enabled st) (card4Enabled st) (card8Enabled st) (activeCard st)
    (comparisonHidden st) (loadingHidden st)
    false false (downloadBtnDisabled st).

(** [handleFileSelect(file)]: [dims] is what [getImageDimensions] resolves
    to ([None] when the file does not decode, which ends the handler), and
    [upload] the outcome of [uploadFile]. *)
Definition handleFileSelect (st : State) (file : File)
    (dims : option (Z * Z)) (upload : Api.Outcome Api.UploadResult)
    : State * list Api.Effect :=
  if negb (validateFile file) then (st, [])
  else
    match dims with
    | None => (st, [])
    | Some (w, h) =>
        let st1 := gateScales st w h in
        match Api.settle "Upload failed" upload with
        | inr result =>
            (setUploaded st1 (Api.uploadFilename result),
             [Api.Toast "Uploading image..." "info";
              Api.PostUpload;
              Api.Toast "Image loaded successfully!" "success"])
        | inl message =>
            (st1,
             [Api.Toast "Uploading image..." "info";
              Api.PostUpload;
              Api.Toast ("Upload failed: " ++ message) "error"])
        end
    end.

(** A click on the card of scale [s]. *)
Definition selectScale (st : State) (s : Z) : State :=
  if negb (cardEnabled st s) then st
  else
    mkState (uploadedFilename st) (processedFilename st)
      (originalWidth st) (originalHeight st) s
      (card2Enabled st) (card4Enabled st) (card8Enabled st) s
      (comparisonHidden st) (loadingHidden st)
      (resetBtnDisabled st) (upscaleBtnDisabled st) (downloadBtnDisabled st).

Definition setProcessing (st : State) (processed : option string)
    (comparison loading : bool) : State :=
  mkState (uploadedFilename st) processed
    (originalWidth st) (originalHeight st) (selectedScale st)
    (card2Enabled st) (card4Enabled st) (card8Enabled st) (activeCard st)
    comparison loading
    (resetBtnDisabled st) false (downloadBtnDisabled st).

(** [String(n)] for an integer [n], as the template literals print it. *)
Definition showInt (n : Z) : string := NilZero.string_of_int (Z.to_int n).

(** [processUpscale], up to the point where the result image starts to
    load: [server] answers the one [POST /upscale] it may issue.  The state
    returned is the one after [finally]. *)
Definition processUpscale (st : State)
    (server : Api.UpscaleRequest -> Api.Outcome Api.UpscaleResult)
    : State * list Api.Effect :=
  match uploadedFilename st with
  | Some name =>
      if Api.noName (Some name)
      then (st, [Api.Toast "Please upload an image first" "warning"])
      else if tooLarge (originalWidth st) (originalHeight st)
                (selectedScale st)
      then (st, [Api.Toast
                   "Resulting image would be too large. Try a smaller scale."
                   "warning"])
      else
        let req := Api.mkUpscaleRequest name (selectedScale st) in
        let start :=
          Api.Toast ("Upscaling image " ++ showInt (selectedScale st)
                     ++ "x... This may take a moment.") "info" in
        match Api.settle "Upscale failed" (server req) with
        | inr result =>
            (setProcessing st (Some (Api.upFilename result)) false false,
             [start; Api.PostUpscale req;
              Api.ShowImage (Api.API_BASE ++ Api.upImageUrl result)])
        | inl message =>
            (setProcessing st (processedFilename st) true true,
             [start; Api.PostUpscale req;
              Api.Toast ("Upscale failed: " ++ message) "error"])
        end
  | None => (st, [Api.Toast "Please upload an image first" "warning"])
  end.

(** [reset] *)
Definition reset (st : State) : State :=
  mkState None None 0 0 4 true true true 4 true (loadingHidden st)
    true true true.

(** The tool as the page loads it: the state variables as declared, the
    page as [reset] leaves it. *)
Definition fresh : State :=
  mkState None None 0 0 4 true true true 4 true true true true true.

End Upscale.


(** ** utils.js: validation and the pending image *)

Module Utils.

(** [validateFile(file)] with the toast it shows on refusal. *)
Definition validateFile (f : Upscale.File) : bool * list Api.Effect :=
  if negb (existsb (String.eqb (Upscale.type f))
             ["image/jpeg"; "image/png"; "image/webp"]%string)
  then (false,
        [Api.Toast "Invalid file type. Please upload JPG, PNG, or WebP."
           "error"])
  else if (Upscale.size f >? 10 * 1024 * 1024)%Z
  then (false, [Api.Toast "File too large. Maximum size is 10MB." "error"])
  else (true, []).

(** [sessionStorage]: a string, or null, under every key. *)
Definition Storage : Type := string -> option string.

Definition getItem (s : Storage) (key : string) : option string := s key.

Definition removeItem (s : Storage) (key : string) : Storage :=
  fun k => if String.eqb k key then None else s k.

Definition setItem (s : Storage) (key value : string) : Storage :=
  fun k => if String.eqb k key then Some value else s k.

(** [checkPendingImage()]: the storage it leaves, and [{dataUrl, name}] or
    null. *)
Definition checkPendingImage (s : Storage)
    : Storage * option (string * string) :=
  let pendingImage := getItem s "pendingImage" in
  let pendingImageName := getItem s "pendingImageName" in
  if negb (Api.noName pendingImage) && negb (Api.noName pendingImageName)
  then
    match pendingImage, pendingImageName with
    | Some dataUrl, Some name =>
        (removeItem (removeItem s "pendingImage") "pendingImageName",
         Some (dataUrl, name))
    | _, _ => (s, None)
    end
  else (s, None).

End Utils.

(** ** upload.js: [UploadHandler] *)

Module UploadHandler.

(** The fields [handleFile] reads; [hasShowToast] is
    [typeof showToast === 'function']. *)
Record Handler : Type := mkHandler {
  validTypes : list string;
  maxSize : Z;
  hasShowToast : bool
}.

(** The two fields the constructor sets. *)
Definition construct (hasShowToast : bool) : Handler :=
  mkHandler ["image/jpeg"; "image/png"; "image/webp"]%string
    (10 * 1024 * 1024) hasShowToast.

(** [handleFile(file)]: the toasts, and the file handed to [onFileSelect]
    if any. *)
Definition handleFile (h : Handler) (file : Upscale.File)
    : list Api.Effect * option Upscale.File :=
  if negb (existsb (String.eqb (Upscale.type file)) (validTypes h))
  then
    (if hasShowToast h
     then [Api.Toast "Invalid file type. Please upload JPG, PNG, or WebP."
             "error"]
     else [],
     None)
  else if (Upscale.size file >? maxSize h)%Z
  then
    (if hasShowToast h
     then [Api.Toast "File too large. Maximum size is 10MB." "error"]
     else [],
     None)
  else ([], Some file).

End UploadHandler.

(** ** crop.js: the page around the box *)

Module CropPage.

Import Crop.

(** What [updateCropBox] writes: the style lengths (in px) of the box and
    of the four shades, the dimensions label and the four input fields. *)
Record BoxView : Type := mkBoxView {
  boxLeft : Q;
  boxTop : Q;
  boxWidth : Q;
  boxHeight : Q;
  shadeTopHeight : Q;
  shadeBottomHeight : Q;
  shadeLeftTop : Q;
  shadeLeftWidth : Q;
  shadeLeftHeight : Q;
  shadeRightTop : Q;
  shadeRightWidth : Q;
  shadeRightHeight : Q;
  cropDimensions : string;
  cropX : string;
  cropY : string;
  cropW : string;
  cropH : string
}.

(** [updateCropBox()] *)
Definition updateCropBox (st : State) : BoxView :=
  let c := cropState st in
  let realW := Js.round (width c * scale st) in
  let realH := Js.round (height c * scale st) in
  mkBoxView (x c) (y c) (width c) (height c)
    (Qmax 0 (y c))
    (Qmax 0 (displayHeight st - y c - height c))
    (y c) (Qmax 0 (x c)) (height c)
    (y c) (Qmax 0 (displayWidth st - x c - width c)) (height c)
    (Upscale.showInt realW ++ " x " ++ Upscale.showInt realH)%string
    (Upscale.showInt (Js.round (x c * scale st)))
    (Upscale.showInt (Js.round (y c * scale st)))
    (Upscale.showInt realW)
    (Upscale.showInt realH).

(** The source rectangle [updatePreview] hands to [drawImage]. *)
Record SourceRect : Type := mkSourceRect { sx : Z; sy : Z; sw : Z; sh : Z }.

(** [updatePreview()]: [ready] is [cropImage.src && cropImage.complete];
    [None] when nothing is drawn. *)
Definition updatePreview (st : State) (ready : bool) : option SourceRect :=
  if negb ready then None
  else
    let c := cropState st in
    let realX := Js.round (x c * scale st) in
    let realY := Js.round (y c * scale st) in
    let realW := Js.round (width c * scale st) in
    let realH := Js.round (height c * scale st) in
    let clampedX := Z.max 0 (Z.min realX (imageWidth st - 1)) in
    let clampedY := Z.max 0 (Z.min realY (imageHeight st - 1)) in
    let clampedW := Z.min realW (imageWidth st - clampedX) in
    let clampedH := Z.min realH (imageHeight st - clampedY) in
    if ((clampedW <=? 0) || (clampedH <=? 0))%Z then None
    else Some (mkSourceRect clampedX clampedY clampedW clampedH).

(** The tool as the script leaves it when the page has loaded (the
    buttons as [reset] leaves them; [startCrop], an empty object in the
    source, has zeros here). *)
Definition initial : State :=
  mkState None 0 0 0 0 1 (mkCrop 0 0 0 0) None false false None 0 0
    (mkCrop 0 0 0 0) true true true.

(** [reset()] *)
Definition reset (st : State) : State :=
  mkState None 0 0 0 0 1 (mkCrop 0 0 0 0) None
    (isDragging st) (isResizing st) (activeHandle st) (startX st) (startY st)
    (startCrop st) true true true.

(** [download()]: the URL handed to [downloadFile], if any, and the
    toast. *)
Definition download (st : State) : option string * Api.Effect :=
  if Api.noName (uploadedFilename st)
  then (None, Api.Toast "No image to download" "warning")
  else
    match uploadedFilename st with
    | Some name =>
        (Some (Api.API_BASE ++ "/download/" ++ name)%string,
         Api.Toast "Download started!" "success")
    | None => (None, Api.Toast "No image to download" "warning")
    end.

(** [handleFileSelect(file)] of the crop tool: [dims] is what
    [getImageDimensions] resolves to ([None] when the file does not decode,
    which ends the handler), [upload] the outcome of [uploadFile].  The
    display of the image ends, once it has loaded, in [initCropBox]. *)
Definition handleFileSelect (st : State) (file : Upscale.File)
    (dims : option (Z * Z)) (upload : Api.Outcome Api.UploadResult)
    : State * list Api.Effect :=
  let '(valid, toasts) := Utils.validateFile file in
  if negb valid then (st, toasts)
  else
    match dims with
    | None => (st, [])
    | Some (w, h) =>
        let st1 := setImage st (uploadedFilename st) w h in
        match Api.settle "Upload failed" upload with
        | inr result =>
            (mkState (Some (Api.uploadFilename result))
               (imageWidth st1) (imageHeight st1)
               (displayWidth st1) (displayHeight st1) (scale st1)
               (cropState st1) (aspectRatio st1)
               (isDragging st1) (isResizing st1) (activeHandle st1)
               (startX st1) (startY st1) (startCrop st1)
               false false (downloadBtnDisabled st1),
             [Api.PostUpload;
              Api.Toast "Image loaded successfully!" "success"])
        | inl message =>
            (st1,
             [Api.PostUpload;
              Api.Toast ("Upload failed: " ++ message) "error"])
        end
    end.

(** [handleTouchStart]: [touches] are the [(clientX, clientY)] of
    [e.touches]. *)
Definition handleTouchStart (st : State) (rw rh : Q) (t : Target)
    (touches : list (Q * Q)) : State :=
  match touches with
  | [(clientX, clientY)] => handleMouseDown st rw rh t clientX clientY
  | _ => st
  end.

(** [handleTouchMove] *)
Definition handleTouchMove (st : State) (touches : list (Q * Q))
    : option State :=
  if negb (isDragging st) && negb (isResizing st) then Some st
  else
    match touches with
    | [(clientX, clientY)] =>
        let dx := clientX - startX st in
        let dy := clientY - startY st in
        if isDragging st then Some (moveCropBox st dx dy)
        else if isResizing st then resizeCropBox st dx dy
        else Some st
    | _ => Some st
    end.

(** [handleTouchEnd] *)
Definition handleTouchEnd (st : State) : State :=
  setGesture st false false None (startX st) (startY st) (startCrop st).

(** The scale is positive, and a resize under way has its handle. *)
Definition Sound (st : State) : Prop :=
  0 < scale st /\
  (isResizing st = true -> exists h, activeHandle st = Some h).

(** The parts of the state [Sound] reads. *)
Definition frame (st : State) : Q * bool * option Handle :=
  (scale st, isResizing st, activeHandle st).

(** Everything that can happen to the crop tool. *)
Inductive event : State -> State -> Prop :=
  | ev_step st st' : step st st' -> event st st'
  | ev_touchStart st rw rh t touches :
      event st (handleTouchStart st rw rh t touches)
  | ev_touchMove st touches st' :
      handleTouchMove st touches = Some st' -> event st st'
  | ev_touchEnd st : event st (handleTouchEnd st)
  | ev_file st file dims upload :
      event st (fst (handleFileSelect st file dims upload))
  | ev_apply st server : event st (fst (applyCrop st server))
  | ev_reset st : event st (reset st).

(** The states the tool can be in. *)
Definition reachable : State -> Prop := clos_refl_trans_n1 State event initial.

End CropPage.

(** ** The upscale tool: slider, result image, download *)

Module UpscalePage.

Import Upscale.

(** The comparison slider: [sliderPosition], which is a number or NaN
    ([None]), and the tool's [isDragging]. *)
Record Slider : Type :=
  mkSlider { sliderPosition : option Q; isDragging : bool }.

(** [let sliderPosition = 50; let isDragging = false] *)
Definition rest : Slider := mkSlider (Some 50) false.

(** [startDrag] *)
Definition startDrag (s : Slider) : Slider := mkSlider (sliderPosition s) true.

(** [endDrag] *)
Definition endDrag (s : Slider) : Slider := mkSlider (sliderPosition s) false.

(** [clamp((x / rect.width) * 100, 0, 100)] with [x = clientX - rect.left],
    as both [drag] and the click handler compute it: [left] and [w] are
    the left edge and the width of
    [comparisonWrapper.getBoundingClientRect()].  On a wrapper of width
    zero the quotient is an infinity, which [clamp] takes to 100 or to 0,
    or it is NaN (0 / 0), which [Math.max] and [Math.min] pass on. *)
Definition positionAt (clientX left w : Q) : option Q :=
  let x := clientX - left in
  if Qeq_bool w 0 then
    if Js.gtb x 0 then Some 100
    else if Js.ltb x 0 then Some 0
    else None
  else Some (clamp (x / w * 100) 0 100).

(** [drag(e)]: [clientX] is that of the first touch, or of the mouse. *)
Definition drag (s : Slider) (clientX left w : Q) : Slider :=
  if negb (isDragging s) then s
  else mkSlider (positionAt clientX left w) (isDragging s).

(** A click on the comparison: [onHandle] when the target is the slider
    or lies in its handle. *)
Definition clickComparison (s : Slider) (onHandle : bool)
    (clientX left w : Q) : Slider :=
  if onHandle then s
  else mkSlider (positionAt clientX left w) (isDragging s).

(** "Reset slider to middle", in [tempImg.onload] and in [reset]. *)
Definition centre (s : Slider) : Slider := mkSlider (Some 50) (isDragging s).

(** What can happen to the slider, the comparison having a width that
    satisfies [ok] whenever the pointer acts on it. *)
Inductive slides (ok : Q -> Prop) : Slider -> Slider -> Prop :=
  | slides_start s : slides ok s (startDrag s)
  | slides_end s : slides ok s (endDrag s)
  | slides_drag s clientX left w :
      ok w -> slides ok s (drag s clientX left w)
  | slides_click s onHandle clientX left w :
      ok w -> slides ok s (clickComparison s onHandle clientX left w)
  | slides_centre s : slides ok s (centre s).

(** Any width. *)
Definition anyWidth (w : Q) : Prop := True.

(** A width other than zero. *)
Definition someWidth (w : Q) : Prop := ~ w == 0.

(** The position is a number from 0 to 100, or NaN. *)
Definition InRange (s : Slider) : Prop :=
  match sliderPosition s with
  | Some p => 0 <= p <= 100
  | None => True
  end.

(** [tempImg.onload] of [processUpscale], as far as the session goes. *)
Definition resultLoaded (st : State) : State :=
  mkState (uploadedFilename st) (processedFilename st)
    (originalWidth st) (originalHeight st) (selectedScale st)
    (card2Enabled st) (card4Enabled st) (card8Enabled st) (activeCard st)
    (comparisonHidden st) true
    (resetBtnDisabled st) (upscaleBtnDisabled st) false.

(** [tempImg.onerror] of [processUpscale]. *)
Definition resultFailed (st : State) : State * list Api.Effect :=
  (mkState (uploadedFilename st) (processedFilename st)
     (originalWidth st) (originalHeight st) (selectedScale st)
     (card2Enabled st) (card4Enabled st) (card8Enabled st) (activeCard st)
     (comparisonHidden st) true
     (resetBtnDisabled st) (upscaleBtnDisabled st) (downloadBtnDisabled st),
   [Api.Toast "Failed to load upscaled image" "error"]).

(** [download()]: the URL handed to [downloadFile], if any, and the
    toast. *)
Definition download (st : State) : option string * Api.Effect :=
  if Api.noName (processedFilename st)
  then (None, Api.Toast "No upscaled image to download" "warning")
  else
    match processedFilename st with
    | Some name =>
        (Some (Api.API_BASE ++ "/download/" ++ name)%string,
         Api.Toast "Download started!" "success")
    | None => (None, Api.Toast "No upscaled image to download" "warning")
    end.

(** The highlighted card is the selected scale, one of 2, 4 and 8, and its
    card takes clicks, as does the 2x card. *)
Definition Chosen (st : State) : Prop :=
  (selectedScale st = 2 \/ selectedScale st = 4 \/ selectedScale st = 8)%Z /\
  activeCard st = selectedScale st /\
  card2Enabled st = true /\
  cardEnabled st (selectedScale st) = true.

(** Everything that can happen to the upscale session; a click lands on
    one of the three cards. *)
Inductive event : State -> State -> Prop :=
  | ev_file st file dims upload :
      event st (fst (handleFileSelect st file dims upload))
  | ev_select st s :
      (s = 2 \/ s = 4 \/ s = 8)%Z -> event st (selectScale st s)
  | ev_process st server : event st (fst (processUpscale st server))
  | ev_loaded st : event st (resultLoaded st)
  | ev_failed st : event st (fst (resultFailed st))
  | ev_reset st : event st (reset st).

(** The states the session can be in. *)
Definition reachable : State -> Prop := clos_refl_trans_n1 State event fresh.

End UpscalePage.

(** ** The resize tool *)

Module ResizeTool.

(** The module-level state of the resize tool and the controls its
    handlers read and write ([currentFile] is written, never read; the
    images and labels are left out). *)
Record State : Type := mkState {
  uploadedFilename : option string;
  processedFilename : option string;
  originalWidth : Z;
  originalHeight : Z;
  aspectLocked : bool;
  resizeMode : string;
  widthInput : string;
  heightInput : string;
  formatSelect : string;
  qualitySlider : string;
  loadingHidden : bool;
  resultEmptyHidden : bool;
  resetBtnDisabled : bool;
  resizeBtnDisabled : bool;
  downloadBtnDisabled : bool
}.

(** The click handler of the aspect toggle. *)
Definition toggleAspect (st : State) : State :=
  mkState (uploadedFilename st) (processedFilename st)
    (originalWidth st) (originalHeight st) (negb (aspectLocked st))
    (resizeMode st) (widthInput st) (heightInput st)
    (formatSelect st) (qualitySlider st)
    (loadingHidden st) (resultEmptyHidden st)
    (resetBtnDisabled st) (resizeBtnDisabled st) (downloadBtnDisabled st).

(** The form fields of [POST /resize], as [resizeImage] of [utils.js]
    appends them. *)
Record ResizeRequest : Type := mkResizeRequest {
  resizeFilename : string;
  resizeWidth : Z;
  resizeHeight : Z;
  resizeModeField : string;
  resizeFormat : string;
  resizeQuality : Z
}.

(** The body of a successful [POST /resize]. *)
Record ResizeResult : Type := mkResizeResult {
  rsFilename : string;
  rsImageUrl : string;
  rsWidth : Z;
  rsHeight : Z
}.

(** [s || fallback] on a string. *)
Definition orText (s fallback : string) : string :=
  match s with
  | EmptyString => fallback
  | _ => s
  end.

(** The request [resizeImage(filename, options)] builds: [quality] is
    [parseInt(qualitySlider.value)], NaN when [None]. *)
Definition resizeImage (filename : string) (w h : Z) (mode format : string)
    (quality : option Z) : ResizeRequest :=
  mkResizeRequest filename w h (orText mode "fit") (orText format "png")
    (match quality with
     | Some q => if (q =? 0)%Z then 90%Z else q
     | None => 90%Z
     end).

(** What [processResize] shows and sends. *)
Inductive Effect : Type :=
  | Toast (message type : string)
  | PostResize (r : ResizeRequest)
  | ShowImage (url : string).

Definition setProcessing (st : State) (processed : option string)
    (loading resultEmpty : bool) : State :=
  mkState (uploadedFilename st) processed
    (originalWidth st) (originalHeight st) (aspectLocked st) (resizeMode st)
    (widthInput st) (heightInput st) (formatSelect st) (qualitySlider st)
    loading resultEmpty
    (resetBtnDisabled st) false (downloadBtnDisabled st).

(** [!n || n < 1] on the result of a [parseInt]. *)
Definition badDimension (n : option Z) : bool :=
  match n with
  | Some v => (v =? 0)%Z || (v <? 1)%Z
  | None => true
  end.

(** [n > 10000] on the result of a [parseInt]. *)
Definition overLimit (n : option Z) : bool :=
  match n with
  | Some v => (v >? 10000)%Z
  | None => false
  end.

(** [processResize], up to the point where the result image starts to
    load: [server] answers the one [POST /resize] it may issue.  The state
    returned is the one after [finally]. *)
Definition processResize (st : State)
    (server : ResizeRequest -> Api.Outcome ResizeResult)
    : State * list Effect :=
  if Api.noName (uploadedFilename st)
  then (st, [Toast "Please upload an image first" "warning"])
  else
    match uploadedFilename st with
    | None => (st, [Toast "Please upload an image first" "warning"])
    | Some name =>
        let w := ParseInt.parseInt (widthInput st) in
        let h := ParseInt.parseInt (heightInput st) in
        if badDimension w || badDimension h
        then (st, [Toast "Please enter valid dimensions" "warning"])
        else if overLimit w || overLimit h
        then (st, [Toast "Maximum dimension is 10000px" "warning"])
        else
          match w, h with
          | Some wv, Some hv =>
              let req :=
                resizeImage name wv hv (resizeMode st) (formatSelect st)
                  (ParseInt.parseInt (qualitySlider st)) in
              match Api.settle "Resize failed" (server req) with
              | inr result =>
                  (setProcessing st (Some (rsFilename result)) false true,
                   [PostResize req;
                    ShowImage (Api.API_BASE ++ rsImageUrl result);
                    Toast "Image resized successfully!" "success"])
              | inl message =>
                  (setProcessing st (processedFilename st) true false,
                   [PostResize req;
                    Toast ("Resize failed: " ++ message) "error"])
              end
          | _, _ => (st, [Toast "Please enter valid dimensions" "warning"])
          end
    end.

End ResizeTool.

(** ** Decimal digit sequences *)

(** The value of a digit sequence read after the value [a]. *)
Fixpoint horner (d : Decimal.uint) (a : Z) : Z :=
  match d with
  | Decimal.Nil => a
  | Decimal.D0 l => horner l (10 * a + 0)
  | Decimal.D1 l => horner l (10 * a + 1)
  | Decimal.D2 l => horner l (10 * a + 2)
  | Decimal.D3 l => horner l (10 * a + 3)
  | Decimal.D4 l => horner l (10 * a + 4)
  | Decimal.D5 l => horner l (10 * a + 5)
  | Decimal.D6 l => horner l (10 * a + 6)
  | Decimal.D7 l => horner l (10 * a + 7)
  | Decimal.D8 l => horner l (10 * a + 8)
  | Decimal.D9 l => horner l (10 * a + 9)
  end%Z.

(** * Properties *)

Example parseInt_plain : ParseInt.parseInt "200" = Some 200%Z.
Proof. reflexivity. Qed.

Example parseInt_empty : ParseInt.parseInt "" = None.
Proof. reflexivity. Qed.

Example parseInt_words : ParseInt.parseInt "abc" = None.
Proof. reflexivity. Qed.

Example parseInt_prefix : ParseInt.parseInt " -12.7px" = Some (-12)%Z.
Proof. reflexivity. Qed.

Example showInt_4 : Upscale.showInt 4 = "4"%string.
Proof. reflexivity. Qed.

(** ** Comparisons, division and clamping *)

Lemma ltb_true (a b : Q) : Js.ltb a b = true <-> a < b.
Proof.
  unfold Js.ltb. rewrite negb_true_iff. split; intro H.
  - destruct (Qlt_le_dec a b) as [L | L]; [exact L |].
    apply Qle_bool_iff in L. congruence.
  - destruct (Qle_bool b a) eqn:E; [| reflexivity].
    apply Qle_bool_iff in E. lra.
Qed.

Lemma ltb_false (a b : Q) : Js.ltb a b = false <-> b <= a.
Proof.
  unfold Js.ltb. rewrite negb_false_iff. apply Qle_bool_iff.
Qed.

Lemma gtb_true (a b : Q) : Js.gtb a b = true <-> b < a.
Proof. apply ltb_true. Qed.

Lemma gtb_false (a b : Q) : Js.gtb a b = false <-> a <= b.
Proof. apply ltb_false. Qed.

Lemma truthy_true (a : Q) : Js.truthy a = true <-> ~ a == 0.
Proof.
  unfold Js.truthy. rewrite negb_true_iff. split; intro H.
  - intro K. apply Qeq_bool_iff in K. congruence.
  - destruct (Qeq_bool a 0) eqn:E; [| reflexivity].
    apply Qeq_bool_iff in E. contradiction.
Qed.

Lemma truthy_false (a : Q) : Js.truthy a = false <-> a == 0.
Proof.
  unfold Js.truthy. rewrite negb_false_iff. apply Qeq_bool_iff.
Qed.

Lemma div_defined (a b : Q) : ~ b == 0 -> Js.div a b = Some (a / b).
Proof.
  intro H. unfold Js.div.
  destruct (Qeq_bool b 0) eqn:E; [| reflexivity].
  apply Qeq_bool_iff in E. contradiction.
Qed.

(** Case analysis on every comparison in sight. *)
Ltac js_cases :=
  repeat match goal with
  | |- context [Js.ltb ?a ?b] =>
      let E := fresh "E" in
      destruct (Js.ltb a b) eqn:E;
      [apply ltb_true in E | apply ltb_false in E]
  | |- context [Js.gtb ?a ?b] =>
      let E := fresh "E" in
      destruct (Js.gtb a b) eqn:E;
      [apply gtb_true in E | apply gtb_false in E]
  end.

(** Replace every [Qmax]/[Qmin] by a variable with its specification. *)
Ltac minmax_specs :=
  repeat match goal with
  | |- context [Qmax ?a ?b] =>
      let H := fresh "M" in
      let m := fresh "m" in
      pose proof (Q.max_spec a b) as H;
      set (m := Qmax a b) in *; clearbody m
  | |- context [Qmin ?a ?b] =>
      let H := fresh "M" in
      let m := fresh "m" in
      pose proof (Q.min_spec a b) as H;
      set (m := Qmin a b) in *; clearbody m
  end.

(** Evaluate the tests on a known handle. *)
Ltac handle_tests :=
  repeat match goal with
  | |- context [Crop.includesL ?h] =>
      let v := eval vm_compute in (Crop.includesL h) in
      change (Crop.includesL h) with v
  | |- context [Crop.includesT ?h] =>
      let v := eval vm_compute in (Crop.includesT h) in
      change (Crop.includesT h) with v
  | |- context [Crop.isCorner ?h] =>
      let v := eval vm_compute in (Crop.isCorner h) in
      change (Crop.isCorner h) with v
  end.

(** Split on the comparisons of a stage, reducing as they are decided. *)
Ltac stage_cases :=
  repeat (cbn [Crop.x Crop.y Crop.width Crop.height andb];
          match goal with
          | |- context [Js.ltb ?a ?b] =>
              let E := fresh "E" in
              destruct (Js.ltb a b) eqn:E;
              [apply ltb_true in E | apply ltb_false in E]
          | |- context [Js.gtb ?a ?b] =>
              let E := fresh "E" in
              destruct (Js.gtb a b) eqn:E;
              [apply gtb_true in E | apply gtb_false in E]
          end);
  cbn [Crop.x Crop.y Crop.width Crop.height andb] in *.

Lemma clamp_range (v lo hi : Q) :
  lo <= hi -> lo <= clamp v lo hi /\ clamp v lo hi <= hi.
Proof. intro H. unfold clamp. minmax_specs. lra. Qed.

Lemma clamp_inside (v lo hi : Q) :
  lo <= v -> v <= hi -> clamp v lo hi == v.
Proof. intros H1 H2. unfold clamp. minmax_specs. lra. Qed.

Lemma clamp_inverted (v lo hi : Q) : hi < lo -> clamp v lo hi == hi.
Proof. intro H. unfold clamp. minmax_specs. lra. Qed.

(** ** Rounding *)

(** [Math.round] is within one half of its argument. *)
Lemma round_bounds (a : Q) :
  a - (1 # 2) < inject_Z (Js.round a) /\ inject_Z (Js.round a) <= a + (1 # 2).
Proof.
  unfold Js.round.
  pose proof (Qfloor_le (a + (1 # 2))) as L.
  pose proof (Qlt_floor (a + (1 # 2))) as U.
  rewrite inject_Z_plus in U. change (inject_Z 1) with 1 in U.
  split; lra.
Qed.

Lemma round_nonneg (a : Q) : 0 <= a -> (0 <= Js.round a)%Z.
Proof.
  intro H. unfold Js.round.
  apply (Qfloor_resp_le 0 (a + (1 # 2))). lra.
Qed.

Lemma round_positive (a : Q) : 1 # 2 <= a -> (1 <= Js.round a)%Z.
Proof.
  intro H. unfold Js.round.
  apply (Qfloor_resp_le 1 (a + (1 # 2))). lra.
Qed.

(** [Math.round] of a whole number is that number. *)
Lemma round_whole (q : Q) (z : Z) : q == inject_Z z -> Js.round q = z.
Proof.
  intro E. destruct (round_bounds q) as [L U].
  assert (A : inject_Z z < inject_Z (Js.round q + 1)).
  { rewrite inject_Z_plus. change (inject_Z 1) with 1. lra. }
  assert (B : inject_Z (Js.round q) < inject_Z (z + 1)).
  { rewrite inject_Z_plus. change (inject_Z 1) with 1. lra. }
  rewrite <- Zlt_Qlt in A, B. lia.
Qed.

(** Dividing a rounded product by the factor gives the value back to
    within half a unit of the quotient. *)
Lemma round_then_divide (a s : Q) :
  0 < s ->
  a - (1 # 2) / s <= inject_Z (Js.round (a * s)) / s /\
  inject_Z (Js.round (a * s)) / s <= a + (1 # 2) / s.
Proof.
  intro Hs. destruct (round_bounds (a * s)) as [L U].
  set (r := inject_Z (Js.round (a * s))) in *. clearbody r.
  assert (Er : r == (r / s) * s) by (field; lra).
  assert (Ee : 1 # 2 == ((1 # 2) / s) * s) by (field; lra).
  set (t := r / s) in *. set (e := (1 # 2) / s) in *. clearbody t e.
  split.
  - apply Qnot_lt_le. intro K.
    assert (t * s < (a - e) * s) by (apply Qmult_lt_compat_r; assumption).
    lra.
  - apply Qnot_lt_le. intro K.
    assert ((a + e) * s < t * s) by (apply Qmult_lt_compat_r; assumption).
    lra.
Qed.

(** ** Dragging *)

Section Drag.

Import Crop.

Variables (snap : CropState) (rw rh cx cy : Q).

Lemma drag_start (st0 : State) :
  cropState st0 = snap ->
  Dragging snap rw rh cx cy (handleMouseDown st0 rw rh Interior cx cy).
Proof.
  intro H. unfold Dragging, handleMouseDown. simpl. rewrite H.
  repeat split; reflexivity.
Qed.

Lemma drag_move (st : State) (px py : Q) :
  Dragging snap rw rh cx cy st ->
  exists st', handleMouseMove st px py = Some st' /\
              Dragging snap rw rh cx cy st' /\
              cropState st' = dragged snap rw rh cx cy px py.
Proof.
  intros (Hd & Hs & Hx & Hy & Hw & Hh & Wd & Ht).
  unfold handleMouseMove. rewrite Hd. simpl.
  eexists. split; [reflexivity |].
  unfold moveCropBox, dragged, Dragging. simpl.
  rewrite Hs, Hx, Hy, Hw, Hh, Wd, Ht.
  repeat split; assumption || reflexivity.
Qed.

Lemma drag_moves (ps : list (Q * Q)) (st : State) (px py : Q) :
  Dragging snap rw rh cx cy st ->
  exists st', moves st (ps ++ [(px, py)]) = Some st' /\
              cropState st' = dragged snap rw rh cx cy px py.
Proof.
  revert st. induction ps as [| [qx qy] ps IH]; intros st H; simpl.
  - destruct (drag_move st px py H) as (st' & E & _ & C).
    exists st'. rewrite E. simpl. auto.
  - destruct (drag_move st qx qy H) as (st1 & E & D & _).
    rewrite E. simpl. apply IH. exact D.
Qed.

End Drag.

(** C3.  A drag gesture: pointer-down inside a box that lies within the
    display, then any pointer positions.  After the last of them, at
    distance (dx, dy) from the start point, the box sits at the snapshot
    position plus (dx, dy), clamped to [0, displayWidth - width] and
    [0, displayHeight - height], which is where it then lies; its width
    and height are those of the snapshot. *)
Theorem drag_gesture_clamped
    (st0 : Crop.State) (rw rh cx cy : Q) (ps : list (Q * Q)) (px py : Q) :
  let snap := Crop.cropState st0 in
  0 <= Crop.x snap -> 0 <= Crop.y snap ->
  Crop.x snap + Crop.width snap <= rw ->
  Crop.y snap + Crop.height snap <= rh ->
  exists st',
    Crop.moves (Crop.handleMouseDown st0 rw rh Crop.Interior cx cy)
      (ps ++ [(px, py)]) = Some st' /\
    Crop.cropState st' =
      Crop.mkCrop
        (clamp (Crop.x snap + (px - cx)) 0 (rw - Crop.width snap))
        (clamp (Crop.y snap + (py - cy)) 0 (rh - Crop.height snap))
        (Crop.width snap) (Crop.height snap) /\
    0 <= Crop.x (Crop.cropState st') <= rw - Crop.width snap /\
    0 <= Crop.y (Crop.cropState st') <= rh - Crop.height snap.
Proof.
  intros snap Hx Hy Hw Hh.
  destruct (drag_moves snap rw rh cx cy ps
              (Crop.handleMouseDown st0 rw rh Crop.Interior cx cy) px py)
    as (st' & E & C).
  { apply drag_start. reflexivity. }
  exists st'. split; [exact E |]. split; [exact C |].
  rewrite C. unfold Crop.dragged. simpl.
  split; apply clamp_range; lra.
Qed.

Lemma drag_gesture_clamped_witness :
  exists st',
    Crop.moves
      (Crop.handleMouseDown
         (Crop.session 100 100 100 100 None (Crop.mkCrop 10 10 50 50))
         100 100 Crop.Interior 30 30)
      ([(40, 40)] ++ [(500, -500)]) = Some st' /\
    Crop.sameRect (Crop.cropState st') (Crop.mkCrop 50 0 50 50).
Proof.
  destruct (drag_gesture_clamped
    (Crop.session 100 100 100 100 None (Crop.mkCrop 10 10 50 50))
    100 100 30 30 [(40, 40)] 500 (-500)) as (st' & E & C & _).
  - apply Qle_bool_iff. reflexivity.
  - apply Qle_bool_iff. reflexivity.
  - apply Qle_bool_iff. reflexivity.
  - apply Qle_bool_iff. reflexivity.
  - exists st'. split; [exact E |]. rewrite C.
    unfold Crop.sameRect. cbn. repeat split; reflexivity.
Defined.

(** ** Resizing *)

Section Resize.

Import Crop.

(** After the raw delta and the minimum-size step both sides are at least
    [minSize] long, and the edges the handle does not touch are where the
    snapshot has them. *)
Lemma enforceMinSize_spec (h : Handle) (s : CropState) (dx dy : Q) :
  let n := enforceMinSize h s (applyDelta h s dx dy) in
  30 <= width n /\ 30 <= height n /\
  (if includesL h then x n + width n == x s + width s else x n == x s) /\
  (if includesT h then y n + height n == y s + height s else y n == y s).
Proof.
  destruct h; unfold enforceMinSize, applyDelta, minSize; handle_tests;
    stage_cases; repeat split; lra.
Qed.

Lemma boundsCheck_spec (dw dh : Q) (n : CropState) :
  let b := boundsCheck dw dh n in
  0 <= x b /\ 0 <= y b /\ x b + width b <= dw /\ y b + height b <= dh.
Proof.
  unfold boundsCheck. stage_cases; repeat split; lra.
Qed.

(** A rectangle within the display passes the bounds check unchanged. *)
Lemma boundsCheck_inside (dw dh : Q) (n : CropState) :
  0 <= x n -> 0 <= y n -> x n + width n <= dw -> y n + height n <= dh ->
  boundsCheck dw dh n = n.
Proof.
  intros Hx Hy Hw Hh. unfold boundsCheck.
  stage_cases; try lra. destruct n; reflexivity.
Qed.

Lemma finalMinSize_spec (n : CropState) :
  let c := finalMinSize n in
  x c = x n /\ y c = y n /\ 30 <= width c /\ 30 <= height c.
Proof.
  unfold finalMinSize, minSize. cbn [x y width height].
  repeat split; try reflexivity; minmax_specs; lra.
Qed.

Lemma finalMinSize_large (n : CropState) :
  30 <= width n -> 30 <= height n -> finalMinSize n = n.
Proof.
  intros Hw Hh. unfold finalMinSize, minSize, Qmax, GenericMinMax.gmax.
  destruct (width n ?= 30) eqn:Ew; [| apply Qlt_alt in Ew; lra |];
    (destruct (height n ?= 30) eqn:Eh; [| apply Qlt_alt in Eh; lra |]);
    destruct n; reflexivity.
Qed.

Lemma enforceAspect_free (ratio : option Q) (h : Handle) (s n : CropState) :
  lockedRatio ratio = None \/ isCorner h = false ->
  enforceAspect ratio h s n = Some n.
Proof.
  unfold enforceAspect, lockedRatio. intros [H | H].
  - destruct ratio as [r |]; [| reflexivity].
    destruct (Js.truthy r); [discriminate | reflexivity].
  - rewrite H. destruct ratio as [r |]; [| reflexivity].
    rewrite andb_false_r. reflexivity.
Qed.

(** The aspect-ratio step on a locked corner handle. *)
Lemma enforceAspect_locked (ratio : option Q) (r : Q) (h : Handle)
    (s n : CropState) :
  lockedRatio ratio = Some r -> isCorner h = true ->
  30 <= width n -> 30 <= height n ->
  exists n', enforceAspect ratio h s n = Some n' /\
    n' = (if Js.gtb (width n / height n) r
          then mkCrop (if includesL h
                       then x s + width s - height n * r else x n)
                      (y n) (height n * r) (height n)
          else mkCrop (x n)
                      (if includesT h
                       then y s + height s - width n / r else y n)
                      (width n) (width n / r)).
Proof.
  intros L C Hw Hh. unfold lockedRatio in L.
  destruct ratio as [r0 |]; [| discriminate].
  destruct (Js.truthy r0) eqn:T; [| discriminate].
  injection L as ->. apply truthy_true in T.
  unfold enforceAspect. rewrite C.
  replace (Js.truthy r) with true
    by (symmetry; apply truthy_true; exact T).
  cbn [andb]. rewrite (div_defined (width n) (height n)) by lra.
  cbn [Js.bind].
  destruct (Js.gtb (width n / height n) r).
  - eexists. split; reflexivity.
  - rewrite (div_defined (width n) r) by exact T.
    cbn [Js.bind]. eexists. split; reflexivity.
Qed.

Lemma enforceAspect_total (ratio : option Q) (h : Handle) (s n : CropState) :
  30 <= width n -> 30 <= height n ->
  exists n', enforceAspect ratio h s n = Some n'.
Proof.
  intros Hw Hh.
  destruct (lockedRatio ratio) as [r |] eqn:L.
  - destruct (isCorner h) eqn:C.
    + destruct (enforceAspect_locked ratio r h s n L C Hw Hh) as (n' & E & _).
      exists n'. exact E.
    + exists n. apply enforceAspect_free. right. exact C.
  - exists n. apply enforceAspect_free. left. exact L.
Qed.

(** With no ratio in force, or from an edge handle, a resize keeps a box
    that was within the display within it. *)
Lemma resize_free_inv (dw dh : Q) (h : Handle) (s : CropState) (dx dy : Q) :
  Inv dw dh s ->
  Inv dw dh
    (finalMinSize (boundsCheck dw dh (enforceMinSize h s (applyDelta h s dx dy)))).
Proof.
  intros (Hx & Hy & Hw & Hh & Mw & Mh).
  pose proof (enforceMinSize_spec h s dx dy) as M. cbv zeta in M.
  set (n := enforceMinSize h s (applyDelta h s dx dy)) in *. clearbody n.
  destruct M as (Nw & Nh & Nx & Ny).
  unfold Inv, finalMinSize, boundsCheck, minSize.
  destruct (includesL h), (includesT h);
    stage_cases; minmax_specs; repeat split; lra.
Qed.

End Resize.

(** ** Aspect re-constraining and manual input *)

Section Constrain.

Import Crop.

Lemma ratio_above (a b r : Q) : 0 < b -> r < a / b -> b * r < a.
Proof.
  intros Hb H.
  assert (E : a == (a / b) * b) by (field; lra).
  set (t := a / b) in *. clearbody t. nra.
Qed.

Lemma ratio_below (a b r : Q) : 0 < b -> 0 < r -> a / b <= r -> a / r <= b.
Proof.
  intros Hb Hr H.
  assert (E : a == (a / b) * b) by (field; lra).
  assert (F : a == (a / r) * r) by (field; lra).
  set (t := a / b) in *. set (u := a / r) in *. clearbody t u. nra.
Qed.

(** What [constrainCropBox] makes of a box when the ratio [r] is in force
    and the box has a height. *)
Lemma constrainRect_locked (ratio : option Q) (r dw dh : Q) (c : CropState) :
  lockedRatio ratio = Some r -> ~ height c == 0 ->
  exists c', constrainRect ratio dw dh c = Some c' /\
    (if Js.gtb (width c / height c) r
     then width c' = height c * r /\ height c' = height c
     else width c' = width c /\ height c' = width c / r) /\
    x c' = Qmax 0 (if Js.gtb (x c + width c') dw then dw - width c' else x c) /\
    y c' = Qmax 0 (if Js.gtb (y c + height c') dh then dh - height c' else y c).
Proof.
  intros L Hh. unfold lockedRatio in L.
  destruct ratio as [r0 |]; [| discriminate].
  destruct (Js.truthy r0) eqn:T; [| discriminate].
  injection L as ->. unfold constrainRect. rewrite T.
  apply truthy_true in T.
  rewrite (div_defined (width c) (height c)) by exact Hh.
  cbn [Js.bind].
  destruct (Js.gtb (width c / height c) r).
  - cbn [Js.bind x y width height].
    destruct (Js.gtb (x c + height c * r) dw) eqn:G1;
      cbn [x y width height];
      destruct (Js.gtb (y c + height c) dh) eqn:G2;
      cbn [x y width height];
      (eexists; split; [reflexivity |]); cbn [x y width height];
      rewrite ?G1, ?G2; repeat split; reflexivity.
  - rewrite (div_defined (width c) r) by exact T.
    cbn [Js.bind x y width height].
    destruct (Js.gtb (x c + width c) dw) eqn:G1;
      cbn [x y width height];
      destruct (Js.gtb (y c + width c / r) dh) eqn:G2;
      cbn [x y width height];
      (eexists; split; [reflexivity |]); cbn [x y width height];
      rewrite ?G1, ?G2; repeat split; reflexivity.
Qed.

(** Re-constraining a valid box to a positive ratio shrinks one side and
    moves nothing: the box stays within the display. *)
Lemma constrainRect_within (r dw dh : Q) (c : CropState) :
  0 < r -> Inv dw dh c ->
  exists c', constrainRect (Some r) dw dh c = Some c' /\
    0 <= x c' /\ 0 <= y c' /\
    x c' + width c' <= dw /\ y c' + height c' <= dh.
Proof.
  intros Hr (Hx & Hy & Hw & Hh & Mw & Mh).
  assert (L : lockedRatio (Some r) = Some r).
  { unfold lockedRatio.
    replace (Js.truthy r) with true; [reflexivity |].
    symmetry. apply truthy_true. lra. }
  destruct (constrainRect_locked (Some r) r dw dh c L) as (c' & E & S & X & Y).
  { lra. }
  exists c'. split; [exact E |].
  rewrite X, Y. clear X Y E.
  destruct (Js.gtb (width c / height c) r) eqn:G.
  - apply gtb_true in G. apply ratio_above in G; [| lra].
    destruct S as [-> ->]. stage_cases; minmax_specs; repeat split; lra.
  - apply gtb_false in G. apply ratio_below in G; [| lra | lra].
    destruct S as [-> ->]. stage_cases; minmax_specs; repeat split; lra.
Qed.

(** The four fields, once converted, clamped as [handleManualInput] does. *)
Lemma manualRect_defined (dw dh sc : Q) (fX fY fW fH : string) :
  ~ sc == 0 ->
  manualRect dw dh sc fX fY fW fH =
    Some (mkCrop
      (clamp (inject_Z (ParseInt.parseIntOr fX 0) / sc) 0 (dw - 30))
      (clamp (inject_Z (ParseInt.parseIntOr fY 0) / sc) 0 (dh - 30))
      (clamp (inject_Z (ParseInt.parseIntOr fW 100) / sc) 30
             (dw - inject_Z (ParseInt.parseIntOr fX 0) / sc))
      (clamp (inject_Z (ParseInt.parseIntOr fH 100) / sc) 30
             (dh - inject_Z (ParseInt.parseIntOr fY 0) / sc))).
Proof.
  intro H. unfold manualRect, toDisplay.
  rewrite !div_defined by exact H. reflexivity.
Qed.

End Constrain.

(** ** The geometry invariant *)

(** C1, as the code has it.  From a state whose box and gesture snapshot
    satisfy the invariant:
    - a drag step keeps the whole invariant;
    - a resize step from any handle yields a box with x, y >= 0 and width,
      height >= 30, and keeps the whole invariant when no aspect ratio is
      in force or the handle is an edge midpoint;
    - manual input with no aspect ratio in force yields a box satisfying
      the invariant when the typed position, converted to display pixels,
      lies in [0, displayDim - 30] on both axes;
    - re-constraining to a positive ratio keeps the box within the display
      (x, y >= 0, x + width <= displayWidth, y + height <= displayHeight). *)
Theorem interaction_steps_invariant (st : Crop.State) :
  let dw := Crop.displayWidth st in
  let dh := Crop.displayHeight st in
  Crop.Inv dw dh (Crop.cropState st) ->
  Crop.Inv dw dh (Crop.startCrop st) ->
  (forall dx dy, Crop.Inv dw dh (Crop.cropState (Crop.moveCropBox st dx dy)))
  /\
  (forall h dx dy,
     Crop.activeHandle st = Some h ->
     exists st',
       Crop.resizeCropBox st dx dy = Some st' /\
       0 <= Crop.x (Crop.cropState st') /\
       0 <= Crop.y (Crop.cropState st') /\
       30 <= Crop.width (Crop.cropState st') /\
       30 <= Crop.height (Crop.cropState st') /\
       (Crop.activeRatio st = None \/ Crop.isCorner h = false ->
        Crop.Inv dw dh (Crop.cropState st')))
  /\
  (forall fX fY fW fH vx vy,
     Crop.activeRatio st = None ->
     Crop.toDisplay (Crop.scale st) (inject_Z (ParseInt.parseIntOr fX 0))
       = Some vx ->
     Crop.toDisplay (Crop.scale st) (inject_Z (ParseInt.parseIntOr fY 0))
       = Some vy ->
     0 <= vx <= dw - 30 -> 0 <= vy <= dh - 30 ->
     exists st',
       Crop.handleManualInput st fX fY fW fH = Some st' /\
       Crop.Inv dw dh (Crop.cropState st'))
  /\
  (forall r,
     0 < r ->
     exists st',
       Crop.selectAspect st (Some r) = Some st' /\
       0 <= Crop.x (Crop.cropState st') /\
       0 <= Crop.y (Crop.cropState st') /\
       Crop.x (Crop.cropState st') + Crop.width (Crop.cropState st') <= dw /\
       Crop.y (Crop.cropState st') + Crop.height (Crop.cropState st') <= dh).
Proof.
  intros dw dh Hc Hs. split; [| split; [| split]].
  - (* drag *)
    intros dx dy.
    destruct Hc as (Hx & Hy & Hw & Hh & Mw & Mh).
    unfold Crop.Inv, Crop.moveCropBox. simpl.
    fold dw dh.
    pose proof (clamp_range (Crop.x (Crop.startCrop st) + dx) 0
                  (dw - Crop.width (Crop.cropState st))) as Cx.
    pose proof (clamp_range (Crop.y (Crop.startCrop st) + dy) 0
                  (dh - Crop.height (Crop.cropState st))) as Cy.
    repeat split; lra.
  - (* resize *)
    intros h dx dy Hh.
    unfold Crop.resizeCropBox, Crop.resizeRect, Crop.resizeShaped.
    rewrite Hh. cbn [Js.bind]. fold dw dh.
    pose proof (enforceMinSize_spec h (Crop.startCrop st) dx dy) as M.
    cbv zeta in M. destruct M as (Nw & Nh & _).
    destruct (enforceAspect_total (Crop.aspectRatio st) h (Crop.startCrop st)
                _ Nw Nh) as (n' & E).
    rewrite E. cbn [Js.bind]. eexists. split; [reflexivity |].
    cbn [Crop.cropState Crop.setCropState].
    pose proof (boundsCheck_spec dw dh n') as B. cbv zeta in B.
    pose proof (finalMinSize_spec (Crop.boundsCheck dw dh n')) as F.
    cbv zeta in F. destruct F as (Fx & Fy & Fw & Fh).
    rewrite Fx, Fy.
    split; [tauto | split; [tauto | split; [exact Fw | split; [exact Fh |]]]].
    intro Free.
    rewrite (enforceAspect_free _ _ _ _ Free) in E. injection E as <-.
    apply resize_free_inv. exact Hs.
  - (* manual input *)
    intros fX fY fW fH vx vy Free Ex Ey Rx Ry.
    assert (Sc : ~ Crop.scale st == 0).
    { intro Z. unfold Crop.toDisplay, Js.div in Ex.
      apply Qeq_bool_iff in Z. rewrite Z in Ex. discriminate. }
    unfold Crop.toDisplay in Ex, Ey.
    rewrite div_defined in Ex, Ey by exact Sc.
    injection Ex as Ex. injection Ey as Ey.
    unfold Crop.handleManualInput. fold dw dh.
    rewrite (manualRect_defined dw dh _ fX fY fW fH Sc).
    cbn [Js.bind].
    replace (Crop.activeRatio (Crop.setCropState st _)) with
      (Crop.activeRatio st) by reflexivity.
    rewrite Free. eexists. split; [reflexivity |].
    cbn [Crop.cropState Crop.setCropState]. rewrite Ex, Ey.
    unfold Crop.Inv. cbn [Crop.x Crop.y Crop.width Crop.height].
    pose proof (clamp_inside vx 0 (dw - 30)) as Cx.
    pose proof (clamp_inside vy 0 (dh - 30)) as Cy.
    pose proof (clamp_range
      (inject_Z (ParseInt.parseIntOr fW 100) / Crop.scale st) 30 (dw - vx))
      as Cw.
    pose proof (clamp_range
      (inject_Z (ParseInt.parseIntOr fH 100) / Crop.scale st) 30 (dh - vy))
      as Ch.
    repeat split; lra.
  - (* aspect button *)
    intros r Hr. unfold Crop.selectAspect.
    cbn [Crop.cropState Crop.setAspectRatio].
    replace (Js.gtb (Crop.width (Crop.cropState st)) 0) with true.
    2:{ symmetry. apply gtb_true. destruct Hc as (_ & _ & _ & _ & Mw & _). lra. }
    unfold Crop.constrainCropBox.
    cbn [Crop.aspectRatio Crop.displayWidth Crop.displayHeight Crop.cropState
         Crop.setAspectRatio].
    fold dw dh.
    destruct (constrainRect_within r dw dh (Crop.cropState st) Hr Hc)
      as (c' & E & P).
    rewrite E. cbn [Js.bind]. eexists. split; [reflexivity |].
    cbn [Crop.cropState Crop.setCropState]. exact P.
Qed.

(** C1 as stated fails: with the ratio 3:4 locked on a 100 by 100 display,
    the box (70, 50, 30, 40) is valid; seizing its top-left handle and moving
    the pointer by (4, 4) leaves the box (73, 54, 30, 36), whose right
    edge is at 103. *)
Lemma resize_breaks_containment :
  Crop.Inv 100 100 (Crop.mkCrop 70 50 30 40) /\
  exists st',
    Crop.handleMouseMove
      (Crop.handleMouseDown
         (Crop.session 100 100 100 100 (Some (3 # 4))
            (Crop.mkCrop 70 50 30 40))
         100 100 (Crop.OnHandle Crop.tl) 70 50)
      74 54 = Some st' /\
    Crop.sameRect (Crop.cropState st') (Crop.mkCrop 73 54 30 36) /\
    ~ Crop.Inv 100 100 (Crop.cropState st').
Proof.
  split.
  - unfold Crop.Inv. cbn. repeat split; lra.
  - eexists. split; [vm_compute; reflexivity |]. split.
    + unfold Crop.sameRect. cbn. repeat split; reflexivity.
    + unfold Crop.Inv. cbn. intros (_ & _ & H & _). lra.
Qed.

Lemma interaction_steps_invariant_witness :
  Crop.Inv 100 100 (Crop.mkCrop 10 10 50 50) /\
  Crop.Inv 100 100
    (Crop.cropState
       (Crop.moveCropBox
          (Crop.handleMouseDown
             (Crop.session 200 200 100 100 None (Crop.mkCrop 10 10 50 50))
             100 100 (Crop.OnHandle Crop.br) 60 60)
          500 (-500))) /\
  exists st',
    Crop.resizeCropBox
      (Crop.handleMouseDown
         (Crop.session 200 200 100 100 None (Crop.mkCrop 10 10 50 50))
         100 100 (Crop.OnHandle Crop.br) 60 60)
      500 500 = Some st' /\
    Crop.Inv 100 100 (Crop.cropState st').
Proof.
  assert (I : Crop.Inv 100 100 (Crop.mkCrop 10 10 50 50)).
  { unfold Crop.Inv. cbn. repeat split; apply Qle_bool_iff; reflexivity. }
  pose proof (interaction_steps_invariant
    (Crop.handleMouseDown
       (Crop.session 200 200 100 100 None (Crop.mkCrop 10 10 50 50))
       100 100 (Crop.OnHandle Crop.br) 60 60)) as T.
  cbv zeta in T. destruct (T I I) as (D & R & _).
  split; [exact I |]. split; [exact (D 500 (-500)) |].
  destruct (R Crop.br 500 500 eq_refl) as (st' & E & _ & _ & _ & _ & F).
  exists st'. split; [exact E |]. apply F. left. reflexivity.
Defined.

(** ** Resizing with a locked ratio *)

(** C2, as the code has it.  On a corner handle with the ratio r locked,
    the box after the raw delta and the minimum-size step is reshaped by
    comparing its width / height with r: if it is greater the width
    becomes height * r, else the height becomes width / r.  x is adjusted
    for the left handles and y for the top handles, so that the corner
    opposite the handle stays where the snapshot has it, and the reshaped
    box has width / height = r.  That box is the result of the gesture
    whenever it lies within the display and is at least 30 wide and high,
    that is, unless the bounds clamp or the final minimum-size check
    changes it. *)
Theorem resize_corner_locked_ratio
    (st : Crop.State) (h : Crop.Handle) (r dx dy : Q) :
  Crop.activeHandle st = Some h ->
  Crop.isCorner h = true ->
  Crop.activeRatio st = Some r ->
  let s := Crop.startCrop st in
  let n := Crop.enforceMinSize h s (Crop.applyDelta h s dx dy) in
  exists n',
    Crop.resizeShaped (Crop.aspectRatio st) h s dx dy = Some n' /\
    (r < Crop.width n / Crop.height n ->
     Crop.width n' = Crop.height n * r /\ Crop.height n' = Crop.height n) /\
    (Crop.width n / Crop.height n <= r ->
     Crop.height n' = Crop.width n / r /\ Crop.width n' = Crop.width n) /\
    (if Crop.includesL h
     then Crop.x n' + Crop.width n' == Crop.x s + Crop.width s
     else Crop.x n' == Crop.x s) /\
    (if Crop.includesT h
     then Crop.y n' + Crop.height n' == Crop.y s + Crop.height s
     else Crop.y n' == Crop.y s) /\
    Crop.width n' / Crop.height n' == r /\
    (0 <= Crop.x n' -> 0 <= Crop.y n' ->
     Crop.x n' + Crop.width n' <= Crop.displayWidth st ->
     Crop.y n' + Crop.height n' <= Crop.displayHeight st ->
     30 <= Crop.width n' -> 30 <= Crop.height n' ->
     Crop.resizeCropBox st dx dy = Some (Crop.setCropState st n')).
Proof.
  intros Hh Hc Hr s n.
  pose proof (enforceMinSize_spec h s dx dy) as M. cbv zeta in M.
  fold n in M. destruct M as (Nw & Nh & Nx & Ny).
  destruct (enforceAspect_locked (Crop.aspectRatio st) r h s n Hr Hc Nw Nh)
    as (n' & E & Shape).
  assert (R0 : ~ r == 0).
  { unfold Crop.activeRatio, Crop.lockedRatio in Hr.
    destruct (Crop.aspectRatio st) as [r0 |]; [| discriminate].
    destruct (Js.truthy r0) eqn:T; [| discriminate].
    injection Hr as <-. apply truthy_true. exact T. }
  exists n'. split; [exact E |].
  destruct (Js.gtb (Crop.width n / Crop.height n) r) eqn:G;
    [apply gtb_true in G | apply gtb_false in G]; subst n';
    cbn [Crop.x Crop.y Crop.width Crop.height].
  - split; [intros _; split; reflexivity |].
    split; [intro K; lra |].
    split; [destruct (Crop.includesL h); lra |].
    split; [exact Ny |].
    split; [field; lra |].
    intros Bx By Bw Bh Mw Mh.
    unfold Crop.resizeCropBox, Crop.resizeRect, Crop.resizeShaped.
    rewrite Hh. cbn [Js.bind]. fold s. fold n. rewrite E. cbn [Js.bind].
    rewrite boundsCheck_inside by assumption.
    rewrite finalMinSize_large by assumption. reflexivity.
  - split; [intro K; lra |].
    split; [intros _; split; reflexivity |].
    split; [exact Nx |].
    split; [destruct (Crop.includesT h); lra |].
    split; [field; split; [exact R0 | lra] |].
    intros Bx By Bw Bh Mw Mh.
    unfold Crop.resizeCropBox, Crop.resizeRect, Crop.resizeShaped.
    rewrite Hh. cbn [Js.bind]. fold s. fold n. rewrite E. cbn [Js.bind].
    rewrite boundsCheck_inside by assumption.
    rewrite finalMinSize_large by assumption. reflexivity.
Qed.

Lemma resize_corner_locked_ratio_witness :
  Crop.activeRatio
    (Crop.handleMouseDown
       (Crop.session 100 100 100 100 (Some (3 # 4)) (Crop.mkCrop 10 10 30 40))
       100 100 (Crop.OnHandle Crop.br) 40 50) = Some (3 # 4) /\
  exists n',
    Crop.resizeShaped (Some (3 # 4)) Crop.br (Crop.mkCrop 10 10 30 40) 30 0
      = Some n' /\
    Crop.width n' / Crop.height n' == 3 # 4.
Proof.
  split; [reflexivity |].
  destruct (resize_corner_locked_ratio
    (Crop.handleMouseDown
       (Crop.session 100 100 100 100 (Some (3 # 4)) (Crop.mkCrop 10 10 30 40))
       100 100 (Crop.OnHandle Crop.br) 40 50)
    Crop.br (3 # 4) 30 0 eq_refl eq_refl eq_refl)
    as (n' & E & _ & _ & _ & _ & R & _).
  exists n'. split; [exact E | exact R].
Defined.

(** C2 as stated fails: with 3:4 locked on a 100 by 100 display, pulling
    the bottom-right handle of the box (10, 10, 30, 40) up by 10 reshapes
    it to 22.5 by 30, which the bounds check leaves as it is; the final
    minimum-size check then widens it to 30 by 30, of ratio 1. *)
Lemma resize_ratio_lost_to_min_size :
  exists n st',
    Crop.resizeShaped (Some (3 # 4)) Crop.br (Crop.mkCrop 10 10 30 40)
      0 (-10) = Some n /\
    Crop.boundsCheck 100 100 n = n /\
    Crop.handleMouseMove
      (Crop.handleMouseDown
         (Crop.session 100 100 100 100 (Some (3 # 4))
            (Crop.mkCrop 10 10 30 40))
         100 100 (Crop.OnHandle Crop.br) 40 50)
      40 40 = Some st' /\
    Crop.sameRect (Crop.cropState st') (Crop.mkCrop 10 10 30 30) /\
    ~ Crop.width (Crop.cropState st') / Crop.height (Crop.cropState st')
      == 3 # 4.
Proof.
  eexists. eexists.
  split; [vm_compute; reflexivity |].
  split; [vm_compute; reflexivity |].
  split; [vm_compute; reflexivity |].
  split.
  - unfold Crop.sameRect. cbn. repeat split; reflexivity.
  - cbn. intro H. vm_compute in H. discriminate H.
Qed.

(** ** Manual input *)

(** C4, as the code has it.  Manual input takes a field that does not
    parse as 0 for a position and 100 for a size, divides the four
    source-pixel values by the scale, and clamps: the position by
    [clamp(., 0, displayDim - 30)], the size by
    [clamp(., 30, displayDim - position)], position being the converted
    typed one and not the clamped one.  So the position lies in
    [0, displayDim - 30] when the display is at least 30 long, and the
    size lies in [30, displayDim - position], position being the one of
    the box, when the typed position converts into [0, displayDim - 30];
    against the typed position the size is in range whenever that range
    is not empty.  With no aspect ratio in force this box is the result,
    with one it is handed to [constrainCropBox].  At scale 2 on an 800 by
    600 display, the fields 10, 10, 200, 150 give the box
    (5, 5, 100, 75). *)
Theorem manual_input_reconciled (st : Crop.State) (fX fY fW fH : string) :
  0 < Crop.scale st ->
  let dw := Crop.displayWidth st in
  let dh := Crop.displayHeight st in
  let realX := inject_Z (ParseInt.parseIntOr fX 0) in
  let realY := inject_Z (ParseInt.parseIntOr fY 0) in
  let realW := inject_Z (ParseInt.parseIntOr fW 100) in
  let realH := inject_Z (ParseInt.parseIntOr fH 100) in
  let vx := realX / Crop.scale st in
  let vy := realY / Crop.scale st in
  let vw := realW / Crop.scale st in
  let vh := realH / Crop.scale st in
  (ParseInt.parseInt fX = None -> realX = 0) /\
  (ParseInt.parseInt fY = None -> realY = 0) /\
  (ParseInt.parseInt fW = None -> realW = 100) /\
  (ParseInt.parseInt fH = None -> realH = 100) /\
  ParseInt.parseInt "" = None /\
  (exists c,
     Crop.manualRect dw dh (Crop.scale st) fX fY fW fH = Some c /\
     c = Crop.mkCrop (clamp vx 0 (dw - 30)) (clamp vy 0 (dh - 30))
                     (clamp vw 30 (dw - vx)) (clamp vh 30 (dh - vy)) /\
     (Crop.activeRatio st = None ->
      Crop.handleManualInput st fX fY fW fH
      = Some (Crop.setCropState st c)) /\
     (forall r, Crop.activeRatio st = Some r ->
      Crop.handleManualInput st fX fY fW fH
      = Crop.constrainCropBox (Crop.setCropState st c)) /\
     (30 <= dw -> 0 <= Crop.x c <= dw - 30) /\
     (30 <= dh -> 0 <= Crop.y c <= dh - 30) /\
     (0 <= vx <= dw - 30 ->
      Crop.x c == vx /\ 30 <= Crop.width c <= dw - Crop.x c) /\
     (0 <= vy <= dh - 30 ->
      Crop.y c == vy /\ 30 <= Crop.height c <= dh - Crop.y c) /\
     (30 <= dw - vx -> 30 <= Crop.width c <= dw - vx) /\
     (30 <= dh - vy -> 30 <= Crop.height c <= dh - vy))
  /\
  (exists st',
     Crop.handleManualInput
       (Crop.session 1600 1200 800 600 None (Crop.cropState st))
       "10" "10" "200" "150" = Some st' /\
     Crop.sameRect (Crop.cropState st') (Crop.mkCrop 5 5 100 75)).
Proof.
  intros Sc dw dh realX realY realW realH vx vy vw vh.
  assert (D : forall s d, ParseInt.parseInt s = None ->
                          inject_Z (ParseInt.parseIntOr s d) = inject_Z d).
  { intros s d H. unfold ParseInt.parseIntOr. rewrite H. reflexivity. }
  split; [apply D |]. split; [apply D |].
  split; [apply D |]. split; [apply D |].
  split; [reflexivity |]. split.
  - assert (M : Crop.manualRect dw dh (Crop.scale st) fX fY fW fH
                = Some (Crop.mkCrop (clamp vx 0 (dw - 30))
                          (clamp vy 0 (dh - 30)) (clamp vw 30 (dw - vx))
                          (clamp vh 30 (dh - vy))))
      by (apply manualRect_defined; lra).
    eexists. split; [exact M |]. split; [reflexivity |].
    split; [| split].
    + intro Free. unfold Crop.handleManualInput. fold dw dh.
      rewrite M. cbn [Js.bind].
      replace (Crop.activeRatio (Crop.setCropState st _)) with
        (Crop.activeRatio st) by reflexivity.
      rewrite Free. reflexivity.
    + intros r Locked. unfold Crop.handleManualInput. fold dw dh.
      rewrite M. cbn [Js.bind].
      replace (Crop.activeRatio (Crop.setCropState st _)) with
        (Crop.activeRatio st) by reflexivity.
      rewrite Locked. reflexivity.
    + cbn [Crop.x Crop.y Crop.width Crop.height].
      split; [intro H; apply clamp_range; lra |].
      split; [intro H; apply clamp_range; lra |].
      split; [| split; [| split]].
      * intro H.
        assert (X : clamp vx 0 (dw - 30) == vx) by (apply clamp_inside; lra).
        split; [exact X |]. rewrite X. apply clamp_range. lra.
      * intro H.
        assert (Y : clamp vy 0 (dh - 30) == vy) by (apply clamp_inside; lra).
        split; [exact Y |]. rewrite Y. apply clamp_range. lra.
      * intro H. apply clamp_range. lra.
      * intro H. apply clamp_range. lra.
  - eexists. split; [vm_compute; reflexivity |].
    unfold Crop.sameRect. cbn. repeat split; reflexivity.
Qed.

Lemma manual_input_reconciled_witness :
  exists c,
    Crop.handleManualInput
      (Crop.session 1600 1200 800 600 None (Crop.mkCrop 0 0 640 480))
      "" "abc" "" "150"
    = Some (Crop.setCropState
              (Crop.session 1600 1200 800 600 None (Crop.mkCrop 0 0 640 480))
              c) /\
    Crop.sameRect c (Crop.mkCrop 0 0 50 75).
Proof.
  destruct (manual_input_reconciled
    (Crop.session 1600 1200 800 600 None (Crop.mkCrop 0 0 640 480))
    "" "abc" "" "150") as (_ & _ & _ & _ & _ & (c & _ & C & E & _) & _).
  - reflexivity.
  - exists c. split; [apply E; reflexivity |]. rewrite C.
    unfold Crop.sameRect. cbn. repeat split; reflexivity.
Defined.

(** C4 as stated fails.  On an 800 by 600 display at scale 1 with no
    aspect ratio in force, the fields -100, 0, 900, 100 give the box
    (0, 0, 900, 100): the width was clamped against 800 - (-100), the
    typed position, and is more than the display holds from x = 0.  On a
    display of 20 by 20, shorter than 30, the fields 0, 0, 100, 100 give
    the position (-10, -10). *)
Lemma manual_input_size_exceeds_display :
  (exists st',
     Crop.handleManualInput
       (Crop.session 800 600 800 600 None (Crop.mkCrop 0 0 640 480))
       "-100" "0" "900" "100" = Some st' /\
     Crop.sameRect (Crop.cropState st') (Crop.mkCrop 0 0 900 100) /\
     ~ Crop.width (Crop.cropState st')
       <= Crop.displayWidth st' - Crop.x (Crop.cropState st')) /\
  (exists st',
     Crop.handleManualInput
       (Crop.session 20 20 20 20 None (Crop.mkCrop 0 0 20 20))
       "0" "0" "100" "100" = Some st' /\
     Crop.sameRect (Crop.cropState st') (Crop.mkCrop (-10) (-10) 20 20) /\
     ~ 0 <= Crop.x (Crop.cropState st')).
Proof.
  split.
  - eexists. split; [vm_compute; reflexivity |]. split.
    + unfold Crop.sameRect. cbn. repeat split; reflexivity.
    + cbn. intro H. vm_compute in H. apply H. reflexivity.
  - eexists. split; [vm_compute; reflexivity |]. split.
    + unfold Crop.sameRect. cbn. repeat split; reflexivity.
    + cbn. intro H. vm_compute in H. apply H. reflexivity.
Qed.

(** C5, as the code has it.  With the ratio r in force, manual input
    compares width / height of the clamped box with r: if it is greater,
    the width becomes height * r and the height stays; else the height
    becomes width / r and the width stays.  No corner is anchored: x and y
    are only moved back when the box sticks out on the right or at the
    bottom, and then clamped at 0. *)
Theorem manual_input_ratio_tie_break
    (st : Crop.State) (fX fY fW fH : string) (r : Q) (c : Crop.CropState) :
  Crop.activeRatio st = Some r ->
  Crop.manualRect (Crop.displayWidth st) (Crop.displayHeight st)
    (Crop.scale st) fX fY fW fH = Some c ->
  ~ Crop.height c == 0 ->
  exists st',
    Crop.handleManualInput st fX fY fW fH = Some st' /\
    let c' := Crop.cropState st' in
    (r < Crop.width c / Crop.height c ->
     Crop.width c' = Crop.height c * r /\ Crop.height c' = Crop.height c) /\
    (Crop.width c / Crop.height c <= r ->
     Crop.width c' = Crop.width c /\ Crop.height c' = Crop.width c / r) /\
    Crop.x c' =
      Qmax 0 (if Js.gtb (Crop.x c + Crop.width c') (Crop.displayWidth st)
              then Crop.displayWidth st - Crop.width c' else Crop.x c) /\
    Crop.y c' =
      Qmax 0 (if Js.gtb (Crop.y c + Crop.height c') (Crop.displayHeight st)
              then Crop.displayHeight st - Crop.height c' else Crop.y c).
Proof.
  intros Hr Hm Hh.
  destruct (constrainRect_locked (Crop.aspectRatio st) r
              (Crop.displayWidth st) (Crop.displayHeight st) c Hr Hh)
    as (c' & E & S & X & Y).
  unfold Crop.handleManualInput. rewrite Hm. cbn [Js.bind].
  replace (Crop.activeRatio (Crop.setCropState st c)) with
    (Crop.activeRatio st) by reflexivity.
  rewrite Hr. unfold Crop.constrainCropBox.
  cbn [Crop.aspectRatio Crop.displayWidth Crop.displayHeight Crop.cropState
       Crop.setCropState].
  rewrite E. cbn [Js.bind]. eexists. split; [reflexivity |].
  cbn [Crop.cropState Crop.setCropState]. cbv zeta.
  destruct (Js.gtb (Crop.width c / Crop.height c) r) eqn:G;
    [apply gtb_true in G | apply gtb_false in G].
  - split; [intros _; exact S |]. split; [intro K; lra |].
    split; [exact X | exact Y].
  - split; [intro K; lra |]. split; [intros _; exact S |].
    split; [exact X | exact Y].
Qed.

Lemma manual_input_ratio_tie_break_witness :
  exists st',
    Crop.handleManualInput
      (Crop.session 800 600 800 600 (Some 1) (Crop.mkCrop 0 0 640 480))
      "0" "0" "100" "200" = Some st' /\
    Crop.width (Crop.cropState st') == 100 /\
    Crop.height (Crop.cropState st') == 100.
Proof.
  edestruct (manual_input_ratio_tie_break
    (Crop.session 800 600 800 600 (Some 1) (Crop.mkCrop 0 0 640 480))
    "0" "0" "100" "200" 1)
    as (st' & E & _ & S & _).
  - reflexivity.
  - vm_compute. reflexivity.
  - cbn. intro H. vm_compute in H. discriminate H.
  - exists st'. split; [exact E |].
    destruct S as [Sw Sh].
    + cbn. apply Qle_bool_iff. reflexivity.
    + rewrite Sw, Sh. cbn. split; reflexivity.
Defined.

(** C5 as stated fails: with the ratio 1:1 in force at scale 1 on an 800
    by 600 display, the fields 0, 0, 200, 100 give the box
    (0, 0, 100, 100): the typed height is kept and the width is derived
    from it. *)
Lemma manual_input_derives_width :
  exists st',
    Crop.handleManualInput
      (Crop.session 800 600 800 600 (Some 1) (Crop.mkCrop 0 0 640 480))
      "0" "0" "200" "100" = Some st' /\
    Crop.sameRect (Crop.cropState st') (Crop.mkCrop 0 0 100 100) /\
    ~ Crop.width (Crop.cropState st') == 200.
Proof.
  eexists. split; [vm_compute; reflexivity |]. split.
  - unfold Crop.sameRect. cbn. repeat split; reflexivity.
  - cbn. intro H. vm_compute in H. discriminate H.
Qed.

(** C10.  [clamp(value, min, max)] is [min(max(value, min), max)]: on an
    interval with [min <= max] it answers min below it, the value within
    it and max above it, and whenever [max < min] it answers max,
    whatever the value.  So with no aspect ratio in force, a typed
    position that converts to more than displayDim - 30 on an axis leaves
    the size on that axis at displayDim - position, below 30, and below 0
    when the position lies beyond the display; the input is taken all the
    same. *)
Theorem manual_input_undersized (st : Crop.State) (fX fY fW fH : string) :
  0 < Crop.scale st ->
  Crop.activeRatio st = None ->
  let dw := Crop.displayWidth st in
  let dh := Crop.displayHeight st in
  let vx := inject_Z (ParseInt.parseIntOr fX 0) / Crop.scale st in
  let vy := inject_Z (ParseInt.parseIntOr fY 0) / Crop.scale st in
  (forall v lo hi, clamp v lo hi = Qmin (Qmax v lo) hi) /\
  (forall v lo hi, lo <= hi ->
     (v <= lo -> clamp v lo hi == lo) /\
     (lo <= v <= hi -> clamp v lo hi == v) /\
     (hi <= v -> clamp v lo hi == hi)) /\
  (forall v lo hi, hi < lo -> clamp v lo hi == hi) /\
  exists st',
    Crop.handleManualInput st fX fY fW fH = Some st' /\
    (dw - 30 < vx ->
     Crop.width (Crop.cropState st') == dw - vx /\
     Crop.width (Crop.cropState st') < 30 /\
     (dw < vx -> Crop.width (Crop.cropState st') < 0)) /\
    (dh - 30 < vy ->
     Crop.height (Crop.cropState st') == dh - vy /\
     Crop.height (Crop.cropState st') < 30 /\
     (dh < vy -> Crop.height (Crop.cropState st') < 0)).
Proof.
  intros Sc Free dw dh vx vy.
  split; [reflexivity |].
  split.
  { intros v lo hi H. unfold clamp.
    split; [| split]; intro K; minmax_specs; lra. }
  split; [exact clamp_inverted |].
  unfold Crop.handleManualInput. fold dw dh.
  rewrite (manualRect_defined dw dh _ fX fY fW fH) by lra.
  cbn [Js.bind].
  replace (Crop.activeRatio (Crop.setCropState st _)) with
    (Crop.activeRatio st) by reflexivity.
  rewrite Free. eexists. split; [reflexivity |].
  cbn [Crop.cropState Crop.setCropState Crop.width Crop.height].
  fold vx vy.
  split; intro H.
  - pose proof (clamp_inverted
      (inject_Z (ParseInt.parseIntOr fW 100) / Crop.scale st) 30 (dw - vx))
      as C.
    repeat split; try intro; lra.
  - pose proof (clamp_inverted
      (inject_Z (ParseInt.parseIntOr fH 100) / Crop.scale st) 30 (dh - vy))
      as C.
    repeat split; try intro; lra.
Qed.

Lemma manual_input_undersized_witness :
  exists st',
    Crop.handleManualInput
      (Crop.session 800 600 800 600 None (Crop.mkCrop 0 0 640 480))
      "900" "580" "200" "150" = Some st' /\
    Crop.width (Crop.cropState st') == -100 /\
    Crop.height (Crop.cropState st') == 20.
Proof.
  destruct (manual_input_undersized
    (Crop.session 800 600 800 600 None (Crop.mkCrop 0 0 640 480))
    "900" "580" "200" "150") as (_ & _ & _ & st' & E & W & H).
  - reflexivity.
  - reflexivity.
  - exists st'. split; [exact E |]. split.
    + destruct W as (W & _).
      * apply ltb_true. reflexivity.
      * rewrite W. reflexivity.
    + destruct H as (H & _).
      * apply ltb_true. reflexivity.
      * rewrite H. reflexivity.
Defined.

(** ** Coordinate transform *)

(** C9, as the code has it.  The scale [recalculateScale] computes from
    a positive source width and a positive display width is their
    quotient and is positive.  The code never uses [p * scale] unrounded:
    the source value of a display value p is [Math.round(p * scale)],
    which is what [updateCropBox] prints into the fields and what
    [applyCrop] clamps and sends.  Taking p to source pixels and back
    gives a value within half a source pixel, 1/2 divided by the scale,
    of p, and p itself when [p * scale] is a whole number. *)
Theorem scale_round_trip (st : Crop.State) (rw rh p : Q) :
  0 < rw -> (0 < Crop.imageWidth st)%Z ->
  let sc := Crop.scale (Crop.recalculateScale st rw rh) in
  sc = inject_Z (Crop.imageWidth st) / rw /\
  0 < sc /\
  (forall (s : Crop.State) (name : string),
     CropPage.cropX (CropPage.updateCropBox s)
     = Upscale.showInt (Crop.toSource (Crop.scale s)
                          (Crop.x (Crop.cropState s))) /\
     Api.cropX (Crop.cropRequest s name)
     = Z.min (Z.max 0 (Crop.toSource (Crop.scale s)
                         (Crop.x (Crop.cropState s))))
         (Crop.imageWidth s - 1)) /\
  exists q,
    Crop.toDisplay sc (inject_Z (Crop.toSource sc p)) = Some q /\
    p - (1 # 2) / sc <= q <= p + (1 # 2) / sc /\
    (forall z, p * sc == inject_Z z -> q == p).
Proof.
  intros Hw Hi sc.
  assert (Iq : 0 < inject_Z (Crop.imageWidth st)).
  { change 0 with (inject_Z 0). rewrite <- Zlt_Qlt. exact Hi. }
  assert (E : sc = inject_Z (Crop.imageWidth st) / rw).
  { unfold sc, Crop.recalculateScale. cbn [Crop.scale Crop.setDisplay].
    replace (Js.gtb rw 0) with true by (symmetry; apply gtb_true; exact Hw).
    replace (Js.gtb (inject_Z (Crop.imageWidth st)) 0) with true
      by (symmetry; apply gtb_true; exact Iq).
    reflexivity. }
  assert (P : 0 < sc).
  { rewrite E. apply Qlt_shift_div_l; lra. }
  split; [exact E |]. split; [exact P |].
  split; [intros s name; split; reflexivity |].
  unfold Crop.toDisplay, Crop.toSource.
  rewrite div_defined by lra.
  eexists. split; [reflexivity |]. split.
  - exact (round_then_divide p sc P).
  - intros z Ez. rewrite (round_whole _ _ Ez). rewrite <- Ez. field. lra.
Qed.

Lemma scale_round_trip_witness :
  Crop.scale
    (Crop.recalculateScale
       (Crop.session 1600 1200 800 600 None (Crop.mkCrop 0 0 640 480)) 800 600)
    = 1600 / 800 /\
  exists q,
    Crop.toDisplay (1600 / 800)
      (inject_Z (Crop.toSource (1600 / 800) (7 # 3))) = Some q /\
    (7 # 3) - (1 # 2) / (1600 / 800) <= q <= (7 # 3) + (1 # 2) / (1600 / 800).
Proof.
  destruct (scale_round_trip
    (Crop.session 1600 1200 800 600 None (Crop.mkCrop 0 0 640 480)) 800 600 (7 # 3))
    as (E & _ & _ & q & R & B & _).
  - reflexivity.
  - reflexivity.
  - split; [exact E |]. exists q. split; [exact R | exact B].
Defined.

(** C9 as stated fails, the tolerance being that of floating point.  At
    scale 2 the display value 10.25 is taken to the source pixel 21
    ([Math.round(20.5)]) and back to 10.5; so a box at x = 10.25, shown
    in the fields by [updateCropBox] and read back from them by
    [handleManualInput], lands at x = 10.5. *)
Lemma round_trip_moves_quarter_pixel :
  Crop.toSource (1600 / 800) (41 # 4) = 21%Z /\
  (exists q,
     Crop.toDisplay (1600 / 800)
       (inject_Z (Crop.toSource (1600 / 800) (41 # 4))) = Some q /\
     q == 21 # 2 /\ ~ q == 41 # 4) /\
  (let st := Crop.session 1600 1200 800 600 None
               (Crop.mkCrop (41 # 4) 10 100 100) in
   let v := CropPage.updateCropBox st in
   exists st',
     Crop.handleManualInput st (CropPage.cropX v) (CropPage.cropY v)
       (CropPage.cropW v) (CropPage.cropH v) = Some st' /\
     Crop.sameRect (Crop.cropState st') (Crop.mkCrop (21 # 2) 10 100 100) /\
     ~ Crop.x (Crop.cropState st') == Crop.x (Crop.cropState st)).
Proof.
  split; [reflexivity |]. split.
  - eexists. split; [vm_compute; reflexivity |].
    split; [reflexivity |]. intro H. vm_compute in H. discriminate H.
  - cbv zeta. eexists. split; [vm_compute; reflexivity |]. split.
    + unfold Crop.sameRect. cbn. repeat split; reflexivity.
    + cbn. intro H. vm_compute in H. discriminate H.
Qed.

(** ** Scale options of the upscale tool *)

Section Gate.

Import Upscale.

Lemma gateScales_cards (st : State) (w h : Z) :
  card8Enabled (gateScales st w h) = negb (tooLarge w h 8) /\
  card4Enabled (gateScales st w h) = negb (tooLarge w h 4) /\
  card2Enabled (gateScales st w h) = card2Enabled st.
Proof.
  unfold gateScales.
  destruct (tooLarge w h 8 && (selectedScale st =? 8)%Z);
    destruct (tooLarge w h 4 && _); repeat split; reflexivity.
Qed.

Lemma gateScales_selected (st : State) (w h : Z) :
  selectedScale (gateScales st w h) =
    if (selectedScale st =? 8)%Z then
      if tooLarge w h 8 then (if tooLarge w h 4 then 2 else 4)%Z else 8%Z
    else if (selectedScale st =? 4)%Z then
      (if tooLarge w h 4 then 2 else 4)%Z
    else selectedScale st.
Proof.
  unfold gateScales.
  destruct (selectedScale st =? 8)%Z eqn:E8.
  - apply Z.eqb_eq in E8. rewrite E8.
    destruct (tooLarge w h 8), (tooLarge w h 4); reflexivity.
  - rewrite andb_false_r.
    destruct (selectedScale st =? 4)%Z eqn:E4.
    + apply Z.eqb_eq in E4. rewrite E4.
      destruct (tooLarge w h 4); reflexivity.
    + rewrite andb_false_r. reflexivity.
Qed.

Lemma handleFileSelect_gates (st : State) (file : File) (w h : Z)
    (upload : Api.Outcome Api.UploadResult) :
  validateFile file = true ->
  let st' := fst (handleFileSelect st file (Some (w, h)) upload) in
  selectedScale st' = selectedScale (gateScales st w h) /\
  card2Enabled st' = card2Enabled (gateScales st w h) /\
  card4Enabled st' = card4Enabled (gateScales st w h) /\
  card8Enabled st' = card8Enabled (gateScales st w h).
Proof.
  intros V. unfold handleFileSelect. rewrite V. cbn [negb].
  destruct (Api.settle "Upload failed" upload); cbn; repeat split; reflexivity.
Qed.

End Gate.

(** C6, as the code has it.  After an upload of a valid file of w by h
    pixels, the 8x and the 4x option are enabled exactly when their
    projected output (w or h times the scale) does not exceed 10000 px;
    the 2x option is left as it was.  A selection of 8 or 4 that became
    invalid is demoted to the next smaller option that is enabled, or to
    2; any other selection stays.  An upload of 20000 by 20000 with 8
    selected disables 8x and 4x, leaves 2x enabled and selects 2. *)
Theorem upload_gates_scale_options
    (st : Upscale.State) (file : Upscale.File) (w h : Z)
    (upload : Api.Outcome Api.UploadResult) :
  Upscale.validateFile file = true ->
  let st' := fst (Upscale.handleFileSelect st file (Some (w, h)) upload) in
  let sel := Upscale.selectedScale st in
  let sel' := Upscale.selectedScale st' in
  Upscale.card8Enabled st' = negb (Upscale.tooLarge w h 8) /\
  Upscale.card4Enabled st' = negb (Upscale.tooLarge w h 4) /\
  Upscale.card2Enabled st' = Upscale.card2Enabled st /\
  ((sel = 8 \/ sel = 4)%Z ->
   (Upscale.tooLarge w h sel = false -> sel' = sel) /\
   (Upscale.tooLarge w h sel = true ->
    (sel' < sel)%Z /\
    (sel' = 2%Z \/ Upscale.cardEnabled st' sel' = true) /\
    (forall t, (t = 4 \/ t = 8)%Z -> (sel' < t <= sel)%Z ->
               Upscale.cardEnabled st' t = false))) /\
  (sel <> 8%Z -> sel <> 4%Z -> sel' = sel) /\
  (let up := fst (Upscale.handleFileSelect
                    (Upscale.selectScale Upscale.fresh 8) file
                    (Some (20000, 20000)%Z) upload) in
   Upscale.card8Enabled up = false /\ Upscale.card4Enabled up = false /\
   Upscale.card2Enabled up = true /\ Upscale.selectedScale up = 2%Z).
Proof.
  intros V st' sel sel'.
  destruct (handleFileSelect_gates st file w h upload V) as (S & C2 & C4 & C8).
  destruct (gateScales_cards st w h) as (G8 & G4 & G2).
  pose proof (gateScales_selected st w h) as GS.
  fold st' in S, C2, C4, C8. fold sel' in S. fold sel in GS.
  rewrite <- S in GS. rewrite <- C8 in G8. rewrite <- C4 in G4.
  rewrite <- C2 in G2. clear S C2 C4 C8.
  split; [exact G8 |]. split; [exact G4 |]. split; [exact G2 |].
  split; [| split].
  - intros [E | E]; rewrite E in *; cbn [Z.eqb Pos.eqb] in GS.
    + split; intro T; rewrite T in GS; [exact GS |].
      destruct (Upscale.tooLarge w h 4) eqn:T4; rewrite GS.
      * split; [lia |]. split; [left; reflexivity |].
        intros t [-> | ->] R; unfold Upscale.cardEnabled; cbn [Z.eqb Pos.eqb].
        -- rewrite G4, ?T4. reflexivity.
        -- rewrite G8, ?T. reflexivity.
      * split; [lia |]. split.
        -- right. unfold Upscale.cardEnabled. cbn [Z.eqb Pos.eqb].
           rewrite G4, ?T4. reflexivity.
        -- intros t [-> | ->] R; [lia |].
           unfold Upscale.cardEnabled. cbn [Z.eqb Pos.eqb].
           rewrite G8, ?T. reflexivity.
    + split; intro T; rewrite T in GS; [exact GS |]. rewrite GS.
      split; [lia |]. split; [left; reflexivity |].
      intros t [-> | ->] R; [| lia].
      unfold Upscale.cardEnabled. cbn [Z.eqb Pos.eqb].
      rewrite G4, ?T. reflexivity.
  - intros N8 N4. apply Z.eqb_neq in N8, N4. rewrite N8, N4 in GS. exact GS.
  - unfold Upscale.handleFileSelect. rewrite V. cbn [negb].
    destruct (Api.settle "Upload failed" upload); cbn; repeat split; reflexivity.
Qed.

Lemma upload_gates_scale_options_witness :
  Upscale.selectedScale
    (fst (Upscale.handleFileSelect (Upscale.selectScale Upscale.fresh 8)
            (Upscale.mkFile "image/png" 4096) (Some (2000, 1500)%Z)
            (Api.HttpOk (Api.mkUploadResult "a.png")))) = 4%Z /\
  Upscale.card8Enabled
    (fst (Upscale.handleFileSelect (Upscale.selectScale Upscale.fresh 8)
            (Upscale.mkFile "image/png" 4096) (Some (2000, 1500)%Z)
            (Api.HttpOk (Api.mkUploadResult "a.png")))) = false.
Proof.
  destruct (upload_gates_scale_options (Upscale.selectScale Upscale.fresh 8)
    (Upscale.mkFile "image/png" 4096) 2000 1500
    (Api.HttpOk (Api.mkUploadResult "a.png")) eq_refl)
    as (C8 & _ & _ & _ & _).
  split; [reflexivity | exact C8].
Defined.

(** C6 as stated fails: after an upload of 20000 by 20000 pixels into the
    fresh tool, the 2x option, whose projected output is 40000 px, still
    takes clicks. *)
Lemma upload_leaves_2x_enabled :
  Upscale.tooLarge 20000 20000 2 = true /\
  Upscale.cardEnabled
    (fst (Upscale.handleFileSelect (Upscale.selectScale Upscale.fresh 8)
            (Upscale.mkFile "image/png" 4096) (Some (20000, 20000)%Z)
            (Api.HttpOk (Api.mkUploadResult "a.png")))) 2 = true.
Proof. split; reflexivity. Qed.

(** ** Chained crops *)

Section Chain.

Import Crop.

(** Take apart a hypothesis [(let? x := m in k) = Some r]. *)
Ltac bind_inv H :=
  repeat match type of H with
  | Js.bind ?m _ = Some _ =>
      let E := fresh "E" in
      destruct m eqn:E; cbn [Js.bind] in H; [| discriminate H]
  | (if ?b then _ else _) = Some _ => destruct b
  | match ?o with Some _ => _ | None => _ end = Some _ =>
      let E := fresh "E" in destruct o eqn:E
  end.

Lemma constrainCropBox_file (st st' : State) :
  constrainCropBox st = Some st' ->
  uploadedFilename st' = uploadedFilename st.
Proof.
  unfold constrainCropBox. intro H. bind_inv H.
  injection H as <-. reflexivity.
Qed.

(** Nothing but [applyCrop] (and a new upload or a reset) touches
    [uploadedFilename]. *)
Lemma step_file (st st' : State) :
  step st st' -> uploadedFilename st' = uploadedFilename st.
Proof.
  intros [s rw rh [h |] cx cy | s cx cy s' H | s | s fX fY fW fH s' H
         | s ratio s' H | s rw rh s' H | s rw rh]; try reflexivity.
  - unfold handleMouseMove, resizeCropBox in H. bind_inv H;
      try (injection H as <-; reflexivity); discriminate H.
  - unfold handleManualInput in H. bind_inv H.
    + apply constrainCropBox_file in H. exact H.
    + injection H as <-. reflexivity.
  - unfold selectAspect in H. bind_inv H.
    + apply constrainCropBox_file in H. exact H.
    + injection H as <-. reflexivity.
  - unfold initCropBox in H. bind_inv H. injection H as <-. reflexivity.
Qed.

Lemma steps_file (st st' : State) :
  steps st st' -> uploadedFilename st' = uploadedFilename st.
Proof.
  induction 1 as [| s1 s2 s3 H _ IH]; [reflexivity |].
  rewrite IH. apply step_file. exact H.
Qed.

(** The requests [applyCrop] issues name the current file. *)
Lemma applyCrop_requests (st : State)
    (server : Api.CropRequest -> Api.Outcome Api.CropResult)
    (name : string) (r : Api.CropRequest) :
  uploadedFilename st = Some name ->
  In (Api.PostCrop r) (snd (applyCrop st server)) ->
  r = cropRequest st name.
Proof.
  intros U. unfold applyCrop. rewrite U.
  destruct (Api.noName (Some name)).
  - cbn. intros [H | []]. discriminate H.
  - destruct (Api.settle "Crop failed" (server (cropRequest st name)));
      cbn; intros H;
      repeat (destruct H as [H | H]; try discriminate H);
      try contradiction; injection H as <-; reflexivity.
Qed.

Lemma applyCrop_issues (st : State)
    (server : Api.CropRequest -> Api.Outcome Api.CropResult)
    (name : string) :
  uploadedFilename st = Some name -> Api.noName (Some name) = false ->
  In (Api.PostCrop (cropRequest st name)) (snd (applyCrop st server)).
Proof.
  intros U N. unfold applyCrop. rewrite U, N.
  destruct (Api.settle "Crop failed" (server (cropRequest st name)));
    cbn; auto.
Qed.

End Chain.

(** C7.  When a crop of the asset A succeeds with the asset B, B becomes
    the session's file; whatever gestures, inputs and reloads follow, the
    next crop names B in every request it issues, and it issues one
    (B being a file name, that is, not empty). *)
Theorem crop_chain_targets_result
    (st st2 : Crop.State)
    (server server2 : Api.CropRequest -> Api.Outcome Api.CropResult)
    (a : string) (b : Api.CropResult) :
  Crop.uploadedFilename st = Some a ->
  Api.noName (Some a) = false ->
  server (Crop.cropRequest st a) = Api.HttpOk b ->
  let st1 := fst (Crop.applyCrop st server) in
  Crop.uploadedFilename st1 = Some (Api.resFilename b) /\
  (Crop.steps st1 st2 ->
   (forall r, In (Api.PostCrop r) (snd (Crop.applyCrop st2 server2)) ->
              Api.cropFilename r = Api.resFilename b) /\
   (Api.noName (Some (Api.resFilename b)) = false ->
    In (Api.PostCrop (Crop.cropRequest st2 (Api.resFilename b)))
       (snd (Crop.applyCrop st2 server2)))).
Proof.
  intros U N S st1.
  assert (U1 : Crop.uploadedFilename st1 = Some (Api.resFilename b)).
  { unfold st1, Crop.applyCrop. rewrite U, N, S. reflexivity. }
  split; [exact U1 |].
  intro R. apply steps_file in R. rewrite U1 in R.
  split.
  - intros r H. rewrite (applyCrop_requests st2 server2 _ r R H). reflexivity.
  - intro Nb. apply applyCrop_issues; assumption.
Qed.

Lemma crop_chain_targets_result_witness :
  In (Api.PostCrop (Api.mkCropRequest "B.png" 10 10 40 40))
     (snd (Crop.applyCrop
             (fst (Crop.applyCrop
                     (Crop.session 100 100 100 100 None
                        (Crop.mkCrop 10 10 50 50))
                     (fun _ => Api.HttpOk
                                 (Api.mkCropResult "B.png" "/t/B.png" 50 50))))
             (fun _ => Api.HttpError (Some "gone"%string)))).
Proof.
  destruct (crop_chain_targets_result
    (Crop.session 100 100 100 100 None (Crop.mkCrop 10 10 50 50))
    (fst (Crop.applyCrop
            (Crop.session 100 100 100 100 None (Crop.mkCrop 10 10 50 50))
            (fun _ => Api.HttpOk (Api.mkCropResult "B.png" "/t/B.png" 50 50))))
    (fun _ => Api.HttpOk (Api.mkCropResult "B.png" "/t/B.png" 50 50))
    (fun _ => Api.HttpError (Some "gone"%string))
    "upload.png" (Api.mkCropResult "B.png" "/t/B.png" 50 50)
    eq_refl eq_refl eq_refl) as (_ & R).
  destruct (R (rt1n_refl _ _ _)) as (_ & I).
  exact (I eq_refl).
Defined.

(** ** Failed processing calls *)

Section Failure.

Lemma settle_detail (A : Type) (fallback detail : string) :
  detail <> ""%string ->
  @Api.settle A fallback (Api.HttpError (Some detail)) = inl detail.
Proof.
  intro H. cbn. destruct detail; [contradiction | reflexivity].
Qed.

Lemma applyCrop_failure (st : Crop.State)
    (server : Api.CropRequest -> Api.Outcome Api.CropResult)
    (name message : string) :
  Crop.uploadedFilename st = Some name ->
  Api.noName (Some name) = false ->
  Api.settle "Crop failed" (server (Crop.cropRequest st name)) = inl message ->
  Crop.applyCrop st server =
    (st, [Api.Toast "Cropping image..." "info";
          Api.PostCrop (Crop.cropRequest st name);
          Api.Toast ("Crop failed: " ++ message) "error"]).
Proof.
  intros U N S. unfold Crop.applyCrop. rewrite U, N, S. reflexivity.
Qed.

Lemma processUpscale_failure (st : Upscale.State)
    (server : Api.UpscaleRequest -> Api.Outcome Api.UpscaleResult)
    (name message : string) :
  Upscale.uploadedFilename st = Some name ->
  Api.noName (Some name) = false ->
  Upscale.tooLarge (Upscale.originalWidth st) (Upscale.originalHeight st)
    (Upscale.selectedScale st) = false ->
  Api.settle "Upscale failed"
    (server (Api.mkUpscaleRequest name (Upscale.selectedScale st)))
    = inl message ->
  Upscale.processUpscale st server =
    (Upscale.setProcessing st (Upscale.processedFilename st) true true,
     [Api.Toast ("Upscaling image " ++ Upscale.showInt (Upscale.selectedScale st)
                 ++ "x... This may take a moment.") "info";
      Api.PostUpscale (Api.mkUpscaleRequest name (Upscale.selectedScale st));
      Api.Toast ("Upscale failed: " ++ message) "error"]).
Proof.
  intros U N T S. unfold Upscale.processUpscale. rewrite U, N, T, S.
  reflexivity.
Qed.

End Failure.

(** C8, as the code has it.  When a processing call fails (the transport
    fails, or the response is not 2xx), the crop session is exactly as
    before; the upscale session keeps its state variables (file names,
    dimensions, selected scale) and its scale cards, with the overlays
    hidden and the trigger enabled, so that a retry issues the same
    request.  The error text shown is the tool's prefix ("Crop failed: ",
    "Upscale failed: ") followed by the message of the failure, which for
    a non-2xx response is its non-empty [detail], verbatim, and for a
    transport failure the message of that failure. *)
Theorem failed_processing_is_retryable
    (cst : Crop.State) (ust : Upscale.State)
    (cserver : Api.CropRequest -> Api.Outcome Api.CropResult)
    (userver : Api.UpscaleRequest -> Api.Outcome Api.UpscaleResult)
    (cname uname cmsg umsg : string) :
  Crop.uploadedFilename cst = Some cname ->
  Api.noName (Some cname) = false ->
  Api.settle "Crop failed" (cserver (Crop.cropRequest cst cname)) = inl cmsg ->
  Upscale.uploadedFilename ust = Some uname ->
  Api.noName (Some uname) = false ->
  Upscale.tooLarge (Upscale.originalWidth ust) (Upscale.originalHeight ust)
    (Upscale.selectedScale ust) = false ->
  Api.settle "Upscale failed"
    (userver (Api.mkUpscaleRequest uname (Upscale.selectedScale ust)))
    = inl umsg ->
  let ureq := Api.mkUpscaleRequest uname (Upscale.selectedScale ust) in
  let ust' := fst (Upscale.processUpscale ust userver) in
  (* crop *)
  Crop.applyCrop cst cserver =
    (cst, [Api.Toast "Cropping image..." "info";
           Api.PostCrop (Crop.cropRequest cst cname);
           Api.Toast ("Crop failed: " ++ cmsg) "error"]) /\
  (* upscale *)
  snd (Upscale.processUpscale ust userver) =
    [Api.Toast ("Upscaling image " ++ Upscale.showInt (Upscale.selectedScale ust)
                ++ "x... This may take a moment.") "info";
     Api.PostUpscale ureq;
     Api.Toast ("Upscale failed: " ++ umsg) "error"] /\
  ust' =
    Upscale.mkState (Upscale.uploadedFilename ust)
      (Upscale.processedFilename ust)
      (Upscale.originalWidth ust) (Upscale.originalHeight ust)
      (Upscale.selectedScale ust)
      (Upscale.card2Enabled ust) (Upscale.card4Enabled ust)
      (Upscale.card8Enabled ust) (Upscale.activeCard ust)
      true true
      (Upscale.resetBtnDisabled ust) false (Upscale.downloadBtnDisabled ust) /\
  (forall userver2,
     In (Api.PostUpscale ureq) (snd (Upscale.processUpscale ust' userver2))) /\
  (* the message *)
  (forall (A : Type) (fallback detail : string),
     detail <> ""%string ->
     @Api.settle A fallback (Api.HttpError (Some detail)) = inl detail) /\
  (forall (A : Type) (fallback message : string),
     @Api.settle A fallback (Api.TransportError message) = inl message).
Proof.
  intros CU CN CS UU UN UT US ureq ust'.
  pose proof (processUpscale_failure ust userver uname umsg UU UN UT US) as PF.
  split; [apply applyCrop_failure; assumption |].
  split; [rewrite PF; reflexivity |].
  assert (E : ust' = Upscale.setProcessing ust (Upscale.processedFilename ust)
                       true true).
  { unfold ust'. rewrite PF. reflexivity. }
  split; [rewrite E; reflexivity |].
  split; [| split; [exact settle_detail | reflexivity]].
  intro userver2. rewrite E. unfold Upscale.processUpscale.
  cbn [Upscale.uploadedFilename Upscale.setProcessing Upscale.originalWidth
       Upscale.originalHeight Upscale.selectedScale].
  rewrite UU, UN, UT. fold ureq.
  destruct (Api.settle "Upscale failed" (userver2 ureq)); cbn; auto.
Qed.

Lemma failed_processing_is_retryable_witness :
  Crop.applyCrop
    (Crop.session 100 100 100 100 None (Crop.mkCrop 10 10 50 50))
    (fun _ => Api.HttpError (Some "Invalid crop region"%string)) =
  (Crop.session 100 100 100 100 None (Crop.mkCrop 10 10 50 50),
   [Api.Toast "Cropping image..." "info";
    Api.PostCrop (Api.mkCropRequest "upload.png" 10 10 50 50);
    Api.Toast "Crop failed: Invalid crop region" "error"]).
Proof.
  destruct (failed_processing_is_retryable
    (Crop.session 100 100 100 100 None (Crop.mkCrop 10 10 50 50))
    (Upscale.mkState (Some "upload.png"%string) None 640 480 4
       true true true 4 true true false false true)
    (fun _ => Api.HttpError (Some "Invalid crop region"%string))
    (fun _ => Api.TransportError "Failed to fetch")
    "upload.png" "upload.png" "Invalid crop region" "Failed to fetch"
    eq_refl eq_refl eq_refl eq_refl eq_refl eq_refl eq_refl) as (C & _).
  exact C.
Defined.

(** C8 as stated fails: when [POST /crop] answers a non-2xx response whose
    [detail] is "Invalid crop region", the error text shown is
    "Crop failed: Invalid crop region", not the detail alone. *)
Lemma crop_failure_text_is_prefixed :
  snd (Crop.applyCrop
         (Crop.session 100 100 100 100 None (Crop.mkCrop 10 10 50 50))
         (fun _ => Api.HttpError (Some "Invalid crop region"%string))) =
    [Api.Toast "Cropping image..." "info";
     Api.PostCrop (Api.mkCropRequest "upload.png" 10 10 50 50);
     Api.Toast "Crop failed: Invalid crop region" "error"] /\
  "Crop failed: Invalid crop region"%string <> "Invalid crop region"%string.
Proof.
  split; [vm_compute; reflexivity | discriminate].
Qed.

(** * Further properties of the code *)

(** ** Numbers written into a field and read back *)

Section Printing.

Import ParseInt.

Lemma digits_printed (d : Decimal.uint) (a : Z) :
  digits 10 (NilEmpty.string_of_uint d) (Some a) = Some (horner d a).
Proof.
  revert a. induction d; intro a; cbn -[Z.mul Z.add];
    try reflexivity; apply IHd.
Qed.

Lemma digits_printed_first (d : Decimal.uint) :
  d <> Decimal.Nil ->
  digits 10 (NilEmpty.string_of_uint d) None = Some (horner d 0).
Proof.
  destruct d; intro H; try contradiction;
    cbn -[Z.mul Z.add horner];
    match goal with
    | |- context [digit 10 ?c] =>
        let v := eval vm_compute in (digit 10 c) in
        change (digit 10 c) with v
    end;
    cbv iota beta; rewrite digits_printed; reflexivity.
Qed.

Lemma horner_acc (d : Decimal.uint) (p : positive) :
  Z.pos (Pos.of_uint_acc d p) = horner d (Z.pos p).
Proof.
  revert p. induction d; intro p; cbn -[Z.mul Z.add Pos.mul Pos.add];
    try reflexivity; rewrite IHd; f_equal; lia.
Qed.

Lemma horner_of_uint (d : Decimal.uint) :
  Z.of_N (Pos.of_uint d) = horner d 0.
Proof.
  induction d; cbn -[Z.mul Z.add Pos.mul Pos.add]; try reflexivity;
    try (rewrite horner_acc; reflexivity).
  exact IHd.
Qed.

(** On a printed number, [parseInt] has no white space to skip and no
    [0x] to find. *)
Lemma parseInt_printed (d : Decimal.uint) :
  d <> Decimal.Nil ->
  parseInt (NilEmpty.string_of_uint d) =
    match digits 10 (NilEmpty.string_of_uint d) None with
    | Some n => Some (1 * n)%Z
    | None => None
    end /\
  parseInt (String "-" (NilEmpty.string_of_uint d)) =
    match digits 10 (NilEmpty.string_of_uint d) None with
    | Some n => Some (-1 * n)%Z
    | None => None
    end.
Proof.
  intro H. destruct d as [| l | l | l | l | l | l | l | l | l | l];
    try contradiction; try (split; reflexivity).
  destruct l; split; reflexivity.
Qed.

Lemma parseInt_showInt (n : Z) :
  parseInt (Upscale.showInt n) = Some n.
Proof.
  unfold Upscale.showInt.
  destruct n as [| p | p]; [reflexivity | |];
    pose proof (DecimalPos.Unsigned.to_uint_nonnil p) as NN;
    pose proof (DecimalPos.Unsigned.of_to p) as OT;
    pose proof (horner_of_uint (Pos.to_uint p)) as HO;
    rewrite OT in HO; cbn [Z.of_N] in HO;
    destruct (parseInt_printed (Pos.to_uint p) NN) as [P N];
    unfold Z.to_int, NilZero.string_of_int, NilZero.string_of_uint.
  - destruct (Pos.to_uint p) eqn:E; try contradiction;
      rewrite P, digits_printed_first by discriminate;
      rewrite <- HO; f_equal; lia.
  - destruct (Pos.to_uint p) eqn:E; try contradiction;
      rewrite N, digits_printed_first by discriminate;
      rewrite <- HO; f_equal; lia.
Qed.

End Printing.

(** A printed number read with a default: zero takes the default. *)
Lemma parseIntOr_showInt (n d : Z) :
  ParseInt.parseIntOr (Upscale.showInt n) d = if (n =? 0)%Z then d else n.
Proof.
  unfold ParseInt.parseIntOr. rewrite parseInt_showInt. reflexivity.
Qed.

(** X1.  The four fields [updateCropBox] fills in, read back by
    [handleManualInput]: with no aspect ratio in force and a box that
    satisfies the invariant and is at least half a source pixel wide and
    high, the box read back differs from the box shown by at most half a
    source pixel (1/2 divided by the scale) in each coordinate. *)
Theorem fields_read_back (st : Crop.State) :
  0 < Crop.scale st ->
  Crop.activeRatio st = None ->
  Crop.Inv (Crop.displayWidth st) (Crop.displayHeight st) (Crop.cropState st) ->
  1 # 2 <= Crop.width (Crop.cropState st) * Crop.scale st ->
  1 # 2 <= Crop.height (Crop.cropState st) * Crop.scale st ->
  let v := CropPage.updateCropBox st in
  let c := Crop.cropState st in
  let e := (1 # 2) / Crop.scale st in
  exists st',
    Crop.handleManualInput st (CropPage.cropX v) (CropPage.cropY v)
      (CropPage.cropW v) (CropPage.cropH v) = Some st' /\
    Crop.x c - e <= Crop.x (Crop.cropState st') <= Crop.x c + e /\
    Crop.y c - e <= Crop.y (Crop.cropState st') <= Crop.y c + e /\
    Crop.width c - e <= Crop.width (Crop.cropState st') <= Crop.width c + e /\
    Crop.height c - e <= Crop.height (Crop.cropState st')
      <= Crop.height c + e.
Proof.
  intros Hs Free (Ix & Iy & Iw & Ih & Mw & Mh) Pw Ph v c e.
  fold c in Ix, Iy, Iw, Ih, Mw, Mh, Pw, Ph.
  unfold Crop.handleManualInput.
  rewrite manualRect_defined by lra. cbn [Js.bind].
  replace (Crop.activeRatio (Crop.setCropState st _)) with
    (Crop.activeRatio st) by reflexivity.
  rewrite Free. eexists. split; [reflexivity |].
  cbn [Crop.cropState Crop.setCropState Crop.x Crop.y Crop.width Crop.height].
  unfold v, CropPage.updateCropBox.
  cbn [CropPage.cropX CropPage.cropY CropPage.cropW CropPage.cropH].
  fold c. rewrite !parseIntOr_showInt.
  replace (if (Js.round (Crop.x c * Crop.scale st) =? 0)%Z then 0%Z
           else Js.round (Crop.x c * Crop.scale st))
    with (Js.round (Crop.x c * Crop.scale st))
    by (destruct (Z.eqb_spec (Js.round (Crop.x c * Crop.scale st)) 0);
        congruence).
  replace (if (Js.round (Crop.y c * Crop.scale st) =? 0)%Z then 0%Z
           else Js.round (Crop.y c * Crop.scale st))
    with (Js.round (Crop.y c * Crop.scale st))
    by (destruct (Z.eqb_spec (Js.round (Crop.y c * Crop.scale st)) 0);
        congruence).
  pose proof (round_positive _ Pw) as Rw.
  pose proof (round_positive _ Ph) as Rh.
  replace (Js.round (Crop.width c * Crop.scale st) =? 0)%Z with false
    by (symmetry; apply Z.eqb_neq; lia).
  replace (Js.round (Crop.height c * Crop.scale st) =? 0)%Z with false
    by (symmetry; apply Z.eqb_neq; lia).
  destruct (round_then_divide (Crop.x c) (Crop.scale st) Hs) as [Lx Ux].
  destruct (round_then_divide (Crop.y c) (Crop.scale st) Hs) as [Ly Uy].
  destruct (round_then_divide (Crop.width c) (Crop.scale st) Hs) as [Lw Uw].
  destruct (round_then_divide (Crop.height c) (Crop.scale st) Hs) as [Lh Uh].
  fold e in Lx, Ux, Ly, Uy, Lw, Uw, Lh, Uh.
  assert (He : 0 < e) by (apply Qlt_shift_div_l; lra).
  set (vx := inject_Z (Js.round (Crop.x c * Crop.scale st)) / Crop.scale st)
    in *.
  set (vy := inject_Z (Js.round (Crop.y c * Crop.scale st)) / Crop.scale st)
    in *.
  set (vw := inject_Z (Js.round (Crop.width c * Crop.scale st))
             / Crop.scale st) in *.
  set (vh := inject_Z (Js.round (Crop.height c * Crop.scale st))
             / Crop.scale st) in *.
  clearbody vx vy vw vh e.
  unfold clamp. minmax_specs. repeat split; lra.
Qed.

Lemma fields_read_back_witness :
  exists st',
    Crop.handleManualInput
      (Crop.session 200 200 100 100 None (Crop.mkCrop 10 10 50 50))
      "20" "20" "100" "100" = Some st' /\
    Crop.x (Crop.cropState st') <= 10 + (1 # 2) / (200 / 100).
Proof.
  destruct (fields_read_back
    (Crop.session 200 200 100 100 None (Crop.mkCrop 10 10 50 50)))
    as (st' & E & (_ & X) & _).
  - reflexivity.
  - reflexivity.
  - unfold Crop.Inv. cbn. repeat split; apply Qle_bool_iff; reflexivity.
  - apply Qle_bool_iff. reflexivity.
  - apply Qle_bool_iff. reflexivity.
  - exists st'. split; [exact E | exact X].
Defined.

(** ** What the page shows *)

(** X2.  Of the lengths [updateCropBox] gives the four shades, those it
    guards with [Math.max(0, .)], the heights of the top and bottom
    shades and the widths of the left and right ones, are never negative,
    whatever the state.  The side shades take the box's top and height
    unguarded, so their height is negative when the box's is, as after
    the manual input 10, 670, 200, 100 on an 800 by 600 display.  When the
    box lies within the display, the shades and the box tile it: left
    shade, box and right shade add up to the display width, top shade,
    box and bottom shade to the display height, and the side shades start
    where the top shade ends. *)
Theorem shades_tile_display (st : Crop.State) :
  let c := Crop.cropState st in
  let v := CropPage.updateCropBox st in
  (0 <= CropPage.shadeTopHeight v /\ 0 <= CropPage.shadeBottomHeight v /\
   0 <= CropPage.shadeLeftWidth v /\ 0 <= CropPage.shadeRightWidth v) /\
  (CropPage.shadeLeftTop v = Crop.y c /\
   CropPage.shadeRightTop v = Crop.y c /\
   CropPage.shadeLeftHeight v = Crop.height c /\
   CropPage.shadeRightHeight v = Crop.height c /\
   CropPage.boxHeight v = Crop.height c) /\
  (Crop.height c < 0 ->
   CropPage.shadeLeftHeight v < 0 /\ CropPage.shadeRightHeight v < 0) /\
  (exists st',
     Crop.handleManualInput
       (Crop.session 800 600 800 600 None (Crop.mkCrop 0 0 640 480))
       "10" "670" "200" "100" = Some st' /\
     CropPage.shadeLeftHeight (CropPage.updateCropBox st') < 0 /\
     CropPage.shadeRightHeight (CropPage.updateCropBox st') < 0) /\
  (0 <= Crop.x c -> 0 <= Crop.y c ->
   Crop.x c + Crop.width c <= Crop.displayWidth st ->
   Crop.y c + Crop.height c <= Crop.displayHeight st ->
   CropPage.shadeLeftWidth v + CropPage.boxWidth v
     + CropPage.shadeRightWidth v == Crop.displayWidth st /\
   CropPage.shadeTopHeight v + CropPage.boxHeight v
     + CropPage.shadeBottomHeight v == Crop.displayHeight st /\
   CropPage.shadeLeftTop v == CropPage.shadeTopHeight v /\
   CropPage.shadeRightTop v == CropPage.shadeTopHeight v).
Proof.
  intros c v. unfold v, CropPage.updateCropBox. fold c.
  cbn [CropPage.shadeTopHeight CropPage.shadeBottomHeight
       CropPage.shadeLeftWidth CropPage.shadeRightWidth CropPage.boxWidth
       CropPage.boxHeight CropPage.shadeLeftTop CropPage.shadeRightTop
       CropPage.shadeLeftHeight CropPage.shadeRightHeight].
  split; [| split; [| split; [| split]]].
  - split; [| split; [| split]]; apply Q.le_max_l.
  - split; [| split; [| split; [| split]]]; reflexivity.
  - intro H. split; exact H.
  - eexists. split; [vm_compute; reflexivity |].
    split; apply ltb_true; reflexivity.
  - intros Hx Hy Hw Hh. minmax_specs.
    split; [| split; [| split]]; lra.
Qed.

Lemma shades_tile_display_witness :
  CropPage.shadeLeftWidth
    (CropPage.updateCropBox
       (Crop.session 200 200 100 100 None (Crop.mkCrop 10 20 50 40)))
  + 50
  + CropPage.shadeRightWidth
      (CropPage.updateCropBox
         (Crop.session 200 200 100 100 None (Crop.mkCrop 10 20 50 40)))
  == 100.
Proof.
  destruct (shades_tile_display
    (Crop.session 200 200 100 100 None (Crop.mkCrop 10 20 50 40)))
    as (_ & _ & _ & _ & T).
  destruct T as (W & _).
  - apply Qle_bool_iff. reflexivity.
  - apply Qle_bool_iff. reflexivity.
  - apply Qle_bool_iff. reflexivity.
  - apply Qle_bool_iff. reflexivity.
  - exact W.
Defined.

(** ** The rectangle sent to the server *)

(** X3.  Whatever the box and the scale, a request [applyCrop] issues for
    an image of at least one pixel each way names a rectangle of that
    image: 0 <= x <= imageWidth - 1, 0 <= y <= imageHeight - 1, and width
    and height are at least 1 and end within the image. *)
Theorem crop_request_within_image
    (st : Crop.State)
    (server : Api.CropRequest -> Api.Outcome Api.CropResult)
    (r : Api.CropRequest) :
  (1 <= Crop.imageWidth st)%Z -> (1 <= Crop.imageHeight st)%Z ->
  In (Api.PostCrop r) (snd (Crop.applyCrop st server)) ->
  (0 <= Api.cropX r <= Crop.imageWidth st - 1)%Z /\
  (0 <= Api.cropY r <= Crop.imageHeight st - 1)%Z /\
  (1 <= Api.cropWidth r)%Z /\ (1 <= Api.cropHeight r)%Z /\
  (Api.cropX r + Api.cropWidth r <= Crop.imageWidth st)%Z /\
  (Api.cropY r + Api.cropHeight r <= Crop.imageHeight st)%Z.
Proof.
  intros Hw Hh I.
  destruct (Crop.uploadedFilename st) as [name |] eqn:U.
  - rewrite (applyCrop_requests st server name r U I).
    unfold Crop.cropRequest.
    cbn [Api.cropX Api.cropY Api.cropWidth Api.cropHeight]. lia.
  - unfold Crop.applyCrop in I. rewrite U in I. cbn in I.
    destruct I as [I | []]. discriminate I.
Qed.

Lemma crop_request_within_image_witness :
  (Api.cropX (Api.mkCropRequest "upload.png" 199 20 1 80)
   + Api.cropWidth (Api.mkCropRequest "upload.png" 199 20 1 80) <= 200)%Z.
Proof.
  destruct (crop_request_within_image
    (Crop.session 200 200 100 100 None (Crop.mkCrop 150 10 50 40))
    (fun _ => Api.TransportError "Failed to fetch")
    (Api.mkCropRequest "upload.png" 199 20 1 80))
    as (_ & _ & _ & _ & W & _).
  - cbn. lia.
  - cbn. lia.
  - right. left. reflexivity.
  - exact W.
Defined.

(** X4.  What the preview shows is what apply sends: whenever
    [updatePreview] draws, on an image of at least one pixel each way, the
    rectangle it draws is the rectangle of the request [applyCrop] would
    issue from the same state. *)
Theorem preview_is_what_apply_sends
    (st : Crop.State) (ready : bool) (p : CropPage.SourceRect)
    (name : string) :
  (1 <= Crop.imageWidth st)%Z -> (1 <= Crop.imageHeight st)%Z ->
  CropPage.updatePreview st ready = Some p ->
  Crop.cropRequest st name =
    Api.mkCropRequest name (CropPage.sx p) (CropPage.sy p)
      (CropPage.sw p) (CropPage.sh p).
Proof.
  intros Hw Hh. unfold CropPage.updatePreview, Crop.cropRequest.
  destruct ready; cbn [negb]; [| discriminate].
  set (rx := Js.round (Crop.x (Crop.cropState st) * Crop.scale st)).
  set (ry := Js.round (Crop.y (Crop.cropState st) * Crop.scale st)).
  set (rw := Js.round (Crop.width (Crop.cropState st) * Crop.scale st)).
  set (rh := Js.round (Crop.height (Crop.cropState st) * Crop.scale st)).
  clearbody rx ry rw rh.
  destruct ((Z.min rw (Crop.imageWidth st
                       - Z.max 0 (Z.min rx (Crop.imageWidth st - 1))) <=? 0)
            || (Z.min rh (Crop.imageHeight st
                          - Z.max 0 (Z.min ry (Crop.imageHeight st - 1)))
                <=? 0))%Z eqn:D; [discriminate |].
  apply orb_false_iff in D. destruct D as [Dw Dh].
  apply Z.leb_gt in Dw, Dh.
  intros [= <-]. cbn [CropPage.sx CropPage.sy CropPage.sw CropPage.sh].
  f_equal; lia.
Qed.

Lemma preview_is_what_apply_sends_witness :
  Crop.cropRequest
    (Crop.session 200 200 100 100 None (Crop.mkCrop 10 10 50 40))
    "upload.png" = Api.mkCropRequest "upload.png" 20 20 100 80.
Proof.
  apply (preview_is_what_apply_sends
    (Crop.session 200 200 100 100 None (Crop.mkCrop 10 10 50 40)) true
    (CropPage.mkSourceRect 20 20 100 80) "upload.png").
  - cbn. lia.
  - cbn. lia.
  - reflexivity.
Defined.

(** ** The initial box *)

Section Initial.

Import Crop.

Lemma initRect_free (ratio : option Q) (dw dh : Q) :
  lockedRatio ratio = None -> 0 <= dw -> 0 <= dh ->
  exists c, initRect ratio dw dh = Some c /\
    width c == dw * (4 # 5) /\ height c == dh * (4 # 5) /\
    x c == dw * (1 # 10) /\ y c == dh * (1 # 10).
Proof.
  intros L Hw Hh. unfold initRect, lockedRatio in *.
  assert (E : forall A (k : Q * Q -> option A),
            Js.bind
              match ratio with
              | Some r =>
                  if Js.truthy r then
                    let? q := Js.div dw dh in
                    if Js.gtb q r
                    then let boxHeight := dh * (4 # 5) in
                         Some (boxHeight * r, boxHeight)
                    else let boxWidth := dw * (4 # 5) in
                         let? boxHeight := Js.div boxWidth r in
                         Some (boxWidth, boxHeight)
                  else Some (dw * (4 # 5), dh * (4 # 5))
              | None => Some (dw * (4 # 5), dh * (4 # 5))
              end k = k (dw * (4 # 5), dh * (4 # 5))).
  { intros A k. destruct ratio as [r |]; [| reflexivity].
    destruct (Js.truthy r); [discriminate | reflexivity]. }
  rewrite E. cbn [fst snd]. eexists. split; [reflexivity |].
  cbn [x y width height]. minmax_specs.
  assert (Fw : (dw - m) / 2 == (dw - m) * (1 # 2)) by field.
  assert (Fh : (dh - m0) / 2 == (dh - m0) * (1 # 2)) by field.
  repeat split; lra.
Qed.

Lemma initRect_locked (ratio : option Q) (r dw dh : Q) :
  lockedRatio ratio = Some r -> 0 < r -> 0 < dw -> 0 < dh ->
  exists c, initRect ratio dw dh = Some c /\
    width c / height c == r /\
    (if Js.gtb (dw / dh) r
     then height c == dh * (4 # 5) else width c == dw * (4 # 5)) /\
    width c <= dw * (4 # 5) /\ height c <= dh * (4 # 5) /\
    0 < width c /\ 0 < height c /\
    x c == (dw - width c) / 2 /\ y c == (dh - height c) / 2.
Proof.
  intros L Hr Hw Hh. unfold lockedRatio in L.
  destruct ratio as [r0 |]; [| discriminate].
  destruct (Js.truthy r0) eqn:T; [| discriminate].
  injection L as ->. unfold initRect. rewrite T.
  rewrite (div_defined dw dh) by lra. cbn [Js.bind].
  destruct (Js.gtb (dw / dh) r) eqn:G;
    [apply gtb_true in G | apply gtb_false in G].
  - (* the display is wider than the ratio *)
    cbn [Js.bind fst snd]. eexists. split; [reflexivity |].
    cbn [x y width height].
    apply ratio_above in G; [| lra].
    assert (P : 0 < dh * (4 # 5) * r)
      by (apply Qmult_lt_0_compat; lra).
    minmax_specs.
    assert (Em : m == dh * (4 # 5) * r) by lra.
    assert (Em0 : m0 == dh * (4 # 5)) by lra.
    split; [rewrite Em, Em0; field; lra |].
    repeat split; try lra; reflexivity.
  - (* the display is at most as wide as the ratio *)
    rewrite (div_defined (dw * (4 # 5)) r) by lra.
    cbn [Js.bind fst snd]. eexists. split; [reflexivity |].
    cbn [x y width height].
    apply ratio_below in G; [| lra | lra].
    assert (F : dw * (4 # 5) / r == (dw / r) * (4 # 5)) by (field; lra).
    assert (Pq : 0 < dw / r) by (apply Qlt_shift_div_l; lra).
    set (q := dw / r) in *. set (u := dw * (4 # 5) / r) in *.
    assert (Eu : dw * (4 # 5) == u * r) by (unfold u; field; lra).
    clearbody q u.
    minmax_specs.
    assert (Em : m == dw * (4 # 5)) by lra.
    assert (Em0 : m0 == u) by lra.
    split; [rewrite Em, Em0, Eu; field; lra |].
    repeat split; try lra; reflexivity.
Qed.

End Initial.

(** X5.  On a display of positive width and height [initCropBox] centres
    its box and keeps it within the display.  With no ratio in force the
    box is 80% of the display each way; with a positive ratio r in force
    it has width / height = r and fills 80% of the display along the axis
    the ratio binds, no more than 80% along the other. *)
Theorem initial_box_centred (st : Crop.State) (rw rh : Q) :
  0 < rw -> 0 < rh ->
  (forall r, Crop.activeRatio st = Some r -> 0 < r) ->
  exists st',
    Crop.initCropBox st rw rh = Some st' /\
    let c := Crop.cropState st' in
    2 * Crop.x c + Crop.width c == rw /\
    2 * Crop.y c + Crop.height c == rh /\
    0 < Crop.x c /\ 0 < Crop.y c /\
    Crop.x c + Crop.width c < rw /\ Crop.y c + Crop.height c < rh /\
    Crop.width c <= rw * (4 # 5) /\ Crop.height c <= rh * (4 # 5) /\
    (Crop.width c == rw * (4 # 5) \/ Crop.height c == rh * (4 # 5)) /\
    (Crop.activeRatio st = None ->
     Crop.width c == rw * (4 # 5) /\ Crop.height c == rh * (4 # 5)) /\
    (forall r, Crop.activeRatio st = Some r ->
               Crop.width c / Crop.height c == r).
Proof.
  intros Hw Hh Pos. unfold Crop.initCropBox.
  cbn [Crop.aspectRatio Crop.displayWidth Crop.displayHeight
       Crop.recalculateScale Crop.setDisplay].
  unfold Crop.activeRatio in *.
  destruct (Crop.lockedRatio (Crop.aspectRatio st)) as [r |] eqn:L.
  - destruct (initRect_locked (Crop.aspectRatio st) r rw rh L
                (Pos r eq_refl) Hw Hh)
      as (c & E & R & A & Bw & Bh & Pw & Ph & X & Y).
    rewrite E. cbn [Js.bind]. eexists. split; [reflexivity |].
    cbn [Crop.cropState Crop.setCropState]. cbv zeta.
    assert (X2 : 2 * Crop.x c == rw - Crop.width c)
      by (rewrite X; field).
    assert (Y2 : 2 * Crop.y c == rh - Crop.height c)
      by (rewrite Y; field).
    do 8 (split; [lra |]).
    split; [destruct (Js.gtb (rw / rh) r); [right | left]; exact A |].
    split; [discriminate |].
    intros r' [= <-]. exact R.
  - destruct (initRect_free (Crop.aspectRatio st) rw rh L)
      as (c & E & W & H & X & Y); try lra.
    rewrite E. cbn [Js.bind]. eexists. split; [reflexivity |].
    cbn [Crop.cropState Crop.setCropState]. cbv zeta.
    do 8 (split; [lra |]).
    split; [left; exact W |].
    split; [intros _; split; assumption |].
    discriminate.
Qed.

Lemma initial_box_centred_witness :
  exists st',
    Crop.initCropBox
      (Crop.session 1600 1200 0 0 (Some (16 # 9)) (Crop.mkCrop 0 0 0 0))
      800 600 = Some st' /\
    Crop.width (Crop.cropState st') / Crop.height (Crop.cropState st')
      == 16 # 9.
Proof.
  destruct (initial_box_centred
    (Crop.session 1600 1200 0 0 (Some (16 # 9)) (Crop.mkCrop 0 0 0 0))
    800 600) as (st' & E & _ & _ & _ & _ & _ & _ & _ & _ & _ & _ & R).
  - reflexivity.
  - reflexivity.
  - intros r [= <-]. reflexivity.
  - exists st'. split; [exact E |]. apply R. reflexivity.
Defined.

(** ** Gestures *)

Section Gestures.

Import Crop.

Lemma idle_move (st : State) (cx cy : Q) :
  isDragging st = false -> isResizing st = false ->
  handleMouseMove st cx cy = Some st.
Proof.
  intros D R. unfold handleMouseMove. rewrite D, R. reflexivity.
Qed.

(** A resize step is always defined once a handle is held. *)
Lemma resizeRect_total (ratio : option Q) (dw dh : Q) (h : Handle)
    (s : CropState) (dx dy : Q) :
  exists c, resizeRect ratio dw dh h s dx dy = Some c.
Proof.
  unfold resizeRect, resizeShaped.
  pose proof (enforceMinSize_spec h s dx dy) as M. cbv zeta in M.
  destruct M as (Nw & Nh & _).
  destruct (enforceAspect_total ratio h s _ Nw Nh) as (n' & E).
  rewrite E. cbn [Js.bind]. eexists. reflexivity.
Qed.

(** What holds of the state all along a resize that started at
    [(cx, cy)] on the handle [h] of the box [snap]. *)
Lemma resize_move (h : Handle) (snap : CropState) (cx cy : Q)
    (st : State) (px py : Q) :
  isDragging st = false -> isResizing st = true ->
  activeHandle st = Some h -> startCrop st = snap ->
  startX st = cx -> startY st = cy ->
  exists c,
    resizeRect (aspectRatio st) (displayWidth st) (displayHeight st)
      h snap (px - cx) (py - cy) = Some c /\
    handleMouseMove st px py = Some (setCropState st c).
Proof.
  intros D R H S X Y.
  destruct (resizeRect_total (aspectRatio st) (displayWidth st)
              (displayHeight st) h snap (px - cx) (py - cy)) as (c & E).
  exists c. split; [exact E |].
  unfold handleMouseMove, resizeCropBox.
  rewrite D, R, H, S, X, Y. cbn [negb andb Js.bind]. rewrite E. reflexivity.
Qed.

End Gestures.

(** X6.  Once the pointer is released the box no longer follows it: after
    [handleMouseUp], any sequence of pointer moves leaves the state as it
    is; so does a touch move whatever its touches. *)
Theorem released_box_stays (st : Crop.State) (ps touches : list (Q * Q)) :
  Crop.moves (Crop.handleMouseUp st) ps = Some (Crop.handleMouseUp st) /\
  CropPage.handleTouchMove (CropPage.handleTouchEnd st) touches
    = Some (CropPage.handleTouchEnd st).
Proof.
  split.
  - induction ps as [| [px py] ps IH]; [reflexivity |].
    cbn [Crop.moves]. rewrite idle_move by reflexivity.
    cbn [Js.bind]. exact IH.
  - reflexivity.
Qed.

(** X7.  A resize does not accumulate: after a pointer-down on a handle
    (no drag being under way) and any sequence of pointer moves, the box
    is the one a single move to the last pointer position gives, computed
    from the snapshot taken at pointer-down; every move is defined. *)
Theorem resize_gesture_from_snapshot
    (st0 : Crop.State) (rw rh cx cy : Q) (h : Crop.Handle)
    (ps : list (Q * Q)) (px py : Q) :
  Crop.isDragging st0 = false ->
  let st := Crop.handleMouseDown st0 rw rh (Crop.OnHandle h) cx cy in
  exists c,
    Crop.resizeRect (Crop.aspectRatio st0) rw rh h (Crop.cropState st0)
      (px - cx) (py - cy) = Some c /\
    Crop.moves st (ps ++ [(px, py)]) = Some (Crop.setCropState st c) /\
    Crop.moves st [(px, py)] = Some (Crop.setCropState st c).
Proof.
  intros D st.
  assert (G : forall s : Crop.State,
            (forall c, Crop.setCropState s c = Crop.setCropState st c) ->
            exists c',
              Crop.resizeRect (Crop.aspectRatio st0) rw rh h
                (Crop.cropState st0) (px - cx) (py - cy) = Some c' /\
              Crop.moves s (ps ++ [(px, py)])
                = Some (Crop.setCropState st c')).
  { induction ps as [| [qx qy] ps IH]; intros s A;
      pose proof (f_equal Crop.isDragging (A (Crop.cropState s))) as Ds;
      pose proof (f_equal Crop.isResizing (A (Crop.cropState s))) as Rs;
      pose proof (f_equal Crop.activeHandle (A (Crop.cropState s))) as Hs;
      pose proof (f_equal Crop.startCrop (A (Crop.cropState s))) as Ss;
      pose proof (f_equal Crop.startX (A (Crop.cropState s))) as Xs;
      pose proof (f_equal Crop.startY (A (Crop.cropState s))) as Ys;
      pose proof (f_equal Crop.aspectRatio (A (Crop.cropState s))) as As;
      pose proof (f_equal Crop.displayWidth (A (Crop.cropState s))) as Ws;
      pose proof (f_equal Crop.displayHeight (A (Crop.cropState s))) as Hh;
      cbn in Ds, Rs, Hs, Ss, Xs, Ys, As, Ws, Hh; rewrite D in Ds.
    - destruct (resize_move h (Crop.cropState st0) cx cy s px py
                  Ds Rs Hs Ss Xs Ys) as (c' & E & M).
      rewrite As, Ws, Hh in E. exists c'. split; [exact E |].
      cbn [Crop.moves app]. rewrite M. cbn [Js.bind]. rewrite A.
      reflexivity.
    - destruct (resize_move h (Crop.cropState st0) cx cy s qx qy
                  Ds Rs Hs Ss Xs Ys) as (c1 & _ & M).
      cbn [Crop.moves app]. rewrite M. cbn [Js.bind].
      apply (IH (Crop.setCropState s c1)). intro c. exact (A c). }
  destruct (G st (fun c => eq_refl)) as (c & E & M).
  exists c. split; [exact E |]. split; [exact M |].
  destruct (resize_move h (Crop.cropState st0) cx cy st px py
              D eq_refl eq_refl eq_refl eq_refl eq_refl) as (c' & E' & M').
  cbn [Crop.moves]. rewrite M'. cbn [Js.bind].
  change (Crop.aspectRatio st) with (Crop.aspectRatio st0) in E'.
  change (Crop.displayWidth st) with rw in E'.
  change (Crop.displayHeight st) with rh in E'.
  rewrite E in E'. injection E' as <-. reflexivity.
Qed.

Lemma resize_gesture_from_snapshot_witness :
  exists c,
    Crop.moves
      (Crop.handleMouseDown
         (Crop.session 200 200 100 100 None (Crop.mkCrop 10 10 50 50))
         100 100 (Crop.OnHandle Crop.br) 60 60)
      ([(90, 90); (30, 20)] ++ [(70, 65)])
    = Some (Crop.setCropState
              (Crop.handleMouseDown
                 (Crop.session 200 200 100 100 None (Crop.mkCrop 10 10 50 50))
                 100 100 (Crop.OnHandle Crop.br) 60 60) c) /\
    Crop.sameRect c (Crop.mkCrop 10 10 60 55).
Proof.
  destruct (resize_gesture_from_snapshot
    (Crop.session 200 200 100 100 None (Crop.mkCrop 10 10 50 50))
    100 100 60 60 Crop.br [(90, 90); (30, 20)] 70 65 eq_refl)
    as (c & E & M & _).
  exists c. split; [exact M |].
  vm_compute in E. injection E as <-.
  unfold Crop.sameRect. cbn. repeat split; reflexivity.
Defined.

(** After the raw delta and the minimum-size step, an edge-midpoint
    handle has left the other axis of a large enough box as it was. *)
Lemma edge_handle_axis (h : Crop.Handle) (s : Crop.CropState) (dx dy : Q) :
  30 <= Crop.width s -> 30 <= Crop.height s ->
  let n := Crop.enforceMinSize h s (Crop.applyDelta h s dx dy) in
  (h = Crop.tm \/ h = Crop.bm ->
   Crop.x n == Crop.x s /\ Crop.width n == Crop.width s) /\
  (h = Crop.ml \/ h = Crop.mr ->
   Crop.y n == Crop.y s /\ Crop.height n == Crop.height s).
Proof.
  intros Mw Mh n. unfold n, Crop.enforceMinSize, Crop.applyDelta, Crop.minSize.
  split; intros [-> | ->]; handle_tests; stage_cases; split; lra.
Qed.

(** X8.  With no aspect ratio in force, or from an edge-midpoint handle,
    resizing a valid box never moves the edges the handle does not touch:
    the right edge stays for a left handle and the left edge otherwise, the
    bottom edge stays for a top handle and the top edge otherwise; and the
    handles [tm] and [bm] keep x and width, [ml] and [mr] keep y and
    height. *)
Theorem free_resize_keeps_other_edges
    (st : Crop.State) (h : Crop.Handle) (dx dy : Q) :
  Crop.activeHandle st = Some h ->
  Crop.Inv (Crop.displayWidth st) (Crop.displayHeight st) (Crop.startCrop st) ->
  Crop.activeRatio st = None \/ Crop.isCorner h = false ->
  exists st',
    Crop.resizeCropBox st dx dy = Some st' /\
    let s := Crop.startCrop st in
    let c := Crop.cropState st' in
    (if Crop.includesL h
     then Crop.x c + Crop.width c == Crop.x s + Crop.width s
     else Crop.x c == Crop.x s) /\
    (if Crop.includesT h
     then Crop.y c + Crop.height c == Crop.y s + Crop.height s
     else Crop.y c == Crop.y s) /\
    (h = Crop.tm \/ h = Crop.bm ->
     Crop.x c == Crop.x s /\ Crop.width c == Crop.width s) /\
    (h = Crop.ml \/ h = Crop.mr ->
     Crop.y c == Crop.y s /\ Crop.height c == Crop.height s).
Proof.
  intros Hh (Ix & Iy & Iw & Ih & Mw & Mh) Free.
  unfold Crop.resizeCropBox, Crop.resizeRect, Crop.resizeShaped.
  rewrite Hh. cbn [Js.bind].
  rewrite (enforceAspect_free _ _ _ _ Free). cbn [Js.bind].
  eexists. split; [reflexivity |].
  cbn [Crop.cropState Crop.setCropState]. cbv zeta.
  set (s := Crop.startCrop st) in *.
  set (dw := Crop.displayWidth st) in *.
  set (dh := Crop.displayHeight st) in *. clearbody s dw dh. clear Free Hh.
  pose proof (enforceMinSize_spec h s dx dy) as M. cbv zeta in M.
  pose proof (edge_handle_axis h s dx dy Mw Mh) as [Ev Eh].
  set (n := Crop.enforceMinSize h s (Crop.applyDelta h s dx dy)) in *.
  clearbody n. destruct M as (Nw & Nh & Nx & Ny).
  unfold Crop.finalMinSize, Crop.boundsCheck, Crop.minSize.
  destruct (Crop.includesL h), (Crop.includesT h);
    stage_cases; minmax_specs;
    (split; [lra |]); (split; [lra |]);
    (split; intro K; [destruct (Ev K) | destruct (Eh K)]; split; lra).
Qed.

Lemma free_resize_keeps_other_edges_witness :
  exists st',
    Crop.resizeCropBox
      (Crop.handleMouseDown
         (Crop.session 200 200 100 100 (Some (3 # 4)) (Crop.mkCrop 10 10 60 80))
         100 100 (Crop.OnHandle Crop.ml) 10 50)
      (-30) 7 = Some st' /\
    Crop.x (Crop.cropState st') + Crop.width (Crop.cropState st') == 70 /\
    Crop.height (Crop.cropState st') == 80.
Proof.
  destruct (free_resize_keeps_other_edges
    (Crop.handleMouseDown
       (Crop.session 200 200 100 100 (Some (3 # 4)) (Crop.mkCrop 10 10 60 80))
       100 100 (Crop.OnHandle Crop.ml) 10 50)
    Crop.ml (-30) 7 eq_refl) as (st' & E & L & _ & _ & M).
  - unfold Crop.Inv. cbn. repeat split; apply Qle_bool_iff; reflexivity.
  - right. reflexivity.
  - exists st'. split; [exact E |]. split.
    + etransitivity; [exact L | reflexivity].
    + destruct M as [_ M]; [left; reflexivity |].
      etransitivity; [exact M | reflexivity].
Defined.

(** ** Choosing an aspect ratio *)

(** X9.  Choosing the free ratio leaves the box as it is.  Choosing a
    ratio r other than zero, on a box of positive width and non-zero
    height, leaves a box with width / height = r: one side is kept and
    the other derived from it, and no minimum size is applied
    afterwards. *)
Theorem aspect_choice_exact_ratio (st : Crop.State) (r : Q) :
  ~ r == 0 ->
  0 < Crop.width (Crop.cropState st) ->
  ~ Crop.height (Crop.cropState st) == 0 ->
  Crop.selectAspect st None = Some (Crop.setAspectRatio st None) /\
  exists st',
    Crop.selectAspect st (Some r) = Some st' /\
    Crop.aspectRatio st' = Some r /\
    Crop.width (Crop.cropState st') / Crop.height (Crop.cropState st') == r /\
    (Crop.width (Crop.cropState st') = Crop.width (Crop.cropState st) \/
     Crop.height (Crop.cropState st') = Crop.height (Crop.cropState st)).
Proof.
  intros Hr Hw Hh. split.
  - unfold Crop.selectAspect, Crop.constrainCropBox.
    destruct (Js.gtb _ 0); reflexivity.
  - unfold Crop.selectAspect.
    cbn [Crop.cropState Crop.setAspectRatio].
    replace (Js.gtb (Crop.width (Crop.cropState st)) 0) with true
      by (symmetry; apply gtb_true; exact Hw).
    unfold Crop.constrainCropBox.
    cbn [Crop.aspectRatio Crop.displayWidth Crop.displayHeight Crop.cropState
         Crop.setAspectRatio].
    assert (L : Crop.lockedRatio (Some r) = Some r).
    { unfold Crop.lockedRatio.
      replace (Js.truthy r) with true; [reflexivity |].
      symmetry. apply truthy_true. exact Hr. }
    destruct (constrainRect_locked (Some r) r (Crop.displayWidth st)
                (Crop.displayHeight st) (Crop.cropState st) L Hh)
      as (c' & E & S & _).
    rewrite E. cbn [Js.bind]. eexists. split; [reflexivity |].
    cbn [Crop.cropState Crop.setCropState Crop.aspectRatio].
    split; [reflexivity |].
    destruct (Js.gtb _ r); destruct S as [Sw Sh]; rewrite Sw, Sh.
    + split; [field; exact Hh | right; reflexivity].
    + split; [field; split; [exact Hr | lra] | left; reflexivity].
Qed.

Lemma aspect_choice_exact_ratio_witness :
  exists st',
    Crop.selectAspect
      (Crop.session 200 200 100 100 None (Crop.mkCrop 35 35 30 30))
      (Some (3 # 4)) = Some st' /\
    Crop.width (Crop.cropState st') / Crop.height (Crop.cropState st')
      == 3 # 4.
Proof.
  destruct (aspect_choice_exact_ratio
    (Crop.session 200 200 100 100 None (Crop.mkCrop 35 35 30 30)) (3 # 4))
    as (_ & st' & E & _ & R & _).
  - intro H. vm_compute in H. discriminate H.
  - reflexivity.
  - intro H. vm_compute in H. discriminate H.
  - exists st'. split; [exact E | exact R].
Defined.

(** ** States the crop tool can reach *)

(** Take apart a hypothesis [... = Some r] made of binds and tests. *)
Ltac some_inv H :=
  repeat match type of H with
  | Js.bind ?m _ = Some _ =>
      let E := fresh "E" in
      destruct m eqn:E; cbn [Js.bind] in H; [| discriminate H]
  | (if ?b then _ else _) = Some _ => destruct b eqn:?
  | match ?o with Some _ => _ | None => _ end = Some _ =>
      let E := fresh "E" in destruct o eqn:E
  | match ?l with nil => _ | cons _ _ => _ end = Some _ =>
      destruct l as [| [? ?] [| ? ?]]
  end.

Section Reach.

Import Crop.
Import CropPage.

Lemma Sound_frame (st st' : State) :
  frame st' = frame st -> Sound st -> Sound st'.
Proof.
  unfold frame, Sound. intros [= -> -> ->]. tauto.
Qed.

Lemma recalculateScale_positive (st : State) (rw rh : Q) :
  0 < scale (recalculateScale st rw rh).
Proof.
  unfold recalculateScale. cbn [scale setDisplay].
  destruct (Js.gtb rw 0) eqn:W; [| cbn; lra].
  destruct (Js.gtb (inject_Z (imageWidth st)) 0) eqn:I; [| cbn; lra].
  cbn [andb]. apply gtb_true in W, I. apply Qlt_shift_div_l; lra.
Qed.

Lemma constrainCropBox_frame (st st' : State) :
  constrainCropBox st = Some st' -> frame st' = frame st.
Proof.
  unfold constrainCropBox. intro H. some_inv H.
  injection H as <-. reflexivity.
Qed.

Lemma handleMouseMove_frame (st st' : State) (cx cy : Q) :
  handleMouseMove st cx cy = Some st' -> frame st' = frame st.
Proof.
  unfold handleMouseMove, resizeCropBox. intro H. some_inv H;
    try (injection H as <-; reflexivity); discriminate H.
Qed.

Lemma handleMouseDown_sound (st : State) (rw rh : Q) (t : Target)
    (cx cy : Q) :
  Sound st -> Sound (handleMouseDown st rw rh t cx cy).
Proof.
  intros [_ R]. unfold Sound, handleMouseDown. destruct t as [h |].
  - split; [apply recalculateScale_positive |].
    intros _. exists h. reflexivity.
  - split; [apply recalculateScale_positive |]. exact R.
Qed.

Lemma step_sound (st st' : State) : step st st' -> Sound st -> Sound st'.
Proof.
  intros [s rw rh t cx cy | s cx cy s' H | s | s fX fY fW fH s' H
         | s ratio s' H | s rw rh s' H | s rw rh] S.
  - apply handleMouseDown_sound. exact S.
  - apply (Sound_frame s); [| exact S].
    apply (handleMouseMove_frame _ _ _ _ H).
  - destruct S as [P _]. split; [exact P | discriminate].
  - apply (Sound_frame s); [| exact S].
    unfold handleManualInput in H. some_inv H.
    + rewrite (constrainCropBox_frame _ _ H). reflexivity.
    + injection H as <-. reflexivity.
  - apply (Sound_frame s); [| exact S].
    unfold selectAspect in H. some_inv H.
    + rewrite (constrainCropBox_frame _ _ H). reflexivity.
    + injection H as <-. reflexivity.
  - unfold initCropBox in H. some_inv H. injection H as <-.
    destruct S as [_ R]. split; [apply recalculateScale_positive | exact R].
  - destruct S as [_ R]. split; [apply recalculateScale_positive | exact R].
Qed.

Lemma event_sound (st st' : State) :
  CropPage.event st st' -> Sound st -> Sound st'.
Proof.
  intros [s s' H | s rw rh t touches | s touches s' H | s
         | s file dims upload | s server | s] S.
  - exact (step_sound _ _ H S).
  - unfold CropPage.handleTouchStart.
    destruct touches as [| [cx cy] [| ? ?]]; try exact S.
    apply handleMouseDown_sound. exact S.
  - apply (Sound_frame s); [| exact S].
    unfold CropPage.handleTouchMove, resizeCropBox in H. some_inv H;
      try (injection H as <-; reflexivity); discriminate H.
  - destruct S as [P _]. split; [exact P | discriminate].
  - apply (Sound_frame s); [| exact S].
    unfold CropPage.handleFileSelect.
    destruct (Utils.validateFile file) as [[|] toasts]; cbn [negb];
      [| reflexivity].
    destruct dims as [[w h] |]; [| reflexivity].
    destruct (Api.settle "Upload failed" upload); reflexivity.
  - apply (Sound_frame s); [| exact S].
    unfold applyCrop.
    destruct (uploadedFilename s) as [name |]; [| reflexivity].
    destruct (Api.noName (Some name)); [reflexivity |].
    destruct (Api.settle "Crop failed" _); reflexivity.
  - destruct S as [_ R]. split; [cbn; lra | exact R].
Qed.

Lemma reachable_sound (st : State) : CropPage.reachable st -> Sound st.
Proof.
  induction 1 as [| s s' E _ IH].
  - split; [cbn; lra | discriminate].
  - exact (event_sound _ _ E IH).
Qed.

End Reach.

(** X10.  In every state the crop tool can reach from the loaded page
    (by gestures, touches, manual input, aspect choices, image loads,
    window resizes, uploads, applies and resets) the scale is positive,
    and so every pointer move is handled, with a handle to resize by
    whenever a resize is under way, and manual input converts its fields
    whatever they hold when no aspect ratio is in force. *)
Theorem reachable_states_handle_input (st : Crop.State) :
  CropPage.reachable st ->
  0 < Crop.scale st /\
  (forall cx cy, exists st', Crop.handleMouseMove st cx cy = Some st') /\
  (forall touches, exists st', CropPage.handleTouchMove st touches = Some st')
  /\
  (Crop.activeRatio st = None ->
   forall fX fY fW fH,
   exists st', Crop.handleManualInput st fX fY fW fH = Some st').
Proof.
  intro R. destruct (reachable_sound st R) as [P H].
  assert (M : forall dx dy,
            Crop.isResizing st = true ->
            exists st', Crop.resizeCropBox st dx dy = Some st').
  { intros dx dy Rz. destruct (H Rz) as (h & Eh).
    unfold Crop.resizeCropBox. rewrite Eh. cbn [Js.bind].
    destruct (resizeRect_total (Crop.aspectRatio st) (Crop.displayWidth st)
                (Crop.displayHeight st) h (Crop.startCrop st) dx dy)
      as (c & E).
    rewrite E. cbn [Js.bind]. eexists. reflexivity. }
  split; [exact P |]. split; [| split].
  - intros cx cy. unfold Crop.handleMouseMove.
    destruct (Crop.isDragging st); cbn [negb andb];
      [eexists; reflexivity |].
    destruct (Crop.isResizing st) eqn:Rz; cbn [negb];
      [| eexists; reflexivity].
    apply M. reflexivity.
  - intros touches. unfold CropPage.handleTouchMove.
    destruct (Crop.isDragging st); cbn [negb andb].
    + destruct touches as [| [cx cy] [| ? ?]]; eexists; reflexivity.
    + destruct (Crop.isResizing st) eqn:Rz; cbn [negb];
        [| eexists; reflexivity].
      destruct touches as [| [cx cy] [| ? ?]]; try (eexists; reflexivity).
      apply M. reflexivity.
  - intros Free fX fY fW fH. unfold Crop.handleManualInput.
    rewrite manualRect_defined by lra. cbn [Js.bind].
    replace (Crop.activeRatio (Crop.setCropState st _)) with
      (Crop.activeRatio st) by reflexivity.
    rewrite Free. eexists. reflexivity.
Qed.

Lemma reachable_states_handle_input_witness :
  0 < Crop.scale
        (Crop.handleMouseDown (CropPage.reset CropPage.initial) 100 100
           (Crop.OnHandle Crop.tl) 5 5).
Proof.
  destruct (reachable_states_handle_input
    (Crop.handleMouseDown (CropPage.reset CropPage.initial) 100 100
       (Crop.OnHandle Crop.tl) 5 5)) as (P & _).
  - eapply Relation_Operators.rtn1_trans.
    + apply CropPage.ev_step. apply Crop.step_down.
    + eapply Relation_Operators.rtn1_trans; [apply CropPage.ev_reset | apply Relation_Operators.rtn1_refl].
  - exact P.
Defined.

(** ** Uploads into the crop tool *)

(** X11.  An upload of a valid file that decodes to w by h pixels records
    these dimensions whether the upload succeeds or not.  If it succeeds,
    the session refers to the uploaded asset and the reset and apply
    buttons are enabled.  If it fails, the asset reference is left as it
    was: a following apply names the earlier upload in every request it
    issues, and issues none when there was no earlier upload. *)
Theorem crop_upload_outcomes
    (st : Crop.State) (file : Upscale.File) (w h : Z)
    (upload : Api.Outcome Api.UploadResult) :
  Upscale.validateFile file = true ->
  let st' := fst (CropPage.handleFileSelect st file (Some (w, h)) upload) in
  Crop.imageWidth st' = w /\ Crop.imageHeight st' = h /\
  Crop.cropState st' = Crop.cropState st /\
  (forall result, upload = Api.HttpOk result ->
     Crop.uploadedFilename st' = Some (Api.uploadFilename result) /\
     Crop.resetBtnDisabled st' = false /\ Crop.applyBtnDisabled st' = false)
  /\
  (forall message, Api.settle "Upload failed" upload = inl message ->
     Crop.uploadedFilename st' = Crop.uploadedFilename st /\
     (forall server r,
        In (Api.PostCrop r) (snd (Crop.applyCrop st' server)) ->
        Crop.uploadedFilename st = Some (Api.cropFilename r)) /\
     (Api.noName (Crop.uploadedFilename st) = true ->
      forall server,
        snd (Crop.applyCrop st' server)
        = [Api.Toast "Please upload an image first" "warning"])).
Proof.
  intros V st'.
  assert (Vu : Utils.validateFile file = (true, [])).
  { unfold Utils.validateFile. unfold Upscale.validateFile in V.
    destruct (negb (existsb _ _)); [discriminate |].
    destruct (Upscale.size file >? _)%Z; [discriminate | reflexivity]. }
  unfold st', CropPage.handleFileSelect. rewrite Vu. cbn [negb].
  destruct (Api.settle "Upload failed" upload) as [msg | res] eqn:S;
    cbn [fst]; (split; [reflexivity |]); (split; [reflexivity |]);
    (split; [reflexivity |]); split.
  - intros result ->. discriminate S.
  - intros message _. split; [reflexivity |]. split.
    + intros server r I.
      destruct (Crop.uploadedFilename st) as [name |] eqn:U.
      * rewrite (applyCrop_requests (Crop.setImage st (Some name) w h)
                   server name r eq_refl I).
        reflexivity.
      * unfold Crop.applyCrop in I. cbn in I.
        destruct I as [I | []]. discriminate I.
    + intros N server. unfold Crop.applyCrop.
      cbn [Crop.uploadedFilename Crop.setImage].
      destruct (Crop.uploadedFilename st) as [name |] eqn:U;
        [| reflexivity].
      rewrite N. reflexivity.
  - intros result ->. cbn in S. injection S as <-.
    repeat split; reflexivity.
  - intros message [=].
Qed.

Lemma crop_upload_outcomes_witness :
  Crop.uploadedFilename
    (fst (CropPage.handleFileSelect
            (Crop.session 200 200 100 100 None (Crop.mkCrop 10 10 50 50))
            (Upscale.mkFile "image/webp" 2048) (Some (640, 480)%Z)
            (Api.HttpError None))) = Some "upload.png"%string.
Proof.
  destruct (crop_upload_outcomes
    (Crop.session 200 200 100 100 None (Crop.mkCrop 10 10 50 50))
    (Upscale.mkFile "image/webp" 2048) 640 480 (Api.HttpError None) eq_refl)
    as (_ & _ & _ & _ & F).
  destruct (F "Upload failed"%string eq_refl) as (K & _). exact K.
Defined.

(** ** File validation *)

(** X12.  [validateFile] accepts a file exactly when its type is one of
    image/jpeg, image/png, image/webp and its size is at most 10 MiB
    (10485760 bytes, the bound included).  [UploadHandler.handleFile]
    decides the same: it hands the file on exactly when [validateFile]
    accepts it, and when [showToast] exists it shows the same toast. *)
Theorem upload_handler_agrees (file : Upscale.File) (shown : bool) :
  (Upscale.validateFile file = true <->
   (Upscale.type file = "image/jpeg" \/ Upscale.type file = "image/png" \/
    Upscale.type file = "image/webp")%string /\
   (Upscale.size file <= 10485760)%Z) /\
  fst (Utils.validateFile file) = Upscale.validateFile file /\
  snd (UploadHandler.handleFile (UploadHandler.construct shown) file) =
    (if Upscale.validateFile file then Some file else None) /\
  fst (UploadHandler.handleFile (UploadHandler.construct shown) file) =
    (if shown then snd (Utils.validateFile file) else []).
Proof.
  split.
  - unfold Upscale.validateFile. cbn [existsb]. rewrite orb_false_r.
    destruct (String.eqb_spec (Upscale.type file) "image/jpeg") as [J | J];
      destruct (String.eqb_spec (Upscale.type file) "image/png") as [P | P];
      destruct (String.eqb_spec (Upscale.type file) "image/webp") as [W | W];
      cbn [orb negb];
      destruct (Z.gtb_spec (Upscale.size file) (10 * 1024 * 1024)) as [G | G];
      split; try discriminate;
      try (intros _; split; [tauto | lia]);
      try (intros [_ L]; lia);
      try (intros [[K | [K | K]] _]; contradiction);
      intros _; reflexivity.
  - unfold Upscale.validateFile, Utils.validateFile,
      UploadHandler.handleFile, UploadHandler.construct.
    cbn [UploadHandler.validTypes UploadHandler.maxSize
         UploadHandler.hasShowToast].
    destruct (negb (existsb (String.eqb (Upscale.type file)) _));
      [destruct shown; repeat split; reflexivity |].
    destruct (Upscale.size file >? 10 * 1024 * 1024)%Z;
      destruct shown; repeat split; reflexivity.
Qed.

(** ** The pending image *)

(** X13.  [checkPendingImage] hands out a pending image once.  It answers
    the stored pair exactly when both keys hold a non-empty string, and
    then removes both keys and no other; otherwise it leaves the storage
    as it is.  Either way a second check answers null. *)
Theorem pending_image_taken_once (s : Utils.Storage) :
  let s1 := fst (Utils.checkPendingImage s) in
  snd (Utils.checkPendingImage s1) = None /\
  (forall dataUrl name,
     snd (Utils.checkPendingImage s) = Some (dataUrl, name) <->
     Utils.getItem s "pendingImage" = Some dataUrl /\
     Utils.getItem s "pendingImageName" = Some name /\
     dataUrl <> ""%string /\ name <> ""%string) /\
  (snd (Utils.checkPendingImage s) <> None ->
   Utils.getItem s1 "pendingImage" = None /\
   Utils.getItem s1 "pendingImageName" = None) /\
  (snd (Utils.checkPendingImage s) = None -> s1 = s) /\
  (forall key, key <> "pendingImage"%string ->
               key <> "pendingImageName"%string ->
               Utils.getItem s1 key = Utils.getItem s key).
Proof.
  unfold Utils.checkPendingImage, Utils.getItem.
  destruct (s "pendingImage"%string) as [[| a d] |] eqn:Ei;
    destruct (s "pendingImageName"%string) as [[| b n] |] eqn:En;
    cbn [Api.noName negb andb fst snd];
    unfold Utils.removeItem; cbn [String.eqb Ascii.eqb Bool.eqb];
    rewrite ?Ei, ?En.
  all: split; [reflexivity |].
  all: split;
    [intros dataUrl name; split;
     [intros [= <- <-] || discriminate | intros (A & B & C & D)];
     try (injection A as <-); try (injection B as <-);
     try discriminate; try contradiction;
     repeat split; (reflexivity || discriminate) |].
  all: split; [intro K; try (exfalso; apply K; reflexivity);
               split; reflexivity |].
  all: split; [intro K; try discriminate K; reflexivity |].
  all: intros key K1 K2; try reflexivity.
  apply String.eqb_neq in K1, K2. rewrite K1, K2. reflexivity.
Qed.

(** ** The upscale session *)

Section UpscaleSession.

Import Upscale.

Lemma processUpscale_requests (st : State)
    (server : Api.UpscaleRequest -> Api.Outcome Api.UpscaleResult)
    (r : Api.UpscaleRequest) :
  In (Api.PostUpscale r) (snd (processUpscale st server)) ->
  uploadedFilename st = Some (Api.upscaleFilename r) /\
  Api.upscaleFilename r <> ""%string /\
  Api.upscaleScale r = selectedScale st /\
  tooLarge (originalWidth st) (originalHeight st) (selectedScale st) = false.
Proof.
  unfold processUpscale.
  destruct (uploadedFilename st) as [name |] eqn:U.
  - destruct (Api.noName (Some name)) eqn:N.
    + cbn. intros [H | []]. discriminate H.
    + destruct (tooLarge _ _ _) eqn:T.
      * cbn. intros [H | []]. discriminate H.
      * assert (Ne : name <> ""%string)
          by (intros ->; discriminate N).
        destruct (Api.settle "Upscale failed" _); cbn; intro H;
          repeat (destruct H as [H | H]; try discriminate H);
          try contradiction; injection H as <-; cbn; auto.
  - cbn. intros [H | []]. discriminate H.
Qed.

(** The highlighted card is the selected scale, one of 2, 4 and 8, and its
    card takes clicks, as does the 2x card. *)
Lemma Chosen_gate (st : State) (w h : Z) :
  UpscalePage.Chosen st -> UpscalePage.Chosen (gateScales st w h).
Proof.
  intros (S & A & C2 & C).
  pose proof (gateScales_selected st w h) as GS.
  destruct (gateScales_cards st w h) as (G8 & G4 & G2).
  assert (GA : activeCard (gateScales st w h)
               = selectedScale (gateScales st w h)).
  { unfold gateScales.
    destruct (tooLarge w h 8 && (selectedScale st =? 8)%Z);
      destruct (tooLarge w h 4 && _); cbn; try reflexivity; exact A. }
  unfold UpscalePage.Chosen, cardEnabled.
  rewrite GA, G2, C2, GS, G4, G8.
  destruct S as [-> | [-> | ->]]; cbn [Z.eqb Pos.eqb];
    destruct (tooLarge w h 8) eqn:T8; destruct (tooLarge w h 4) eqn:T4;
    cbn; auto 6.
Qed.

Lemma gateScales_keeps (st : State) (w h : Z) :
  uploadedFilename (gateScales st w h) = uploadedFilename st /\
  upscaleBtnDisabled (gateScales st w h) = upscaleBtnDisabled st /\
  originalWidth (gateScales st w h) = w /\
  originalHeight (gateScales st w h) = h.
Proof.
  unfold gateScales.
  destruct (tooLarge w h 8 && _); destruct (tooLarge w h 4 && _);
    repeat split; reflexivity.
Qed.

Lemma Chosen_event (st st' : State) :
  UpscalePage.event st st' -> UpscalePage.Chosen st -> UpscalePage.Chosen st'.
Proof.
  intros [s file dims upload | s k K | s server | s | s | s] Ch.
  - unfold handleFileSelect.
    destruct (negb (validateFile file)); [exact Ch |].
    destruct dims as [[w h] |]; [| exact Ch].
    pose proof (Chosen_gate s w h Ch) as G.
    destruct (Api.settle "Upload failed" upload); exact G.
  - unfold selectScale. destruct (cardEnabled s k) eqn:E; cbn [negb];
      [| exact Ch].
    destruct Ch as (_ & _ & C2 & _).
    split; [exact K |]. split; [reflexivity |].
    split; [exact C2 | exact E].
  - unfold processUpscale.
    destruct (uploadedFilename s) as [name |]; [| exact Ch].
    destruct (Api.noName (Some name)); [exact Ch |].
    destruct (tooLarge _ _ _); [exact Ch |].
    destruct (Api.settle "Upscale failed" _); exact Ch.
  - exact Ch.
  - exact Ch.
  - unfold UpscalePage.Chosen. cbn. auto.
Qed.

Lemma reachable_Chosen (st : State) :
  UpscalePage.reachable st -> UpscalePage.Chosen st.
Proof.
  induction 1 as [| s s' E _ IH].
  - unfold UpscalePage.Chosen. cbn. auto.
  - exact (Chosen_event _ _ E IH).
Qed.

End UpscaleSession.

(** X14.  Every request [processUpscale] issues names the session's
    current, non-empty upload and carries the selected scale, and its
    projected output is at most 10000 px each way: a scale whose output
    would be larger is never sent, whether its card was disabled or not. *)
Theorem upscale_request_within_limit
    (st : Upscale.State)
    (server : Api.UpscaleRequest -> Api.Outcome Api.UpscaleResult)
    (r : Api.UpscaleRequest) :
  In (Api.PostUpscale r) (snd (Upscale.processUpscale st server)) ->
  Upscale.uploadedFilename st = Some (Api.upscaleFilename r) /\
  Api.upscaleFilename r <> ""%string /\
  Api.upscaleScale r = Upscale.selectedScale st /\
  (Upscale.originalWidth st * Api.upscaleScale r <= 10000)%Z /\
  (Upscale.originalHeight st * Api.upscaleScale r <= 10000)%Z.
Proof.
  intro I.
  destruct (processUpscale_requests st server r I) as (U & N & S & T).
  split; [exact U |]. split; [exact N |]. split; [exact S |].
  rewrite S. unfold Upscale.tooLarge in T.
  apply orb_false_iff in T. destruct T as [Tw Th].
  rewrite Z.gtb_ltb in Tw, Th. apply Z.ltb_ge in Tw, Th. split; assumption.
Qed.

Lemma upscale_request_within_limit_witness :
  (Upscale.originalWidth
     (Upscale.mkState (Some "upload.png"%string) None 2000 1500 4
        true true false 4 true true false false true)
   * Api.upscaleScale (Api.mkUpscaleRequest "upload.png" 4) <= 10000)%Z.
Proof.
  destruct (upscale_request_within_limit
    (Upscale.mkState (Some "upload.png"%string) None 2000 1500 4
       true true false 4 true true false false true)
    (fun _ => Api.TransportError "Failed to fetch")
    (Api.mkUpscaleRequest "upload.png" 4)) as (_ & _ & _ & W & _).
  - right. left. reflexivity.
  - exact W.
Defined.

(** X15.  In every state the upscale session can reach, the highlighted
    card is the selected scale, which is 2, 4 or 8 and whose card takes
    clicks.  After a successful upload of a valid file into such a state,
    [processUpscale] sends the selected scale if the 2x output fits in
    10000 px each way, and otherwise sends nothing and warns that the
    result would be too large. *)
Theorem gated_selection_is_processable
    (st : Upscale.State) (file : Upscale.File) (w h : Z)
    (result : Api.UploadResult)
    (server : Api.UpscaleRequest -> Api.Outcome Api.UpscaleResult) :
  UpscalePage.reachable st ->
  Upscale.validateFile file = true ->
  Api.uploadFilename result <> ""%string ->
  let st' :=
    fst (Upscale.handleFileSelect st file (Some (w, h)) (Api.HttpOk result)) in
  UpscalePage.Chosen st /\ UpscalePage.Chosen st' /\
  (Upscale.tooLarge w h 2 = false ->
   Upscale.tooLarge w h (Upscale.selectedScale st') = false /\
   In (Api.PostUpscale
         (Api.mkUpscaleRequest (Api.uploadFilename result)
            (Upscale.selectedScale st')))
      (snd (Upscale.processUpscale st' server))) /\
  (Upscale.tooLarge w h 2 = true ->
   Upscale.selectedScale st' = 2%Z /\
   Upscale.processUpscale st' server =
     (st', [Api.Toast
              "Resulting image would be too large. Try a smaller scale."
              "warning"])).
Proof.
  intros R V N st'.
  pose proof (reachable_Chosen st R) as Ch.
  assert (R' : UpscalePage.reachable st').
  { eapply Relation_Operators.rtn1_trans;
      [apply UpscalePage.ev_file | exact R]. }
  pose proof (reachable_Chosen st' R') as Ch'.
  split; [exact Ch |]. split; [exact Ch' |].
  assert (E : st' = Upscale.setUploaded (Upscale.gateScales st w h)
                      (Api.uploadFilename result)).
  { unfold st', Upscale.handleFileSelect. rewrite V. reflexivity. }
  clearbody st'. clear R' Ch'.
  destruct (gateScales_keeps st w h) as (_ & _ & Gw & Gh).
  pose proof (gateScales_selected st w h) as GS.
  assert (Eu : Upscale.uploadedFilename st'
               = Some (Api.uploadFilename result))
    by (rewrite E; reflexivity).
  assert (Ew : Upscale.originalWidth st' = w) by (rewrite E; exact Gw).
  assert (Eh : Upscale.originalHeight st' = h) by (rewrite E; exact Gh).
  assert (Sel : Upscale.selectedScale st'
                = Upscale.selectedScale (Upscale.gateScales st w h))
    by (rewrite E; reflexivity).
  rewrite <- Sel in GS. clear E Sel Gw Gh.
  assert (Nn : Api.noName (Some (Api.uploadFilename result)) = false).
  { destruct (Api.uploadFilename result); [contradiction | reflexivity]. }
  assert (T48 : Upscale.tooLarge w h 4 = true -> Upscale.tooLarge w h 8 = true).
  { unfold Upscale.tooLarge. rewrite !orb_true_iff, !Z.gtb_lt. lia. }
  assert (T24 : Upscale.tooLarge w h 2 = true -> Upscale.tooLarge w h 4 = true).
  { unfold Upscale.tooLarge. rewrite !orb_true_iff, !Z.gtb_lt. lia. }
  destruct Ch as (S & _).
  split.
  - intro T2.
    assert (T : Upscale.tooLarge w h (Upscale.selectedScale st') = false).
    { rewrite GS.
      destruct S as [-> | [-> | ->]]; cbn [Z.eqb Pos.eqb];
        try exact T2;
        destruct (Upscale.tooLarge w h 8) eqn:T8;
        destruct (Upscale.tooLarge w h 4) eqn:T4;
        try assumption; try reflexivity;
        try (specialize (T48 eq_refl); discriminate T48). }
    split; [exact T |].
    unfold Upscale.processUpscale. rewrite Eu, Ew, Eh, Nn, T.
    destruct (Api.settle "Upscale failed" _); cbn; auto.
  - intro T2. pose proof (T24 T2) as T4. pose proof (T48 T4) as T8.
    assert (S2 : Upscale.selectedScale st' = 2%Z).
    { rewrite GS, T4, T8.
      destruct S as [-> | [-> | ->]]; reflexivity. }
    split; [exact S2 |].
    unfold Upscale.processUpscale. rewrite Eu, Ew, Eh, Nn, S2, T2.
    reflexivity.
Qed.

Lemma gated_selection_is_processable_witness :
  In (Api.PostUpscale (Api.mkUpscaleRequest "a.png" 2))
     (snd (Upscale.processUpscale
             (fst (Upscale.handleFileSelect
                     (Upscale.selectScale Upscale.fresh 8)
                     (Upscale.mkFile "image/png" 4096) (Some (4000, 3000)%Z)
                     (Api.HttpOk (Api.mkUploadResult "a.png"))))
             (fun _ => Api.TransportError "Failed to fetch"))).
Proof.
  destruct (gated_selection_is_processable
    (Upscale.selectScale Upscale.fresh 8)
    (Upscale.mkFile "image/png" 4096) 4000 3000
    (Api.mkUploadResult "a.png")
    (fun _ => Api.TransportError "Failed to fetch"))
    as (_ & _ & P & _).
  - eapply Relation_Operators.rtn1_trans; [| apply Relation_Operators.rtn1_refl].
    apply UpscalePage.ev_select. right. right. reflexivity.
  - reflexivity.
  - discriminate.
  - destruct (P eq_refl) as (_ & I). exact I.
Defined.

(** X16.  An upload into the upscale tool whose transfer fails still
    records the dimensions of the new file and gates the scale cards by
    them, but leaves the asset reference as it was: every request a
    following [processUpscale] issues names the earlier upload. *)
Theorem upscale_failed_upload_keeps_asset
    (st : Upscale.State) (file : Upscale.File) (w h : Z)
    (upload : Api.Outcome Api.UploadResult) (message : string) :
  Upscale.validateFile file = true ->
  Api.settle "Upload failed" upload = inl message ->
  let st' := fst (Upscale.handleFileSelect st file (Some (w, h)) upload) in
  st' = Upscale.gateScales st w h /\
  Upscale.originalWidth st' = w /\ Upscale.originalHeight st' = h /\
  Upscale.uploadedFilename st' = Upscale.uploadedFilename st /\
  Upscale.upscaleBtnDisabled st' = Upscale.upscaleBtnDisabled st /\
  (forall server r,
     In (Api.PostUpscale r) (snd (Upscale.processUpscale st' server)) ->
     Upscale.uploadedFilename st = Some (Api.upscaleFilename r) /\
     (w * Api.upscaleScale r <= 10000)%Z /\
     (h * Api.upscaleScale r <= 10000)%Z).
Proof.
  intros V S st'.
  assert (E : st' = Upscale.gateScales st w h).
  { unfold st', Upscale.handleFileSelect. rewrite V, S. reflexivity. }
  clearbody st'. split; [exact E |]. rewrite E.
  destruct (gateScales_keeps st w h) as (U & B & Ww & Wh).
  split; [exact Ww |]. split; [exact Wh |]. split; [exact U |].
  split; [exact B |].
  intros server r I.
  destruct (upscale_request_within_limit _ server r I)
    as (Ur & _ & _ & Lw & Lh).
  rewrite U in Ur. rewrite Ww in Lw. rewrite Wh in Lh. auto.
Qed.

Lemma upscale_failed_upload_keeps_asset_witness :
  Upscale.uploadedFilename
    (fst (Upscale.handleFileSelect
            (Upscale.mkState (Some "first.png"%string) None 640 480 4
               true true true 4 true true false false true)
            (Upscale.mkFile "image/jpeg" 4096) (Some (3000, 2000)%Z)
            (Api.TransportError "Failed to fetch")))
  = Some "first.png"%string.
Proof.
  destruct (upscale_failed_upload_keeps_asset
    (Upscale.mkState (Some "first.png"%string) None 640 480 4
       true true true 4 true true false false true)
    (Upscale.mkFile "image/jpeg" 4096) 3000 2000
    (Api.TransportError "Failed to fetch") "Failed to fetch"
    eq_refl eq_refl) as (_ & _ & _ & U & _).
  exact U.
Defined.

(** ** The comparison slider *)

Section Slider.

Import UpscalePage.

Lemma positionAt_range (clientX left w : Q) :
  InRange (mkSlider (positionAt clientX left w) false).
Proof.
  unfold InRange, positionAt. cbn [sliderPosition].
  destruct (Qeq_bool w 0).
  - destruct (Js.gtb (clientX - left) 0); [lra |].
    destruct (Js.ltb (clientX - left) 0); [lra | exact I].
  - apply clamp_range. lra.
Qed.

Lemma positionAt_number (clientX left w : Q) :
  ~ w == 0 ->
  positionAt clientX left w = Some (clamp ((clientX - left) / w * 100) 0 100).
Proof.
  intro H. unfold positionAt.
  destruct (Qeq_bool w 0) eqn:E; [| reflexivity].
  apply Qeq_bool_iff in E. contradiction.
Qed.

Lemma positionAt_nan (clientX left w : Q) :
  positionAt clientX left w = None <-> w == 0 /\ clientX == left.
Proof.
  unfold positionAt. split.
  - destruct (Qeq_bool w 0) eqn:E; [| discriminate].
    apply Qeq_bool_iff in E.
    destruct (Js.gtb (clientX - left) 0) eqn:G; [discriminate |].
    destruct (Js.ltb (clientX - left) 0) eqn:L; [discriminate |].
    intros _. apply gtb_false in G. apply ltb_false in L.
    split; [exact E | lra].
  - intros [E X].
    replace (Qeq_bool w 0) with true
      by (symmetry; apply Qeq_bool_iff; exact E).
    replace (Js.gtb (clientX - left) 0) with false
      by (symmetry; apply gtb_false; lra).
    replace (Js.ltb (clientX - left) 0) with false
      by (symmetry; apply ltb_false; lra).
    reflexivity.
Qed.

Lemma slides_range (ok : Q -> Prop) (s s' : Slider) :
  slides ok s s' -> InRange s -> InRange s'.
Proof.
  intros [s0 | s0 | s0 cx l w H | s0 b cx l w H | s0] R.
  - exact R.
  - exact R.
  - unfold drag. destruct (negb (isDragging s0)); [exact R |].
    exact (positionAt_range cx l w).
  - unfold clickComparison. destruct b; [exact R |].
    exact (positionAt_range cx l w).
  - unfold InRange. cbn. lra.
Qed.

Lemma slides_number (s s' : Slider) :
  slides someWidth s s' ->
  (exists p, sliderPosition s = Some p /\ 0 <= p <= 100) ->
  exists p, sliderPosition s' = Some p /\ 0 <= p <= 100.
Proof.
  intros [s0 | s0 | s0 cx l w H | s0 b cx l w H | s0] R.
  - exact R.
  - exact R.
  - unfold drag. destruct (negb (isDragging s0)); [exact R |].
    cbn [sliderPosition]. rewrite (positionAt_number cx l w H).
    eexists. split; [reflexivity |]. apply clamp_range. lra.
  - unfold clickComparison. destruct b; [exact R |].
    cbn [sliderPosition]. rewrite (positionAt_number cx l w H).
    eexists. split; [reflexivity |]. apply clamp_range. lra.
  - exists 50. split; [reflexivity | lra].
Qed.

End Slider.

(** X17.  The comparison slider starts at 50 and, whatever is done to it
    (drag starts and ends, drags, clicks, re-centring), its position is a
    number between 0 and 100 or NaN.  A drag or click computes NaN
    exactly when the comparison has width zero and the pointer is at its
    left edge (0 / 0), and a drag there does leave the slider at NaN; on
    a comparison of width zero a pointer to the right gives 100 and one
    to the left 0.  As long as the comparison has a width other than zero
    whenever the pointer acts on it, the position stays a number between
    0 and 100.  A drag moves the slider only between a drag start and a
    drag end; a drag or click at a pointer over a comparison of positive
    width puts it at the pointer's share of the width, in percent. *)
Theorem slider_stays_in_range (s : UpscalePage.Slider) :
  (clos_refl_trans_n1 UpscalePage.Slider
     (UpscalePage.slides UpscalePage.anyWidth) UpscalePage.rest s ->
   UpscalePage.InRange s) /\
  (clos_refl_trans_n1 UpscalePage.Slider
     (UpscalePage.slides UpscalePage.someWidth) UpscalePage.rest s ->
   exists p, UpscalePage.sliderPosition s = Some p /\ 0 <= p <= 100) /\
  (forall clientX left w,
     (UpscalePage.positionAt clientX left w = None
      <-> w == 0 /\ clientX == left) /\
     (w == 0 -> left < clientX ->
      UpscalePage.positionAt clientX left w = Some 100) /\
     (w == 0 -> clientX < left ->
      UpscalePage.positionAt clientX left w = Some 0)) /\
  clos_refl_trans_n1 UpscalePage.Slider
    (UpscalePage.slides UpscalePage.anyWidth) UpscalePage.rest
    (UpscalePage.mkSlider None true) /\
  (forall clientX left w,
     UpscalePage.drag (UpscalePage.endDrag s) clientX left w
     = UpscalePage.endDrag s) /\
  (forall clientX left w,
     0 < w -> left <= clientX <= left + w ->
     exists p,
       UpscalePage.positionAt clientX left w = Some p /\
       p == (clientX - left) / w * 100 /\
       UpscalePage.drag (UpscalePage.startDrag s) clientX left w
       = UpscalePage.mkSlider (Some p) true /\
       UpscalePage.clickComparison s false clientX left w
       = UpscalePage.mkSlider (Some p) (UpscalePage.isDragging s)).
Proof.
  split; [| split; [| split; [| split; [| split]]]].
  - intro R. induction R as [| s1 s2 E _ IH].
    + unfold UpscalePage.InRange. cbn. lra.
    + exact (slides_range _ _ _ E IH).
  - intro R. induction R as [| s1 s2 E _ IH].
    + exists 50. split; [reflexivity | lra].
    + exact (slides_number _ _ E IH).
  - intros clientX left w. split; [apply positionAt_nan |].
    split; intros E X; unfold UpscalePage.positionAt;
      replace (Qeq_bool w 0) with true
        by (symmetry; apply Qeq_bool_iff; exact E).
    + replace (Js.gtb (clientX - left) 0) with true
        by (symmetry; apply gtb_true; lra).
      reflexivity.
    + replace (Js.gtb (clientX - left) 0) with false
        by (symmetry; apply gtb_false; lra).
      replace (Js.ltb (clientX - left) 0) with true
        by (symmetry; apply ltb_true; lra).
      reflexivity.
  - eapply Relation_Operators.rtn1_trans.
    + exact (UpscalePage.slides_drag UpscalePage.anyWidth
               (UpscalePage.mkSlider (Some 50) true) 100 100 0 I).
    + eapply Relation_Operators.rtn1_trans;
        [| apply Relation_Operators.rtn1_refl].
      exact (UpscalePage.slides_start UpscalePage.anyWidth UpscalePage.rest).
  - reflexivity.
  - intros clientX left w Hw Hc.
    unfold UpscalePage.drag, UpscalePage.clickComparison.
    cbn [UpscalePage.isDragging UpscalePage.startDrag negb].
    rewrite positionAt_number by lra.
    eexists. split; [reflexivity |]. split; [| split; reflexivity].
    apply clamp_inside.
    + apply Qmult_le_0_compat; [| lra].
      apply Qle_shift_div_l; lra.
    + assert (D : (clientX - left) / w <= 1)
        by (apply Qle_shift_div_r; lra).
      lra.
Qed.

Lemma slider_stays_in_range_witness :
  exists p,
    UpscalePage.sliderPosition
      (UpscalePage.drag
         (UpscalePage.startDrag UpscalePage.rest) 900 100 400) = Some p /\
    0 <= p <= 100.
Proof.
  destruct (slider_stays_in_range
    (UpscalePage.drag (UpscalePage.startDrag UpscalePage.rest) 900 100 400))
    as (_ & N & _).
  apply N.
  eapply Relation_Operators.rtn1_trans.
  - apply (UpscalePage.slides_drag UpscalePage.someWidth
             (UpscalePage.startDrag UpscalePage.rest) 900 100 400).
    unfold UpscalePage.someWidth. intro H. vm_compute in H. discriminate H.
  - eapply Relation_Operators.rtn1_trans;
      [| apply Relation_Operators.rtn1_refl].
    apply (UpscalePage.slides_start UpscalePage.someWidth UpscalePage.rest).
Defined.

(** ** Downloads *)

(** X18.  A download addresses the session's result and nothing else: the
    crop tool requests /download/ followed by its current file, the
    upscale tool /download/ followed by the processed file, and with no
    such file (null or empty) neither requests anything.  After a
    successful crop or upscale whose answer names the file b, the download
    requests b. *)
Theorem downloads_address_result
    (cst : Crop.State) (ust : Upscale.State) :
  (forall url, fst (CropPage.download cst) = Some url <->
     exists name, Crop.uploadedFilename cst = Some name /\
                  name <> ""%string /\
                  url = (Api.API_BASE ++ "/download/" ++ name)%string) /\
  (forall url, fst (UpscalePage.download ust) = Some url <->
     exists name, Upscale.processedFilename ust = Some name /\
                  name <> ""%string /\
                  url = (Api.API_BASE ++ "/download/" ++ name)%string) /\
  (forall server name b,
     Crop.uploadedFilename cst = Some name -> name <> ""%string ->
     server (Crop.cropRequest cst name) = Api.HttpOk b ->
     Api.resFilename b <> ""%string ->
     fst (CropPage.download (fst (Crop.applyCrop cst server)))
     = Some (Api.API_BASE ++ "/download/" ++ Api.resFilename b)%string) /\
  (forall server name b,
     Upscale.uploadedFilename ust = Some name -> name <> ""%string ->
     Upscale.tooLarge (Upscale.originalWidth ust) (Upscale.originalHeight ust)
       (Upscale.selectedScale ust) = false ->
     server (Api.mkUpscaleRequest name (Upscale.selectedScale ust))
       = Api.HttpOk b ->
     Api.upFilename b <> ""%string ->
     fst (UpscalePage.download (fst (Upscale.processUpscale ust server)))
     = Some (Api.API_BASE ++ "/download/" ++ Api.upFilename b)%string).
Proof.
  assert (N : forall name : string,
            name <> ""%string -> Api.noName (Some name) = false).
  { intros [| a n] H; [contradiction | reflexivity]. }
  split; [| split; [| split]].
  - intro url. unfold CropPage.download.
    destruct (Crop.uploadedFilename cst) as [[| a n] |];
      cbn [Api.noName fst]; split.
    + discriminate.
    + intros (name & [= <-] & K & _). exfalso. apply K. reflexivity.
    + intros [= <-]. exists (String a n).
      split; [reflexivity |]. split; [discriminate | reflexivity].
    + intros (name & [= <-] & _ & ->). reflexivity.
    + discriminate.
    + intros (name & [=] & _).
  - intro url. unfold UpscalePage.download.
    destruct (Upscale.processedFilename ust) as [[| a n] |];
      cbn [Api.noName fst]; split.
    + discriminate.
    + intros (name & [= <-] & K & _). exfalso. apply K. reflexivity.
    + intros [= <-]. exists (String a n).
      split; [reflexivity |]. split; [discriminate | reflexivity].
    + intros (name & [= <-] & _ & ->). reflexivity.
    + discriminate.
    + intros (name & [=] & _).
  - intros server name b U Nn S Nb.
    unfold Crop.applyCrop. rewrite U, (N name Nn), S. cbn [Api.settle fst].
    unfold CropPage.download.
    cbn [Crop.uploadedFilename Crop.setImage Crop.setDownloadBtnDisabled].
    rewrite (N _ Nb). reflexivity.
  - intros server name b U Nn T S Nb.
    unfold Upscale.processUpscale. rewrite U, (N name Nn), T, S.
    cbn [Api.settle fst]. unfold UpscalePage.download.
    cbn [Upscale.processedFilename Upscale.setProcessing].
    rewrite (N _ Nb). reflexivity.
Qed.

(** ** The resize tool *)

Section Resizing.

Import ResizeTool.

Lemma orText_filled (s fallback : string) :
  fallback <> ""%string -> orText s fallback <> ""%string.
Proof.
  intro H. destruct s; [exact H | discriminate].
Qed.

Lemma resizeImage_fields (name : string) (w h : Z) (mode format : string)
    (quality : option Z) :
  let r := resizeImage name w h mode format quality in
  resizeFilename r = name /\ resizeWidth r = w /\ resizeHeight r = h /\
  resizeModeField r <> ""%string /\ resizeFormat r <> ""%string /\
  resizeQuality r <> 0%Z.
Proof.
  unfold resizeImage. cbn.
  repeat split; try (apply orText_filled; discriminate).
  destruct quality as [q |]; [| discriminate].
  destruct (Z.eqb_spec q 0); [discriminate | assumption].
Qed.

Lemma dimension_checks (n : option Z) :
  badDimension n = false -> overLimit n = false ->
  exists v, n = Some v /\ (1 <= v <= 10000)%Z.
Proof.
  destruct n as [v |]; cbn; [| discriminate].
  intros B O. exists v. split; [reflexivity |].
  apply orb_false_iff in B. destruct B as [_ B].
  apply Z.ltb_ge in B. rewrite Z.gtb_ltb in O. apply Z.ltb_ge in O. lia.
Qed.

End Resizing.

(** X19.  [processResize] sends a request exactly when a file is uploaded
    and both fields parse to whole numbers from 1 to 10000.  The request
    carries these two numbers and the name of the upload, and its mode,
    format and quality are never empty or zero (they default to fit, png
    and 90). *)
Theorem resize_request_valid
    (st : ResizeTool.State)
    (server : ResizeTool.ResizeRequest -> Api.Outcome ResizeTool.ResizeResult) :
  (forall r,
     In (ResizeTool.PostResize r) (snd (ResizeTool.processResize st server)) ->
     ResizeTool.uploadedFilename st = Some (ResizeTool.resizeFilename r) /\
     ResizeTool.resizeFilename r <> ""%string /\
     ParseInt.parseInt (ResizeTool.widthInput st)
       = Some (ResizeTool.resizeWidth r) /\
     ParseInt.parseInt (ResizeTool.heightInput st)
       = Some (ResizeTool.resizeHeight r) /\
     (1 <= ResizeTool.resizeWidth r <= 10000)%Z /\
     (1 <= ResizeTool.resizeHeight r <= 10000)%Z /\
     ResizeTool.resizeModeField r <> ""%string /\
     ResizeTool.resizeFormat r <> ""%string /\
     ResizeTool.resizeQuality r <> 0%Z) /\
  (forall name w h,
     ResizeTool.uploadedFilename st = Some name -> name <> ""%string ->
     ParseInt.parseInt (ResizeTool.widthInput st) = Some w ->
     ParseInt.parseInt (ResizeTool.heightInput st) = Some h ->
     (1 <= w <= 10000)%Z -> (1 <= h <= 10000)%Z ->
     exists r,
       In (ResizeTool.PostResize r)
          (snd (ResizeTool.processResize st server)) /\
       ResizeTool.resizeFilename r = name /\
       ResizeTool.resizeWidth r = w /\ ResizeTool.resizeHeight r = h).
Proof.
  split.
  - intros r. unfold ResizeTool.processResize.
    destruct (Api.noName (ResizeTool.uploadedFilename st)) eqn:N.
    { cbn. intros [H | []]. discriminate H. }
    destruct (ResizeTool.uploadedFilename st) as [name |] eqn:U.
    2:{ cbn. intros [H | []]. discriminate H. }
    destruct (ResizeTool.badDimension (ParseInt.parseInt
                (ResizeTool.widthInput st))
              || ResizeTool.badDimension (ParseInt.parseInt
                   (ResizeTool.heightInput st))) eqn:B.
    { cbn. intros [H | []]. discriminate H. }
    destruct (ResizeTool.overLimit (ParseInt.parseInt
                (ResizeTool.widthInput st))
              || ResizeTool.overLimit (ParseInt.parseInt
                   (ResizeTool.heightInput st))) eqn:O.
    { cbn. intros [H | []]. discriminate H. }
    apply orb_false_iff in B, O. destruct B as [Bw Bh]. destruct O as [Ow Oh].
    destruct (dimension_checks _ Bw Ow) as (w & Ew & Rw).
    destruct (dimension_checks _ Bh Oh) as (h & Eh & Rh).
    rewrite Ew, Eh.
    pose proof (resizeImage_fields name w h (ResizeTool.resizeMode st)
                  (ResizeTool.formatSelect st)
                  (ParseInt.parseInt (ResizeTool.qualitySlider st))) as F.
    cbv zeta in F. destruct F as (F1 & F2 & F3 & F4 & F5 & F6).
    assert (Ne : name <> ""%string) by (intros ->; discriminate N).
    destruct (Api.settle "Resize failed" _); cbn; intro H;
      repeat (destruct H as [H | H]; try discriminate H);
      try contradiction; injection H as <-;
      rewrite F1, F2, F3; repeat split; auto; lia.
  - intros name w h U Nn Ew Eh Rw Rh.
    unfold ResizeTool.processResize. rewrite U, Ew, Eh.
    replace (Api.noName (Some name)) with false
      by (destruct name; [contradiction | reflexivity]).
    replace (ResizeTool.badDimension (Some w)) with false.
    2:{ cbn. symmetry. apply orb_false_iff.
        split; [apply Z.eqb_neq | apply Z.ltb_ge]; lia. }
    replace (ResizeTool.badDimension (Some h)) with false.
    2:{ cbn. symmetry. apply orb_false_iff.
        split; [apply Z.eqb_neq | apply Z.ltb_ge]; lia. }
    replace (ResizeTool.overLimit (Some w)) with false.
    2:{ cbn. symmetry. rewrite Z.gtb_ltb. apply Z.ltb_ge. lia. }
    replace (ResizeTool.overLimit (Some h)) with false.
    2:{ cbn. symmetry. rewrite Z.gtb_ltb. apply Z.ltb_ge. lia. }
    cbn [orb]. eexists. split.
    + destruct (Api.settle "Resize failed" _); cbn; left; reflexivity.
    + repeat split; reflexivity.
Qed.

(** ** Touches *)

(** X21.  A touch with exactly one finger does what the mouse does at the
    finger's position, on touch start as on touch move; with no finger or
    with several, touch start and touch move leave the state as it is,
    even in the middle of a gesture. *)
Theorem touch_follows_mouse
    (st : Crop.State) (rw rh : Q) (t : Crop.Target)
    (touches : list (Q * Q)) :
  (forall cx cy,
     touches = [(cx, cy)] ->
     CropPage.handleTouchStart st rw rh t touches
       = Crop.handleMouseDown st rw rh t cx cy /\
     CropPage.handleTouchMove st touches = Crop.handleMouseMove st cx cy) /\
  (List.length touches <> 1%nat ->
   CropPage.handleTouchStart st rw rh t touches = st /\
   CropPage.handleTouchMove st touches = Some st) /\
  CropPage.handleTouchEnd st = Crop.handleMouseUp st.
Proof.
  split; [| split].
  - intros cx cy ->. split; [reflexivity |].
    unfold CropPage.handleTouchMove, Crop.handleMouseMove. reflexivity.
  - intro L. destruct touches as [| [cx cy] [| q qs]];
      try (exfalso; apply L; reflexivity);
      (split; [reflexivity |]);
      unfold CropPage.handleTouchMove;
      destruct (negb (Crop.isDragging st) && negb (Crop.isResizing st));
      reflexivity.
  - reflexivity.
Qed.
